(** * Restaurant AI: the multi-tenant response pipeline

    A shallow embedding of [app_async.py] (the asynchronous multi-restaurant
    server) and of [app_clean.py] (the single-restaurant server with the
    rule-based assistant), and the properties of the tenant resolver, the
    cache-aside store, the backend client, the rule engine, the recommendation
    extractor and the orchestrator that the specification states.

    Conventions of the embedding:
    - a Python [str] is a [string]; the methods [str.lower], [str.strip] and the
      builtin [hash] belong to the interpreter and are taken through the class
      [PyText] (its ASCII instance is [ascii_text]);
    - prices are kept in cents, as integers;
    - code that raises returns [Raise e]; code that mutates objects or talks to
      Redis, PostgreSQL or the generative backend threads an explicit state
      through the monad [M];
    - only [logger.error] calls are recorded (in the event trace); [info] and
      [debug] messages are left out. *)

From Stdlib Require Import ZArith Ascii String List Bool Lia.
From stdpp Require Import base gmap strings list.
From Stdlib Require Import Sorted Permutation.

Local Open Scope Z_scope.
Set Warnings "-register-all".

(** ** Python strings *)

(** [needle in hay] *)
Fixpoint str_in (needle hay : string) : bool :=
  String.prefix needle hay ||
  match hay with
  | EmptyString => false
  | String _ rest => str_in needle rest
  end.

(** [s.startswith(p)] *)
Definition startswith (s p : string) : bool := String.prefix p s.

(** [s.split(sep)] for a separator of one character *)
Fixpoint split (sep : ascii) (s : string) : list string :=
  match s with
  | EmptyString => [EmptyString]
  | String c rest =>
      if Ascii.eqb c sep then EmptyString :: split sep rest
      else match split sep rest with
           | [] => [String c EmptyString]
           | w :: ws => String c w :: ws
           end
  end.

(** [sep.join(l)] *)
Fixpoint join (sep : string) (l : list string) : string :=
  match l with
  | [] => ""
  | [x] => x
  | x :: rest => x +:+ sep +:+ join sep rest
  end.

(** [any(k in message for k in keywords)] *)
Definition any_in (keywords : list string) (message : string) : bool :=
  existsb (fun k => str_in k message) keywords.

(** The string methods of the interpreter: [str.lower], [str.strip], and the
    builtin [hash] (salted per process for strings). *)
Class PyText := {
  lower : string -> string;
  strip : string -> string;
  hash : string -> Z
}.

Definition ascii_is_upper (c : ascii) : bool :=
  (65 <=? nat_of_ascii c)%nat && (nat_of_ascii c <=? 90)%nat.

Definition ascii_lower_char (c : ascii) : ascii :=
  if ascii_is_upper c then ascii_of_nat (nat_of_ascii c + 32) else c.

Fixpoint ascii_lower (s : string) : string :=
  match s with
  | EmptyString => EmptyString
  | String c rest => String (ascii_lower_char c) (ascii_lower rest)
  end.

(** The characters [str.strip] removes, in the ASCII range. *)
Definition ascii_is_space (c : ascii) : bool :=
  let n := nat_of_ascii c in
  (n =? 32)%nat || ((9 <=? n)%nat && (n <=? 13)%nat) || ((28 <=? n)%nat && (n <=? 31)%nat).

Fixpoint ascii_lstrip (s : string) : string :=
  match s with
  | EmptyString => EmptyString
  | String c rest => if ascii_is_space c then ascii_lstrip rest else s
  end.

Fixpoint ascii_rstrip (s : string) : string :=
  match s with
  | EmptyString => EmptyString
  | String c rest =>
      match ascii_rstrip rest with
      | EmptyString => if ascii_is_space c then EmptyString else String c EmptyString
      | r => String c r
      end
  end.

Definition ascii_strip (s : string) : string := ascii_rstrip (ascii_lstrip s).

Fixpoint ascii_sum (s : string) : Z :=
  match s with
  | EmptyString => 0
  | String c rest => Z.of_nat (nat_of_ascii c) + ascii_sum rest
  end.

(** ASCII text, with one fixed hash salt. *)
Definition ascii_text : PyText :=
  {| lower := ascii_lower; strip := ascii_strip; hash := ascii_sum |}.

(** ** Number formatting *)

Definition digit_char (n : nat) : ascii := ascii_of_nat (48 + n).

Fixpoint nat_digits (fuel n : nat) (acc : string) : string :=
  match fuel with
  | O => acc
  | S fuel' =>
      let acc' := String (digit_char (n mod 10)) acc in
      if (n <? 10)%nat then acc' else nat_digits fuel' (n / 10) acc'
  end.

(** [str(n)] for a natural number *)
Definition str_of_nat (n : nat) : string := nat_digits (S n) n "".

(** [str(z)] for an integer *)
Definition str_of_Z (z : Z) : string :=
  if z <? 0 then "-" +:+ str_of_nat (Z.to_nat (- z)) else str_of_nat (Z.to_nat z).

(** [f"{price:.2f}"] for a price held in cents *)
Definition fmt_price (cents : Z) : string :=
  let a := Z.abs cents in
  let frac := Z.to_nat (a mod 100) in
  (if cents <? 0 then "-" else "") +:+ str_of_nat (Z.to_nat (a / 100)) +:+ "." +:+
  (if (frac <? 10)%nat then "0" else "") +:+ str_of_nat frac.

(** [str(b)] for a boolean *)
Definition str_of_bool (b : bool) : string := if b then "True" else "False".

(** ** JSON values, as [json.loads] builds them *)

Inductive json : Type :=
| JNull
| JBool (b : bool)
| JNum (n : Z)
| JStr (s : string)
| JArr (items : list json)
| JObj (fields : list (string * json)).

(** Python truth value of a decoded JSON value *)
Definition truthy (v : json) : bool :=
  match v with
  | JNull => false
  | JBool b => b
  | JNum n => negb (n =? 0)
  | JStr s => negb (String.eqb s "")
  | JArr l => match l with [] => false | _ => true end
  | JObj l => match l with [] => false | _ => true end
  end.

Fixpoint assoc {A : Type} (k : string) (l : list (string * A)) : option A :=
  match l with
  | [] => None
  | (k', v) :: rest => if String.eqb k k' then Some v else assoc k rest
  end.

(** ** Exceptions and the state-and-exception monad *)

Inductive Exn : Type :=
| RedisError
| PostgresError
| DataError
| ClientError
| HTTPError (status : Z)
| ApiError (status : Z)
| JSONDecodeError
| KeyError
| IndexError
| TypeError
| AttributeError
| ValueError (msg : string).

Inductive Result (A : Type) : Type :=
| Ok (a : A)
| Raise (e : Exn).
Arguments Ok {A} a.
Arguments Raise {A} e.

Definition M (S A : Type) : Type := S -> Result A * S.

Definition ret {S A : Type} (a : A) : M S A := fun s => (Ok a, s).

Definition bind {S A B : Type} (m : M S A) (k : A -> M S B) : M S B :=
  fun s => match m s with
           | (Ok a, s') => k a s'
           | (Raise e, s') => (Raise e, s')
           end.

Definition raise {S A : Type} (e : Exn) : M S A := fun s => (Raise e, s).

(** [try: m  except Exception as e: handler e] *)
Definition try_except {S A : Type} (m : M S A) (handler : Exn -> M S A) : M S A :=
  fun s => match m s with
           | (Ok a, s') => (Ok a, s')
           | (Raise e, s') => handler e s'
           end.

Definition lift {S A : Type} (r : Result A) : M S A := fun s => (r, s).

Definition modify {S : Type} (f : S -> S) : M S unit := fun s => (Ok tt, f s).

Definition gets {S A : Type} (f : S -> A) : M S A := fun s => (Ok (f s), s).

Declare Scope py_scope.
Delimit Scope py_scope with py.
Notation "x <~ m ; k" := (bind m (fun x => k))
  (at level 20, m at level 100, k at level 200, only parsing) : py_scope.
Notation "' x <~ m ; k" := (bind m (fun x => k))
  (at level 20, x pattern, m at level 100, k at level 200, only parsing) : py_scope.
Notation "m ;;; k" := (bind m (fun _ => k))
  (at level 100, k at level 200, only parsing, right associativity) : py_scope.
Local Open Scope py_scope.

(** Subscripts on decoded JSON: [v[key]] and [v[0]]. *)
Definition getitem_key (v : json) (key : string) : Result json :=
  match v with
  | JObj fields => match assoc key fields with Some x => Ok x | None => Raise KeyError end
  | _ => Raise TypeError
  end.

Definition getitem_0 (v : json) : Result json :=
  match v with
  | JArr (x :: _) => Ok x
  | JArr [] => Raise IndexError
  | JStr (String c _) => Ok (JStr (String c EmptyString))
  | JStr EmptyString => Raise IndexError
  | JObj _ => Raise KeyError
  | _ => Raise TypeError
  end.

(** [d.get(key, default)]: only a dict has the method. *)
Definition dict_get (v : json) (key : string) (default : json) : Result json :=
  match v with
  | JObj fields => Ok (match assoc key fields with Some x => x | None => default end)
  | _ => Raise AttributeError
  end.

(** ** The generative backend

    The answer to one POST: no answer at all, or a status with a body. *)
Inductive HttpReply : Type :=
| ConnectionFailed
| Reply (status : Z) (body : option json).   (* [None]: the body is not JSON *)

(** ** Menu items

    One record for the dictionaries of [MENU_DATA] and for the rows that
    [get_menu_items] selects (whose [image_url] and [display_order] columns no
    code reads afterwards). *)

Record MenuItem : Type := {
  item_id : Z;
  item_name : string;
  item_description : string;
  item_price : Z;                 (* cents *)
  item_category : string;
  item_ingredients : list string;
  item_allergens : list string;
  item_vegetarian : bool;
  item_vegan : bool;
  item_gluten_free : bool;
  item_spice_level : Z;
  item_prep_time : string;
  item_calories : Z;
  item_chef_notes : string
}.

(** * app_async.py *)

Module Async.

(** ** The data model *)

(** A row of the table [restaurants]. *)
Record RestaurantRow : Type := {
  row_id : string;
  row_name : string;
  row_subdomain : string;
  row_slug : string;
  row_theme_config : string;
  row_ai_personality : option string;
  row_ai_name : option string;
  row_welcome_message : option string;
  row_created_at : Z;
  row_active : bool
}.

(** The dictionary [dict(row)] of a restaurant; [r_slug] is [None] when the
    query does not select the column ([get_restaurant_by_subdomain]). *)
Record Restaurant : Type := {
  r_id : string;
  r_name : string;
  r_subdomain : string;
  r_slug : option string;
  r_theme_config : string;
  r_ai_personality : option string;
  r_ai_name : option string;
  r_welcome_message : option string;
  r_created_at : Z
}.

(** A row of the table [menu_items]. *)
Record MenuRow : Type := {
  mrow_restaurant_id : string;
  mrow_active : bool;
  mrow_display_order : Z;
  mrow_item : MenuItem
}.

(** A row of the table [conversations]. *)
Record Conversation : Type := {
  conv_restaurant_id : string;
  conv_session_id : option string;
  conv_message : string;
  conv_response : string;
  conv_timestamp : Z
}.

(** What the process does to the outside, newest first. *)
Inductive Event : Type :=
| RedisGet (key : string)
| RedisSetex (key : string) (ttl : Z)
| RedisDelete (key : string)
| PgRestaurantBySubdomain (arg : json)
| PgRestaurantBySlug (arg : json)
| PgMenuItems (restaurant_id : string)
| PgInsertConversation (restaurant_id : string) (message response : string)
| BackendPost (url model prompt message : string)
| LogError (msg : string).

(** The world a request runs in: the Redis key spaces [restaurant:<id>] and
    [menu:<id>] (each entry with its time to live), the three tables, the
    clock, the trace, and what the outside decides: whether the n-th Redis
    command and the n-th PostgreSQL command fail, and what the backend
    answers. A Redis fault stands for any exception inside the [try] block of
    a cache method (connection, timeout, [json.dumps], [json.loads]). *)
Record World : Type := {
  redis_restaurant : gmap string (Z * Restaurant);
  redis_menu : gmap string (Z * list MenuItem);
  redis_fault : nat -> bool;
  redis_ops : nat;
  restaurants : list RestaurantRow;
  menu_items : list MenuRow;
  conversations : list Conversation;
  pg_fault : nat -> bool;
  pg_ops : nat;
  backend : string -> string -> string -> string -> HttpReply;
  clock : Z;
  trace : list Event
}.

Definition set_redis_restaurant (f : gmap string (Z * Restaurant) -> gmap string (Z * Restaurant))
    (w : World) : World :=
  {| redis_restaurant := f (redis_restaurant w); redis_menu := redis_menu w;
     redis_fault := redis_fault w; redis_ops := redis_ops w;
     restaurants := restaurants w; menu_items := menu_items w;
     conversations := conversations w; pg_fault := pg_fault w; pg_ops := pg_ops w;
     backend := backend w; clock := clock w; trace := trace w |}.

Definition set_redis_menu (f : gmap string (Z * list MenuItem) -> gmap string (Z * list MenuItem))
    (w : World) : World :=
  {| redis_restaurant := redis_restaurant w; redis_menu := f (redis_menu w);
     redis_fault := redis_fault w; redis_ops := redis_ops w;
     restaurants := restaurants w; menu_items := menu_items w;
     conversations := conversations w; pg_fault := pg_fault w; pg_ops := pg_ops w;
     backend := backend w; clock := clock w; trace := trace w |}.

Definition tick_redis (w : World) : World :=
  {| redis_restaurant := redis_restaurant w; redis_menu := redis_menu w;
     redis_fault := redis_fault w; redis_ops := S (redis_ops w);
     restaurants := restaurants w; menu_items := menu_items w;
     conversations := conversations w; pg_fault := pg_fault w; pg_ops := pg_ops w;
     backend := backend w; clock := clock w; trace := trace w |}.

Definition tick_pg (w : World) : World :=
  {| redis_restaurant := redis_restaurant w; redis_menu := redis_menu w;
     redis_fault := redis_fault w; redis_ops := redis_ops w;
     restaurants := restaurants w; menu_items := menu_items w;
     conversations := conversations w; pg_fault := pg_fault w; pg_ops := S (pg_ops w);
     backend := backend w; clock := clock w; trace := trace w |}.

Definition add_conversation (c : Conversation) (w : World) : World :=
  {| redis_restaurant := redis_restaurant w; redis_menu := redis_menu w;
     redis_fault := redis_fault w; redis_ops := redis_ops w;
     restaurants := restaurants w; menu_items := menu_items w;
     conversations := conversations w ++ [c]; pg_fault := pg_fault w; pg_ops := pg_ops w;
     backend := backend w; clock := clock w; trace := trace w |}.

Definition emit (e : Event) (w : World) : World :=
  {| redis_restaurant := redis_restaurant w; redis_menu := redis_menu w;
     redis_fault := redis_fault w; redis_ops := redis_ops w;
     restaurants := restaurants w; menu_items := menu_items w;
     conversations := conversations w; pg_fault := pg_fault w; pg_ops := pg_ops w;
     backend := backend w; clock := clock w; trace := e :: trace w |}.

(** [logger.error(msg)] *)
Definition log_error (msg : string) : M World unit := modify (emit (LogError msg)).

(** One command sent to Redis: recorded, counted, and failing when the
    outside says so. *)
Definition redis_command {A : Type} (e : Event) (run : World -> A * World) : M World A :=
  fun w =>
    let w1 := tick_redis (emit e w) in
    if redis_fault w (redis_ops w) then (Raise RedisError, w1)
    else let '(a, w2) := run w1 in (Ok a, w2).

(** One statement sent to PostgreSQL through the pool. *)
Definition pg_command {A : Type} (e : Event) (run : World -> A * World) : M World A :=
  fun w =>
    let w1 := tick_pg (emit e w) in
    if pg_fault w (pg_ops w) then (Raise PostgresError, w1)
    else let '(a, w2) := run w1 in (Ok a, w2).

(** ** class RestaurantCache *)

Definition ttl : Z := 3600.

(** A read returns the decoded entry when the key holds one ([if data:
    return json.loads(data)]) and [None] otherwise; whatever the [try] block
    raises is logged and the method returns [None]. *)
Definition get_restaurant (restaurant_id : string) : M World (option Restaurant) :=
  try_except
    (data <~ redis_command (RedisGet ("restaurant:" +:+ restaurant_id))
               (fun w => (redis_restaurant w !! restaurant_id, w));
     match data with
     | Some (_, r) => ret (Some r)
     | None => ret None
     end)
    (fun _ => log_error "Redis get error";;; ret None).

(** A write stores the entry with the time to live; a failure is logged and
    the method returns. The serialization [json.dumps(data)] stands inside the
    same [try], so its failure is a failure of the write (a Redis fault in the
    world): that is the case of every dictionary read from PostgreSQL, whose
    [created_at] is a [datetime], which [json.dumps] refuses. *)
Definition set_restaurant (restaurant_id : string) (data : Restaurant) : M World unit :=
  try_except
    (redis_command (RedisSetex ("restaurant:" +:+ restaurant_id) ttl)
       (fun w => (tt, set_redis_restaurant (fun m => <[restaurant_id := (ttl, data)]> m) w)))
    (fun _ => log_error "Redis set error").

Definition get_menu (restaurant_id : string) : M World (option (list MenuItem)) :=
  try_except
    (data <~ redis_command (RedisGet ("menu:" +:+ restaurant_id))
               (fun w => (redis_menu w !! restaurant_id, w));
     match data with
     | Some (_, menu) => ret (Some menu)
     | None => ret None
     end)
    (fun _ => log_error "Redis menu get error";;; ret None).

Definition set_menu (restaurant_id : string) (menu : list MenuItem) : M World unit :=
  try_except
    (redis_command (RedisSetex ("menu:" +:+ restaurant_id) ttl)
       (fun w => (tt, set_redis_menu (fun m => <[restaurant_id := (ttl, menu)]> m) w)))
    (fun _ => log_error "Redis menu set error").

(** Both deletes are in one [try]: when the first fails the second is not
    sent. *)
Definition invalidate_restaurant (restaurant_id : string) : M World unit :=
  try_except
    (redis_command (RedisDelete ("restaurant:" +:+ restaurant_id))
       (fun w => (tt, set_redis_restaurant (fun m => delete restaurant_id m) w));;;
     redis_command (RedisDelete ("menu:" +:+ restaurant_id))
       (fun w => (tt, set_redis_menu (fun m => delete restaurant_id m) w)))
    (fun _ => log_error "Redis invalidate error").

(** ** class DatabaseManager *)

(** How asyncpg passes a Python value for a text parameter: a [str] as it is,
    [None] as NULL (which equals no value), anything else is refused. *)
Definition text_param (v : json) : Result (option string) :=
  match v with
  | JStr s => Ok (Some s)
  | JNull => Ok None
  | _ => Raise DataError
  end.

Definition opt_eqb (column : string) (param : option string) : bool :=
  match param with
  | Some s => String.eqb column s
  | None => false
  end.

Definition dict_of_row (with_slug : bool) (row : RestaurantRow) : Restaurant :=
  {| r_id := row_id row; r_name := row_name row; r_subdomain := row_subdomain row;
     r_slug := if with_slug then Some (row_slug row) else None;
     r_theme_config := row_theme_config row;
     r_ai_personality := row_ai_personality row; r_ai_name := row_ai_name row;
     r_welcome_message := row_welcome_message row; r_created_at := row_created_at row |}.

(** [SELECT ... FROM restaurants WHERE subdomain = $1 AND active = true] *)
Definition select_by_subdomain (param : option string) (rows : list RestaurantRow)
    : option Restaurant :=
  option_map (dict_of_row false)
    (find (fun row => opt_eqb (row_subdomain row) param && row_active row) rows).

(** [SELECT ... FROM restaurants WHERE slug = $1 AND active = true] *)
Definition select_by_slug (param : option string) (rows : list RestaurantRow)
    : option Restaurant :=
  option_map (dict_of_row true)
    (find (fun row => opt_eqb (row_slug row) param && row_active row) rows).

(** The argument is whatever Python value the caller passes. *)
Definition get_restaurant_by_subdomain (subdomain : json) : M World (option Restaurant) :=
  param <~ pg_command (PgRestaurantBySubdomain subdomain) (fun w => (text_param subdomain, w));
  p <~ lift param;
  gets (fun w => select_by_subdomain p (restaurants w)).

Definition get_restaurant_by_slug (slug : json) : M World (option Restaurant) :=
  param <~ pg_command (PgRestaurantBySlug slug) (fun w => (text_param slug, w));
  p <~ lift param;
  gets (fun w => select_by_slug p (restaurants w)).

(** [ORDER BY display_order, category, name], strings compared byte-wise. *)
Definition menu_row_le (a b : MenuRow) : bool :=
  if mrow_display_order a <? mrow_display_order b then true
  else if mrow_display_order b <? mrow_display_order a then false
  else match String.compare (item_category (mrow_item a)) (item_category (mrow_item b)) with
       | Lt => true
       | Gt => false
       | Eq => String.leb (item_name (mrow_item a)) (item_name (mrow_item b))
       end.

Fixpoint insert_row (x : MenuRow) (l : list MenuRow) : list MenuRow :=
  match l with
  | [] => [x]
  | y :: rest => if menu_row_le x y then x :: l else y :: insert_row x rest
  end.

Definition order_rows (l : list MenuRow) : list MenuRow := fold_right insert_row [] l.

(** [SELECT ... FROM menu_items WHERE restaurant_id = $1 AND active = true
     ORDER BY display_order, category, name] *)
Definition select_menu_items (restaurant_id : string) (rows : list MenuRow) : list MenuItem :=
  map mrow_item
    (order_rows
       (List.filter (fun row => String.eqb (mrow_restaurant_id row) restaurant_id && mrow_active row)
          rows)).

Definition get_menu_items (restaurant_id : string) : M World (list MenuItem) :=
  pg_command (PgMenuItems restaurant_id)
    (fun w => (select_menu_items restaurant_id (menu_items w), w)).

Definition log_conversation (restaurant_id : string) (session_id : json)
    (message response : string) : M World unit :=
  param <~ pg_command (PgInsertConversation restaurant_id message response)
             (fun w => (text_param session_id, w));
  sid <~ lift param;
  modify (fun w =>
    add_conversation
      {| conv_restaurant_id := restaurant_id; conv_session_id := sid;
         conv_message := message; conv_response := response;
         conv_timestamp := clock w |} w).

(** ** class MultiRestaurantAI *)

Inductive Service : Type := openai | groq.

Record MultiRestaurantAI : Type := {
  groq_api_key : option string;
  openai_api_key : option string;
  ai_service : option Service;
  api_key : option string
}.

(** Truth value of [os.getenv(...)]. *)
Definition key_present (k : option string) : bool :=
  match k with
  | Some s => negb (String.eqb s "")
  | None => false
  end.

(** [MultiRestaurantAI.__init__], from the two environment variables. *)
Definition new_ai (groq_key openai_key : option string) : MultiRestaurantAI :=
  if key_present openai_key then
    {| groq_api_key := groq_key; openai_api_key := openai_key;
       ai_service := Some openai; api_key := openai_key |}
  else if key_present groq_key then
    {| groq_api_key := groq_key; openai_api_key := openai_key;
       ai_service := Some groq; api_key := groq_key |}
  else
    {| groq_api_key := groq_key; openai_api_key := openai_key;
       ai_service := None; api_key := None |}.

Definition nl : string := String (ascii_of_nat 10) EmptyString.

(** [str(v)] of a nullable text column. *)
Definition str_of_opt (v : option string) : string :=
  match v with
  | Some s => s
  | None => "None"
  end.

Definition menu_line (item : MenuItem) : string :=
  "- " +:+ item_name item +:+ ": " +:+ item_description item +:+
  " ($" +:+ fmt_price (item_price item) +:+ ") " +:+
  "[Category: " +:+ item_category item +:+
  ", Vegetarian: " +:+ str_of_bool (item_vegetarian item) +:+ ", " +:+
  "Vegan: " +:+ str_of_bool (item_vegan item) +:+
  ", Gluten-free: " +:+ str_of_bool (item_gluten_free item) +:+ "]".

Definition build_system_prompt (restaurant : Restaurant) (menu_items : list MenuItem) : string :=
  let menu_text := join nl (map menu_line menu_items) in
  let ai_name := str_of_opt (r_ai_name restaurant) in
  let personality := str_of_opt (r_ai_personality restaurant) in
  "You are " +:+ ai_name +:+ ", the AI assistant for " +:+ r_name restaurant +:+ ". " +:+ nl +:+
  "You are " +:+ personality +:+ "." +:+ nl +:+
  nl +:+
  "RESTAURANT MENU:" +:+ nl +:+
  menu_text +:+ nl +:+
  nl +:+
  "GUIDELINES:" +:+ nl +:+
  "- Be warm and engaging but keep responses concise (10-20 words typically)" +:+ nl +:+
  "- Only mention prices when specifically asked" +:+ nl +:+
  "- Make personalized recommendations based on preferences" +:+ nl +:+
  "- Use emojis occasionally for warmth" +:+ nl +:+
  "- Always stay in character for " +:+ r_name restaurant +:+ nl.

(** [session.post(url, json=data, headers=headers)] *)
Definition http_post (url model prompt message : string) : M World HttpReply :=
  fun w => (Ok (backend w url model prompt message),
            emit (BackendPost url model prompt message) w).

Definition _call_ai_api (self : MultiRestaurantAI) (system_prompt message : string) : M World json :=
  let '(url, model) :=
    match ai_service self with
    | Some groq => ("https://api.groq.com/openai/v1/chat/completions", "llama3-70b-8192")
    | _ => ("https://api.openai.com/v1/chat/completions", "gpt-3.5-turbo")
    end in
  resp <~ http_post url model system_prompt message;
  match resp with
  | ConnectionFailed => raise ClientError
  | Reply status body =>
      if status =? 200 then
        match body with
        | None => raise JSONDecodeError
        | Some result =>
            choices <~ lift (getitem_key result "choices");
            first <~ lift (getitem_0 choices);
            msg <~ lift (getitem_key first "message");
            lift (getitem_key msg "content")
        end
      else
        log_error "AI API error";;; raise (ApiError status)
  end.

Definition _generate_fallback_response `{PyText} (message : string) (restaurant : Restaurant)
    : string :=
  let ai_name := str_of_opt (r_ai_name restaurant) in
  let responses :=
    [ "Hi! I'm " +:+ ai_name +:+ " from " +:+ r_name restaurant +:+ ". What can I help you find?";
      "Looking for something specific? I'd love to help!";
      "Our menu has some amazing options. What are you in the mood for?" ] in
  nth (Z.to_nat (hash message mod 3)) responses "".

(** The dictionary built for each recommended item. *)
Record Recommendation : Type := {
  rec_id : Z;
  rec_name : string;
  rec_price : Z;
  rec_description : string
}.

Definition recommendation_of (item : MenuItem) : Recommendation :=
  {| rec_id := item_id item; rec_name := item_name item;
     rec_price := item_price item; rec_description := item_description item |}.

(** The loop of [_extract_recommendations]: [recommendations] holds the items
    appended so far. *)
Fixpoint extract_loop `{PyText} (response_lower : string) (menu_items : list MenuItem)
    (recommendations : list Recommendation) : list Recommendation :=
  match menu_items with
  | [] => recommendations
  | item :: rest =>
      if str_in (lower (item_name item)) response_lower then
        let recommendations := recommendations ++ [recommendation_of item] in
        if (2 <=? length recommendations)%nat then recommendations
        else extract_loop response_lower rest recommendations
      else extract_loop response_lower rest recommendations
  end.

Definition _extract_recommendations `{PyText} (response : string) (menu_items : list MenuItem)
    : list Recommendation :=
  let response_lower := lower response in
  extract_loop response_lower menu_items [].

(** The bodies of the JSON answers of the handlers. *)
Inductive JsonResponse : Type :=
| ChatOk (response : string) (recommendations : list Recommendation)
         (name : string) (ai_name : option string)
| MenuOk (id name : string) (items : list MenuItem) (count : nat)
| Failed (error : string).

(** Lines 245-249 of [generate_response]: the profile, cache first. *)
Definition fetch_restaurant (restaurant_id : string) : M World (option Restaurant) :=
  restaurant <~ get_restaurant restaurant_id;
  match restaurant with
  | Some r => ret (Some r)
  | None =>
      restaurant <~ get_restaurant_by_subdomain (JStr restaurant_id);
      match restaurant with
      | Some r => set_restaurant restaurant_id r;;; ret (Some r)
      | None => ret None
      end
  end.

(** [not menu_items], for the value [get_menu] returns. *)
Definition menu_missing (menu_items : option (list MenuItem)) : bool :=
  match menu_items with
  | Some (_ :: _) => false
  | _ => true
  end.

(** Lines 258-262 of [generate_response]: the menu, cache first. *)
Definition fetch_menu (restaurant_id : string) (restaurant : Restaurant)
    : M World (list MenuItem) :=
  menu_items <~ get_menu restaurant_id;
  if menu_missing menu_items then
    menu_items <~ get_menu_items (r_id restaurant);
    match menu_items with
    | _ :: _ => set_menu restaurant_id menu_items;;; ret menu_items
    | [] => ret menu_items
    end
  else ret (default [] menu_items).

(** The receiver of [response.lower()] must be a [str]. *)
Definition as_str (v : json) : Result string :=
  match v with
  | JStr s => Ok s
  | _ => Raise AttributeError
  end.

Definition generate_response `{PyText} (self : MultiRestaurantAI) (restaurant_id : string)
    (message : string) (session_id : json) : M World JsonResponse :=
  try_except
    (restaurant <~ fetch_restaurant restaurant_id;
     match restaurant with
     | None => ret (Failed "Restaurant not found")
     | Some restaurant =>
         menu_items <~ fetch_menu restaurant_id restaurant;
         response_text <~
           (match ai_service self with
            | Some _ => _call_ai_api self (build_system_prompt restaurant menu_items) message
            | None => ret (JStr (_generate_fallback_response message restaurant))
            end);
         response_text <~ lift (as_str response_text);
         let recommendations := _extract_recommendations response_text menu_items in
         log_conversation (r_id restaurant) session_id message response_text;;;
         ret (ChatOk response_text recommendations (r_name restaurant) (r_ai_name restaurant))
     end)
    (fun _ =>
       log_error "Error generating response";;;
       ret (Failed "Failed to generate response")).

(** ** class RestaurantWebApp *)

Record Request : Type := {
  host : string;
  path : string;
  query : list (string * string);
  body : option json            (* [None]: the body is not JSON *)
}.

Inductive RouteType : Type := subdomain | slug.

Definition reserved : list string := ["www"; "app"; "api"].

Definition str_mem (s : string) (l : list string) : bool := existsb (String.eqb s) l.

(** The pair returned is [(route_type, identifier)]; [(None, None)] is
    [(None, JNull)]. *)
Definition get_restaurant_from_request `{PyText} (request : Request)
    : option RouteType * json :=
  let host := lower (host request) in
  let path := path request in
  let by_path :=
    if startswith path "/r/" then
      let parts := split "/" path in
      if (3 <=? length parts)%nat then (Some slug, JStr (nth 2 parts ""))
      else (None, JNull)
    else (None, JNull) in
  if str_in "." host then
    let sub := nth 0 (split "." host) "" in
    if negb (str_mem sub reserved) then (Some subdomain, JStr sub)
    else by_path
  else by_path.

Definition lookup_route (route_type : RouteType) (identifier : json)
    : M World (option Restaurant) :=
  match route_type with
  | subdomain => get_restaurant_by_subdomain identifier
  | slug => get_restaurant_by_slug identifier
  end.

(** Lines 481-485 of [handle_menu]: the query string is consulted when host
    and path gave nothing. *)
Definition route_from_query (request : Request) (route_type : option RouteType)
    (identifier : json) : option RouteType * json :=
  match route_type with
  | Some _ => (route_type, identifier)
  | None =>
      match assoc "restaurant_id" (query request) with
      | Some restaurant_id =>
          if negb (String.eqb restaurant_id "") then (Some slug, JStr restaurant_id)
          else (route_type, identifier)
      | None => (route_type, identifier)
      end
  end.

Definition handle_menu `{PyText} (request : Request) : M World JsonResponse :=
  let '(route_type, identifier) := get_restaurant_from_request request in
  let '(route_type, identifier) := route_from_query request route_type identifier in
  match route_type with
  | None => ret (Failed "Restaurant not specified")
  | Some route_type =>
      restaurant <~ lookup_route route_type identifier;
      match restaurant with
      | None => ret (Failed "Restaurant not found")
      | Some restaurant =>
          menu_items <~ get_menu (r_id restaurant);
          menu_items <~
            (if menu_missing menu_items then
               menu_items <~ get_menu_items (r_id restaurant);
               set_menu (r_id restaurant) menu_items;;;
               ret menu_items
             else ret (default [] menu_items));
          ret (MenuOk (r_id restaurant) (r_name restaurant) menu_items (length menu_items))
      end
  end.

(** [await request.json()] *)
Definition request_json (request : Request) : Result json :=
  match body request with
  | Some data => Ok data
  | None => Raise JSONDecodeError
  end.

(** The receiver of [.strip()] must be a [str]. *)
Definition str_strip `{PyText} (v : json) : Result string :=
  match v with
  | JStr s => Ok (strip s)
  | _ => Raise AttributeError
  end.

(** Lines 523-533 of [handle_chat]: the body is consulted when host and path
    gave nothing; the third component is [request['_json_data']]. *)
Definition route_from_body (request : Request) (route_type : option RouteType)
    (identifier : json) : option RouteType * json * option json :=
  match route_type with
  | Some _ => (route_type, identifier, None)
  | None =>
      match request_json request with
      | Ok data =>
          match dict_get data "restaurant_id" JNull with
          | Ok restaurant_id =>
              if truthy restaurant_id then (Some slug, restaurant_id, Some data)
              else (route_type, identifier, None)
          | Raise _ => (route_type, identifier, None)
          end
      | Raise _ => (route_type, identifier, None)
      end
  end.

Definition handle_chat `{PyText} (ai : MultiRestaurantAI) (request : Request)
    : M World JsonResponse :=
  let '(route_type, identifier) := get_restaurant_from_request request in
  let '(route_type, identifier, json_data) := route_from_body request route_type identifier in
  match route_type with
  | None => ret (Failed "Restaurant not specified")
  | Some route_type =>
      try_except
        (data <~ lift (match json_data with
                       | Some d => if truthy d then Ok d else request_json request
                       | None => request_json request
                       end);
         message <~ lift (dict_get data "message" (JStr ""));
         message <~ lift (str_strip message);
         session_id <~ lift (dict_get data "session_id" (JStr "anonymous"));
         if String.eqb message "" then ret (Failed "Empty message")
         else
           restaurant <~ lookup_route route_type identifier;
           match restaurant with
           | None => ret (Failed "Restaurant not found")
           | Some restaurant => generate_response ai (r_id restaurant) message session_id
           end)
        (fun _ =>
           log_error "Chat error";;;
           ret (Failed "Failed to process message"))
  end.

(** ** [handle_index] *)

(** [web.Response(text=..., status=...)] *)
Inductive PageResponse : Type :=
| Page (status : Z) (text : string).

(** [s.replace(old, new)] for a non-empty [old]: the occurrences of [old] are
    replaced from left to right, without overlap. [skip] counts the characters
    of the occurrence just replaced that are still to be dropped. *)
Fixpoint replace_from (old new : string) (skip : nat) (s : string) : string :=
  match s with
  | EmptyString => EmptyString
  | String c rest =>
      match skip with
      | S k => replace_from old new k rest
      | O =>
          if String.prefix old s
          then new +:+ replace_from old new (String.length old - 1)%nat rest
          else String c (replace_from old new 0%nat rest)
      end
  end.

Definition replace (s old new : string) : string := replace_from old new 0%nat s.

(** [html.replace('Sophie', restaurant.get('ai_name', 'Sophie'))]: the key
    [ai_name] is in every dictionary of a restaurant, so [get] returns the
    column, which is [None] for NULL, and [str.replace] refuses [None]. *)
Definition replace_opt (s old : string) (new : option string) : Result string :=
  match new with
  | Some n => Ok (replace s old n)
  | None => Raise TypeError
  end.

(** [restaurant['slug']] *)
Definition getitem_slug (restaurant : Restaurant) : Result string :=
  match r_slug restaurant with
  | Some s => Ok s
  | None => Raise KeyError
  end.

(** The double quote. *)
Definition dq : string := String (ascii_of_nat 34) EmptyString.

(** The script element with the restaurant's data. *)
Definition restaurant_data (id name ai_name slug_ : string) : string :=
  nl +:+
  "        <script>" +:+ nl +:+
  "            window.RESTAURANT_DATA = {" +:+ nl +:+
  "                id: " +:+ dq +:+ id +:+ dq +:+ "," +:+ nl +:+
  "                name: " +:+ dq +:+ name +:+ dq +:+ "," +:+ nl +:+
  "                ai_name: " +:+ dq +:+ ai_name +:+ dq +:+ "," +:+ nl +:+
  "                slug: " +:+ dq +:+ slug_ +:+ dq +:+ nl +:+
  "            };" +:+ nl +:+
  "        </script>" +:+ nl +:+
  "        ".

(** [read_template] is what opening and reading [templates/index_clean.html]
    gives: the text, or the exception. *)
Definition handle_index `{PyText} (read_template : Result string) (request : Request)
    : M World PageResponse :=
  let '(route_type, identifier) := get_restaurant_from_request request in
  match route_type with
  | None => ret (Page 200 "Welcome to Restaurant AI")
  | Some route_type =>
      restaurant <~ lookup_route route_type identifier;
      match restaurant with
      | None => ret (Page 404 "Restaurant not found")
      | Some restaurant =>
          html <~ lift read_template;
          let html := replace html "AI Restaurant" (r_name restaurant) in
          html <~ lift (replace_opt html "Sophie" (r_ai_name restaurant));
          slug_ <~ lift (getitem_slug restaurant);
          let data :=
            restaurant_data (r_id restaurant) (r_name restaurant)
              (str_of_opt (r_ai_name restaurant)) slug_ in
          ret (Page 200 (replace html "</body>" (data +:+ "</body>")))
      end
  end.

End Async.

(** * app_clean.py *)

Module Clean.

(** The menu the module ships. *)
Definition MENU_DATA : list MenuItem :=
  [ {| item_id := 1;
       item_name := "Grilled Atlantic Salmon";
       item_description := "Fresh Atlantic salmon with lemon herb butter, seasonal roasted vegetables, and wild rice pilaf";
       item_price := 2899;
       item_category := "main";
       item_ingredients := ["Atlantic salmon"; "lemon"; "herbs"; "seasonal vegetables"; "wild rice"];
       item_allergens := ["fish"];
       item_vegetarian := false; item_vegan := false; item_gluten_free := true;
       item_spice_level := 0;
       item_prep_time := "20 minutes";
       item_calories := 420;
       item_chef_notes := "Our most popular healthy option, rich in omega-3 fatty acids" |};
    {| item_id := 2;
       item_name := "Thai Red Curry Bowl";
       item_description := "Authentic red curry with coconut milk, mixed vegetables, Thai basil, and jasmine rice";
       item_price := 2299;
       item_category := "main";
       item_ingredients := ["red curry paste"; "coconut milk"; "vegetables"; "Thai basil"; "jasmine rice"];
       item_allergens := ["coconut"];
       item_vegetarian := true; item_vegan := true; item_gluten_free := true;
       item_spice_level := 4;
       item_prep_time := "15 minutes";
       item_calories := 380;
       item_chef_notes := "Authentic Thai flavors with adjustable spice level" |};
    {| item_id := 3;
       item_name := "Classic Caesar Salad";
       item_description := "Crisp romaine lettuce, house-made Caesar dressing, parmesan cheese, and garlic croutons";
       item_price := 1499;
       item_category := "appetizer";
       item_ingredients := ["romaine lettuce"; "parmesan cheese"; "garlic croutons"; "Caesar dressing"];
       item_allergens := ["dairy"; "gluten"; "eggs"];
       item_vegetarian := true; item_vegan := false; item_gluten_free := false;
       item_spice_level := 0;
       item_prep_time := "10 minutes";
       item_calories := 320;
       item_chef_notes := "A timeless classic with our signature house-made dressing" |};
    {| item_id := 4;
       item_name := "Molten Chocolate Cake";
       item_description := "Warm chocolate cake with molten center, vanilla bean ice cream, and fresh berries";
       item_price := 999;
       item_category := "dessert";
       item_ingredients := ["dark chocolate"; "eggs"; "flour"; "vanilla ice cream"; "fresh berries"];
       item_allergens := ["dairy"; "gluten"; "eggs"];
       item_vegetarian := true; item_vegan := false; item_gluten_free := false;
       item_spice_level := 0;
       item_prep_time := "12 minutes";
       item_calories := 480;
       item_chef_notes := "Best enjoyed immediately while the center is still molten" |};
    {| item_id := 5;
       item_name := "Mediterranean Quinoa Bowl";
       item_description := "Quinoa with roasted vegetables, chickpeas, feta cheese, olives, and tahini dressing";
       item_price := 1899;
       item_category := "main";
       item_ingredients := ["quinoa"; "roasted vegetables"; "chickpeas"; "feta cheese"; "olives"; "tahini"];
       item_allergens := ["dairy"; "sesame"];
       item_vegetarian := true; item_vegan := false; item_gluten_free := true;
       item_spice_level := 1;
       item_prep_time := "15 minutes";
       item_calories := 350;
       item_chef_notes := "Packed with protein and Mediterranean flavors" |};
    {| item_id := 6;
       item_name := "Artisan Bruschetta";
       item_description := "Toasted sourdough with fresh tomatoes, basil, garlic, and extra virgin olive oil";
       item_price := 1199;
       item_category := "appetizer";
       item_ingredients := ["sourdough bread"; "tomatoes"; "basil"; "garlic"; "olive oil"];
       item_allergens := ["gluten"];
       item_vegetarian := true; item_vegan := true; item_gluten_free := false;
       item_spice_level := 0;
       item_prep_time := "8 minutes";
       item_calories := 180;
       item_chef_notes := "Made with locally sourced tomatoes and fresh herbs" |} ].

Inductive Service : Type := openai | groq.

(** One entry of [conversation_history]. *)
Record ChatMessage : Type := {
  role : string;
  content : string
}.

Inductive Event : Type :=
| BackendPost (url model : string) (messages : list ChatMessage)
| LogError (msg : string).

(** The attributes [__init__] sets once. *)
Record IntelligentAI : Type := {
  openai_api_key : option string;
  groq_api_key : option string;
  ai_service : option Service;
  use_ai_model : bool;
  system_prompt : string
}.

(** What changes while the process runs: the two mutable attributes of the
    one [IntelligentAI] instance that [RestaurantHandler.ai_assistant] shares
    among all requests, the state of the module [random] (the numbers it will
    yield, and how many were taken), the trace; and what the backend answers. *)
Record World : Type := {
  conversation_history : list ChatMessage;
  greeting_used : bool;
  random_source : nat -> nat;
  random_used : nat;
  backend : string -> string -> list ChatMessage -> HttpReply;
  trace : list Event
}.

Definition append_history (m : ChatMessage) (w : World) : World :=
  {| conversation_history := conversation_history w ++ [m];
     greeting_used := greeting_used w;
     random_source := random_source w; random_used := random_used w;
     backend := backend w; trace := trace w |}.

Definition set_greeting_used (b : bool) (w : World) : World :=
  {| conversation_history := conversation_history w;
     greeting_used := b;
     random_source := random_source w; random_used := random_used w;
     backend := backend w; trace := trace w |}.

Definition tick_random (w : World) : World :=
  {| conversation_history := conversation_history w;
     greeting_used := greeting_used w;
     random_source := random_source w; random_used := S (random_used w);
     backend := backend w; trace := trace w |}.

Definition emit (e : Event) (w : World) : World :=
  {| conversation_history := conversation_history w;
     greeting_used := greeting_used w;
     random_source := random_source w; random_used := random_used w;
     backend := backend w; trace := e :: trace w |}.

Definition log_error (msg : string) : M World unit := modify (emit (LogError msg)).

(** Truth value of [os.getenv(...)]. *)
Definition key_present (k : option string) : bool :=
  match k with
  | Some s => negb (String.eqb s "")
  | None => false
  end.

(** [IntelligentAI.__init__], from the two environment variables;
    [prompt] is the text [_build_system_prompt] renders from [MENU_DATA], which
    is only ever sent to the backend. The history starts empty and
    [greeting_used] false: see [fresh_world]. *)
Definition new_assistant (openai_key groq_key : option string) (prompt : string)
    : IntelligentAI :=
  let service :=
    if key_present openai_key then Some openai
    else if key_present groq_key then Some groq
    else None in
  {| openai_api_key := openai_key; groq_api_key := groq_key;
     ai_service := service;
     use_ai_model := match service with Some _ => true | None => false end;
     system_prompt := prompt |}.

(** The state of the process when the first request arrives. *)
Definition fresh_world (numbers : nat -> nat)
    (answer : string -> string -> list ChatMessage -> HttpReply) : World :=
  {| conversation_history := []; greeting_used := false;
     random_source := numbers; random_used := 0;
     backend := answer; trace := [] |}.

(** ** The module [random] *)

(** A number below [n], for [n > 0]. *)
Definition randbelow (n : nat) : M World nat :=
  fun w => (Ok (random_source w (random_used w) mod n)%nat, tick_random w).

(** [random.choice(seq)] *)
Definition random_choice {A : Type} (seq : list A) : M World A :=
  match seq with
  | [] => raise IndexError
  | x :: _ => i <~ randbelow (length seq); ret (nth i seq x)
  end.

Fixpoint remove_nth {A : Type} (i : nat) (l : list A) : list A :=
  match l, i with
  | [], _ => []
  | _ :: rest, O => rest
  | x :: rest, S i' => x :: remove_nth i' rest
  end.

Fixpoint sample_loop {A : Type} (k : nat) (pool : list A) : M World (list A) :=
  match k with
  | O => ret []
  | S k' =>
      match pool with
      | [] => ret []
      | x :: _ =>
          i <~ randbelow (length pool);
          rest <~ sample_loop k' (remove_nth i pool);
          ret (nth i pool x :: rest)
      end
  end.

(** [random.sample(population, k)]: [k] elements at distinct positions. Which
    positions come out of given random numbers is not CPython's choice (it
    moves the last element of its pool into the slot just drawn, and for a
    large population draws again on a repeat); that there are [k] of them and
    that they differ is. *)
Definition random_sample {A : Type} (population : list A) (k : nat) : M World (list A) :=
  if (length population <? k)%nat then raise (ValueError "Sample larger than population")
  else sample_loop k population.

(** The answer of [generate_response] and of the handlers behind it. *)
Record Answer : Type := {
  message : string;
  recommendations : list MenuItem
}.

(** ** class IntelligentAI

    [MENU_DATA] is read by most methods; here it is their parameter [menu],
    so that the properties can speak about every menu. *)

Section RuleEngine.

Context `{PyText}.
Variable menu : list MenuItem.

Definition _get_featured_items : list MenuItem := firstn 3 menu.

Definition _get_random_items (count : nat) : M World (list MenuItem) :=
  random_sample menu (Nat.min count (length menu)).

(** The sort key [calories + (30 - price)], in cents (exact, where Python
    adds floats). *)
Definition popularity (x : MenuItem) : Z := 100 * item_calories x + (3000 - item_price x).

Fixpoint insert_by (key : MenuItem -> Z) (x : MenuItem) (l : list MenuItem) : list MenuItem :=
  match l with
  | [] => [x]
  | y :: rest => if key x <=? key y then x :: l else y :: insert_by key x rest
  end.

(** [sorted(l, key=key)] *)
Definition sorted_by (key : MenuItem -> Z) (l : list MenuItem) : list MenuItem :=
  fold_right (insert_by key) [] l.

Definition _get_popular_items : list MenuItem := firstn 3 (sorted_by popularity menu).

Definition _is_greeting (message : string) : bool :=
  any_in ["hello"; "hi"; "hey"; "good morning"; "good afternoon"; "good evening"] message.

Definition _is_menu_query (message : string) : bool :=
  any_in ["menu"; "dishes"; "food"; "eat"; "order"; "available"; "serve"] message.

Definition _is_dietary_query (message : string) : bool :=
  any_in ["vegetarian"; "vegan"; "gluten"; "allergy"; "dairy"; "nuts"] message.

Definition _is_recommendation_request (message : string) : bool :=
  any_in ["recommend"; "suggest"; "best"; "popular"; "hungry"; "mood"; "craving"] message.

Definition _is_specific_item_query (message : string) : bool :=
  existsb (fun item =>
             str_in (lower (item_name item)) message ||
             existsb (fun ingredient => str_in (lower ingredient) message) (item_ingredients item))
          menu.

(** The two lists of [responses] in [_handle_greeting]. *)
Definition first_greetings : list string :=
  [ "Hello! Welcome to our restaurant! I'm your AI dining assistant, here to help you discover delicious dishes that match your taste. What can I help you find today?";
    "Hi there! I'm excited to help you explore our menu and find something amazing to eat. Are you looking for something specific, or would you like me to suggest some popular options?";
    "Welcome! I'm here to make your dining experience special. Whether you're craving something specific or want to try something new, I'm here to help. What sounds good to you?" ].

Definition repeat_greetings : list string :=
  [ "Nice to see you again! What else can I help you with from our menu?";
    "How can I assist you further with your dining choices?";
    "What other questions do you have about our dishes?" ].

Definition _handle_greeting : M World Answer :=
  used <~ gets greeting_used;
  responses <~
    (if negb used then
       modify (set_greeting_used true);;;
       ret first_greetings
     else
       ret repeat_greetings);
  text <~ random_choice responses;
  ret {| message := text; recommendations := _get_featured_items |}.

(** [list(set(l))]; a Python set has no fixed order (it follows the hashes of
    the strings), the order of first occurrence is taken here: only the
    elements, not their order in the text built from them, are those of the
    program. *)
Fixpoint distinct (l : list string) : list string :=
  match l with
  | [] => []
  | x :: rest => x :: List.filter (fun y => negb (String.eqb x y)) (distinct rest)
  end.

(** [min(l)] and [max(l)] *)
Definition list_min (l : list Z) : Result Z :=
  match l with
  | [] => Raise (ValueError "min() arg is an empty sequence")
  | x :: rest => Ok (fold_left Z.min rest x)
  end.

Definition list_max (l : list Z) : Result Z :=
  match l with
  | [] => Raise (ValueError "max() arg is an empty sequence")
  | x :: rest => Ok (fold_left Z.max rest x)
  end.

Definition _handle_menu_query (message : string) : M World Answer :=
  response <~
    (if str_in "categories" message || str_in "types" message then
       let categories := distinct (map item_category menu) in
       ret ("We offer dishes in these categories: " +:+ join ", " categories +:+
            ". We have " +:+ str_of_nat (length menu) +:+
            " delicious options total. Would you like to explore any specific category?")
     else if str_in "price" message || str_in "cost" message then
       let prices := map item_price menu in
       lo <~ lift (list_min prices);
       hi <~ lift (list_max prices);
       ret ("Our menu prices range from $" +:+ fmt_price lo +:+ " to $" +:+ fmt_price hi +:+
            ". Most of our main courses are around $20-25. What's your budget range today?")
     else
       ret ("Our menu features " +:+ str_of_nat (length menu) +:+
            " carefully crafted dishes, from appetizers to desserts. We have options for every dietary preference and taste. What type of food are you in the mood for?"));
  items <~ _get_random_items 3;
  ret {| message := response; recommendations := items |}.

Definition _handle_dietary_query (message : string) : M World Answer :=
  '(response, recommendations) <~
    (if str_in "vegetarian" message then
       let veg_items := List.filter item_vegetarian menu in
       ret ("We have " +:+ str_of_nat (length veg_items) +:+ " delicious vegetarian options! ",
            firstn 2 veg_items)
     else if str_in "vegan" message then
       let vegan_items := List.filter item_vegan menu in
       ret ("We offer " +:+ str_of_nat (length vegan_items) +:+ " tasty vegan dishes! ",
            firstn 2 vegan_items)
     else if str_in "gluten" message then
       let gf_items := List.filter item_gluten_free menu in
       ret ("We have " +:+ str_of_nat (length gf_items) +:+ " gluten-free options available! ",
            firstn 2 gf_items)
     else
       items <~ _get_random_items 2;
       ret ("I'd be happy to help with dietary preferences! We accommodate vegetarian, vegan, and gluten-free diets. We also list all allergens for each dish. What specific dietary needs do you have?",
            items));
  let response :=
    match recommendations with
    | [] => response
    | _ => response +:+ "I especially recommend: " +:+
           join " and " (map item_name recommendations) +:+ "."
    end in
  ret {| message := response; recommendations := recommendations |}.

Definition _handle_recommendation_request (message : string) : Answer :=
  let '(recommendations, response) :=
    if any_in ["hungry"; "starving"; "filling"] message then
      (List.filter (fun item => String.eqb (item_category item) "main" && (350 <? item_calories item)) menu,
       "You sound really hungry! I recommend our hearty main courses that will definitely satisfy your appetite.")
    else if any_in ["light"; "small"; "not very hungry"] message then
      (List.filter (fun item => String.eqb (item_category item) "appetizer" || (item_calories item <? 300)) menu,
       "For something light, our appetizers are perfect, or I can suggest some lighter main dishes.")
    else if any_in ["spicy"; "hot"] message then
      (List.filter (fun item => 2 <? item_spice_level item) menu,
       "Looking for some heat? Our spicy dishes will definitely give you that kick you're craving!")
    else if any_in ["healthy"; "nutritious"; "diet"] message then
      (List.filter (fun item => (item_calories item <? 400) || item_gluten_free item) menu,
       "For healthy choices, I recommend our nutritious options that are both delicious and good for you.")
    else if any_in ["sweet"; "dessert"] message then
      (List.filter (fun item => String.eqb (item_category item) "dessert") menu,
       "Our desserts are absolutely divine! Perfect way to end your meal on a sweet note.")
    else
      (_get_popular_items,
       "I'd love to recommend some of our most popular dishes that guests absolutely love!") in
  {| message := response; recommendations := firstn 2 recommendations |}.

(** The text about one item that [_handle_specific_item_query] builds. *)
Definition item_details (item : MenuItem) (message : string) : string :=
  let response :=
    "Great choice! Our " +:+ item_name item +:+ " is " +:+ item_description item +:+
    " It's priced at $" +:+ fmt_price (item_price item) +:+ "." in
  let response :=
    if str_in "ingredient" message then
      response +:+ " The main ingredients are: " +:+ join ", " (item_ingredients item) +:+ "."
    else response in
  let response :=
    if str_in "allerg" message then
      response +:+
      match item_allergens item with
      | [] => " This dish has no major allergens."
      | allergens => " Please note it contains: " +:+ join ", " allergens +:+ "."
      end
    else response in
  let response :=
    if str_in "spicy" message || str_in "hot" message then
      response +:+ " The spice level is " +:+ str_of_Z (item_spice_level item) +:+ " out of 5."
    else response in
  if str_in "time" message then
    response +:+ " Preparation time is about " +:+ item_prep_time item +:+ "."
  else response.

Definition _handle_specific_item_query (message : string) : M World Answer :=
  match find (fun item => str_in (lower (item_name item)) message) menu with
  | Some item => ret {| message := item_details item message; recommendations := [item] |}
  | None =>
      items <~ _get_random_items 2;
      ret {| message := "I'd be happy to tell you about any of our dishes! Could you be more specific about which item you're interested in, or would you like me to suggest something based on your preferences?";
             recommendations := items |}
  end.

Definition _handle_general_conversation (message : string) : M World Answer :=
  let responses :=
    if any_in ["how are you"; "how do you do"] message then
      [ "I'm doing great, thank you for asking! I'm excited to help you find something delicious to eat. What sounds good to you today?";
        "I'm wonderful, thanks! Ready to help you discover your next favorite dish. What are you in the mood for?" ]
    else if any_in ["thank you"; "thanks"] message then
      [ "You're very welcome! I'm here whenever you need help with our menu. Anything else I can assist you with?";
        "My pleasure! I love helping people find great food. Is there anything else you'd like to know?" ]
    else if any_in ["bye"; "goodbye"; "see you"] message then
      [ "Goodbye! I hope you enjoy your meal and have a wonderful dining experience. Come back anytime!";
        "Have a fantastic meal! It was great helping you today. See you next time!" ]
    else
      [ "That's an interesting question! While I specialize in helping with our menu and dining recommendations, I'm always happy to chat. Speaking of food, is there anything from our menu I can help you with?";
        "I appreciate you asking! I'm here primarily to help you navigate our delicious menu options. What kind of flavors are you craving today?";
        "Thanks for sharing! I'd love to help you find something amazing to eat. Are you looking for any particular type of cuisine or dish?" ] in
  text <~ random_choice responses;
  items <~ _get_random_items 2;
  ret {| message := text; recommendations := items |}.

Definition _generate_fallback_response (user_message : string) : M World Answer :=
  let user_message_lower := strip (lower user_message) in
  if _is_greeting user_message_lower then _handle_greeting
  else if _is_menu_query user_message_lower then _handle_menu_query user_message_lower
  else if _is_dietary_query user_message_lower then _handle_dietary_query user_message_lower
  else if _is_recommendation_request user_message_lower then
    ret (_handle_recommendation_request user_message_lower)
  else if _is_specific_item_query user_message_lower then
    _handle_specific_item_query user_message_lower
  else _handle_general_conversation user_message_lower.

(** The loop of [_extract_recommendations]. *)
Fixpoint extract_loop (response_lower : string) (items : list MenuItem)
    (recommendations : list MenuItem) : list MenuItem :=
  match items with
  | [] => recommendations
  | item :: rest =>
      let item_name_lower := lower (item_name item) in
      if str_in item_name_lower response_lower ||
         existsb (fun ingredient => str_in (lower ingredient) response_lower)
                 (firstn 2 (item_ingredients item)) then
        let recommendations := recommendations ++ [item] in
        if (2 <=? length recommendations)%nat then recommendations
        else extract_loop response_lower rest recommendations
      else extract_loop response_lower rest recommendations
  end.

Definition _extract_recommendations (ai_response : string) : list MenuItem :=
  let response_lower := lower ai_response in
  let recommendations := extract_loop response_lower menu [] in
  match recommendations with
  | [] => firstn 2 _get_featured_items
  | _ => recommendations
  end.

(** [urllib.request.urlopen(req, timeout=10)] with the branches of
    [_call_openai_api] around it. *)
Definition _call_openai_api (self : IntelligentAI) (messages : list ChatMessage)
    : M World string :=
  match ai_service self with
  | None => raise (ValueError "No AI service configured")
  | Some service =>
      let '(url, model) :=
        match service with
        | openai => ("https://api.openai.com/v1/chat/completions", "gpt-3.5-turbo")
        | groq => ("https://api.groq.com/openai/v1/chat/completions", "llama3-70b-8192")
        end in
      reply <~ (fun w => (Ok (backend w url model messages),
                          emit (BackendPost url model messages) w));
      match reply with
      | ConnectionFailed => log_error "AI API Error";;; raise ClientError
      | Reply status body =>
          if (200 <=? status) && (status <? 300) then
            try_except
              (match body with
               | None => raise JSONDecodeError
               | Some result =>
                   choices <~ lift (getitem_key result "choices");
                   first <~ lift (getitem_0 choices);
                   msg <~ lift (getitem_key first "message");
                   text <~ lift (getitem_key msg "content");
                   match text with
                   | JStr s => ret (strip s)
                   | _ => raise AttributeError
                   end
               end)
              (fun e => log_error "AI API Error";;; raise e)
          else
            log_error "AI API HTTP Error";;;
            (match body with
             | Some error_data =>
                 match dict_get error_data "error" (JObj []) with
                 | Ok err =>
                     match dict_get err "message" (JStr "Unknown error"),
                           dict_get err "code" (JStr "unknown") with
                     | Ok _, Ok _ => log_error "API Error Details"
                     | _, _ => log_error "Raw error"
                     end
                 | Raise _ => log_error "Raw error"
                 end
             | None => log_error "Raw error"
             end);;;
            raise (HTTPError status)
      end
  end.

(** [l[-6:]] *)
Definition last6 {A : Type} (l : list A) : list A := skipn (length l - 6) l.

Definition _generate_ai_response (self : IntelligentAI) (user_message : string)
    : M World Answer :=
  try_except
    (history <~ gets conversation_history;
     let messages := {| role := "system"; content := system_prompt self |} :: last6 history in
     ai_response <~ _call_openai_api self messages;
     let recommendations := _extract_recommendations ai_response in
     modify (append_history {| role := "assistant"; content := ai_response |});;;
     ret {| message := ai_response; recommendations := recommendations |})
    (fun _ =>
       log_error "AI API error";;;
       _generate_fallback_response user_message).

Definition generate_response (self : IntelligentAI) (user_message : string) : M World Answer :=
  modify (append_history {| role := "user"; content := user_message |});;;
  if use_ai_model self then _generate_ai_response self user_message
  else _generate_fallback_response user_message.

(** ** class RestaurantHandler *)

(** The JSON body sent back, with its status. *)
Inductive HttpResponse : Type :=
| Sent200 (response : string) (recommendations : list MenuItem)
| Sent500 (error : string).

(** [_handle_chat]; [body] is the decoded request body, [None] when the
    headers or the bytes do not give one. [ai_assistant] is the class
    attribute: one instance for every request. *)
Definition _handle_chat (ai_assistant : IntelligentAI) (body : option json)
    : M World HttpResponse :=
  try_except
    (data <~ lift (match body with Some d => Ok d | None => Raise JSONDecodeError end);
     user_message <~ lift (dict_get data "message" (JStr ""));
     user_message <~ lift (match user_message with
                           | JStr s => Ok (strip s)
                           | _ => Raise AttributeError
                           end);
     (if String.eqb user_message "" then raise (ValueError "Empty message") else ret tt);;;
     ai_response <~ generate_response ai_assistant user_message;
     ret (Sent200 (message ai_response) (recommendations ai_response)))
    (fun _ =>
       log_error "Chat error";;;
       ret (Sent500 "I apologize, but I encountered an issue. Could you please try rephrasing your question?")).

End RuleEngine.

(** ** [run_server] *)

(** The line about the assistant that [run_server] prints at start-up
    ([ai_status], lines 716-721). *)
Inductive Banner : Type :=
| AiPoweredGroq        (* "AI-Powered Assistant (Groq - FREE)" *)
| AiPoweredOpenAI      (* "AI-Powered Assistant (OpenAI)" *)
| RuleBasedAssistant.  (* "Rule-Based Assistant" *)

Definition ai_status (groq_key openai_key : option string) : Banner :=
  if key_present groq_key then AiPoweredGroq
  else if key_present openai_key then AiPoweredOpenAI
  else RuleBasedAssistant.

End Clean.

(** * scripts/add_restaurant.py *)

Module AddRestaurant.

Import Async.

(** The parsed command line of [add]. *)
Record Args : Type := {
  args_name : string;
  args_subdomain : string;
  args_slug : string;
  args_description : option string;
  args_ai_name : option string;
  args_ai_personality : option string;
  args_welcome_message : option string;
  args_primary_color : string;
  args_add_samples : bool
}.

(** [value or default] for an optional text *)
Definition or_else (value : option string) (default : string) : string :=
  match value with
  | Some s => if String.eqb s "" then default else s
  | None => default
  end.

(** What the database fills in. The schema is not part of the script: the id
    a new row gets, the defaults of [created_at] and [active], and the
    defaults of the columns of [menu_items] that the script does not set
    (taken from [default_item]). *)
Record Schema : Type := {
  new_restaurant_id : list RestaurantRow -> string;
  default_created_at : Z;
  default_active : bool;
  new_item_id : list MenuRow -> Z;
  default_item : MenuItem;
  default_item_active : bool
}.

(** The two tables the script writes, and the column [description] of
    [restaurants] (by id), which no code of the servers reads. *)
Record Database : Type := {
  db_restaurants : list RestaurantRow;
  db_descriptions : list (string * string);
  db_menu_items : list MenuRow
}.

(** One dictionary of [sample_items]; [None] stands for a key that is not
    there. *)
Record SampleItem : Type := {
  sample_name : string;
  sample_description : string;
  sample_price : Z;                 (* cents *)
  sample_category : string;
  sample_vegetarian : option bool;
  sample_vegan : option bool;
  sample_gluten_free : option bool;
  sample_prep_time : option string
}.

Definition sample_items (restaurant_name : string) : list SampleItem :=
  [ {| sample_name := "Signature Appetizer";
       sample_description :=
         "Our famous starter that captures the essence of " +:+ restaurant_name;
       sample_price := 1299; sample_category := "appetizer";
       sample_vegetarian := Some true; sample_vegan := None; sample_gluten_free := None;
       sample_prep_time := Some "10 minutes" |};
    {| sample_name := "Chef's Special";
       sample_description := "Daily creation by our head chef using the freshest ingredients";
       sample_price := 2899; sample_category := "main";
       sample_vegetarian := Some false; sample_vegan := None; sample_gluten_free := None;
       sample_prep_time := Some "25 minutes" |};
    {| sample_name := "House Salad";
       sample_description := "Fresh greens with our signature dressing";
       sample_price := 999; sample_category := "appetizer";
       sample_vegetarian := Some true; sample_vegan := Some true;
       sample_gluten_free := Some true;
       sample_prep_time := Some "5 minutes" |};
    {| sample_name := "Decadent Dessert";
       sample_description := "Our award-winning dessert that you can't miss";
       sample_price := 899; sample_category := "dessert";
       sample_vegetarian := Some true; sample_vegan := None; sample_gluten_free := None;
       sample_prep_time := Some "10 minutes" |} ].

(** One [INSERT INTO menu_items]. *)
Definition insert_item (schema : Schema) (restaurant_id : string) (idx : Z) (item : SampleItem)
    (db : Database) : Database :=
  let defaults := default_item schema in
  let row :=
    {| mrow_restaurant_id := restaurant_id;
       mrow_active := default_item_active schema;
       mrow_display_order := idx;
       mrow_item :=
         {| item_id := new_item_id schema (db_menu_items db);
            item_name := sample_name item;
            item_description := sample_description item;
            item_price := sample_price item;
            item_category := sample_category item;
            item_ingredients := item_ingredients defaults;
            item_allergens := item_allergens defaults;
            item_vegetarian := default false (sample_vegetarian item);
            item_vegan := default false (sample_vegan item);
            item_gluten_free := default false (sample_gluten_free item);
            item_spice_level := item_spice_level defaults;
            item_prep_time := default "15 minutes" (sample_prep_time item);
            item_calories := item_calories defaults;
            item_chef_notes := item_chef_notes defaults |} |} in
  {| db_restaurants := db_restaurants db; db_descriptions := db_descriptions db;
     db_menu_items := db_menu_items db ++ [row] |}.

(** [for idx, item in enumerate(sample_items)], from [idx] on. *)
Fixpoint insert_items (schema : Schema) (restaurant_id : string) (idx : Z)
    (items : list SampleItem) (db : Database) : Database :=
  match items with
  | [] => db
  | item :: rest =>
      insert_items schema restaurant_id (idx + 1) rest
        (insert_item schema restaurant_id idx item db)
  end.

Definition add_sample_menu (schema : Schema) (restaurant_id restaurant_name : string)
    (db : Database) : Database :=
  insert_items schema restaurant_id 0 (sample_items restaurant_name) db.

(** [add_restaurant], with a database that answers: the value returned and
    the tables afterwards. [json_dumps] is [json.dumps]. *)
Definition add_restaurant (schema : Schema) (json_dumps : json -> string) (args : Args)
    (db : Database) : bool * Database :=
  let existing :=
    find (fun row => String.eqb (row_subdomain row) (args_subdomain args) ||
                     String.eqb (row_slug row) (args_slug args))
         (db_restaurants db) in
  match existing with
  | Some _ => (false, db)
  | None =>
      let theme_config :=
        JObj [ ("primary_color", JStr (args_primary_color args));
               ("logo_position", JStr "left");
               ("chat_position", JStr "right") ] in
      let restaurant_id := new_restaurant_id schema (db_restaurants db) in
      let row :=
        {| row_id := restaurant_id;
           row_name := args_name args;
           row_subdomain := args_subdomain args;
           row_slug := args_slug args;
           row_theme_config := json_dumps theme_config;
           row_ai_personality :=
             Some (or_else (args_ai_personality args)
                     "warm, friendly, and knowledgeable about our menu");
           row_ai_name := Some (or_else (args_ai_name args) "Sophie");
           row_welcome_message :=
             Some (or_else (args_welcome_message args)
                     ("Hi! I'm " +:+ or_else (args_ai_name args) "Sophie" +:+ " from " +:+
                      args_name args +:+ ". What can I help you find today?"));
           row_created_at := default_created_at schema;
           row_active := default_active schema |} in
      let description := or_else (args_description args) ("Welcome to " +:+ args_name args) in
      let db :=
        {| db_restaurants := db_restaurants db ++ [row];
           db_descriptions := db_descriptions db ++ [(restaurant_id, description)];
           db_menu_items := db_menu_items db |} in
      let db :=
        if args_add_samples args then add_sample_menu schema restaurant_id (args_name args) db
        else db in
      (true, db)
  end.

End AddRestaurant.

(** * Vocabulary of the properties *)

Import Async.

(** The leftmost label of a host name. *)
Definition leftmost_label (host : string) : string := nth 0 (split "." host) "".

(** The item's name occurs in the text, both lower-cased. *)
Definition name_mentioned `{PyText} (text : string) (item : MenuItem) : bool :=
  str_in (lower (item_name item)) (lower text).

(** The item's name or one of its first two ingredients occurs in the text,
    all lower-cased. *)
Definition item_mentioned `{PyText} (text : string) (item : MenuItem) : bool :=
  str_in (lower (item_name item)) (lower text) ||
  existsb (fun ingredient => str_in (lower ingredient) (lower text))
          (firstn 2 (item_ingredients item)).

(** A request with nothing but a host, a path, a query and a body. *)
Definition request_of (h p : string) (q : list (string * string)) (b : option json) : Request :=
  {| host := h; path := p; query := q; body := b |}.

(** The [(route_type, identifier)] the menu listing works with: lines 478-485
    of [handle_menu]. *)
Definition menu_route `{PyText} (request : Request) : option RouteType * json :=
  let '(route_type, identifier) := get_restaurant_from_request request in
  route_from_query request route_type identifier.

(** The [(route_type, identifier)] the chat turn works with, and the body it
    kept: lines 520-533 of [handle_chat]. *)
Definition chat_route `{PyText} (request : Request) : option RouteType * json * option json :=
  let '(route_type, identifier) := get_restaurant_from_request request in
  route_from_body request route_type identifier.

(** The same request with another body, with another query string. *)
Definition with_body (b : option json) (request : Request) : Request :=
  {| host := host request; path := path request; query := query request; body := b |}.

Definition with_query (q : list (string * string)) (request : Request) : Request :=
  {| host := host request; path := path request; query := q; body := body request |}.

(** [data.get('message', '')] of a body that is a JSON object. *)
Definition message_field (b : option json) : option json :=
  match b with
  | Some (JObj fields) => Some (match assoc "message" fields with Some v => v | None => JStr "" end)
  | _ => None
  end.

(** The message is blank: a string that is empty once stripped (an absent
    message counts as the empty string). *)
Definition blank_message `{PyText} (b : option json) : bool :=
  match message_field b with
  | Some (JStr s) => String.eqb (strip s) ""
  | _ => false
  end.

(** The row a route finds, and the statement that looks for it. *)
Definition select_route (rt : RouteType) (p : option string) (rows : list RestaurantRow)
    : option Restaurant :=
  match rt with
  | subdomain => select_by_subdomain p rows
  | slug => select_by_slug p rows
  end.

Definition route_event (rt : RouteType) (ident : json) : Event :=
  match rt with
  | subdomain => PgRestaurantBySubdomain ident
  | slug => PgRestaurantBySlug ident
  end.

(** [later] was reached from [earlier]: the trace only grew. *)
Definition extends (earlier later : list Event) : Prop := exists pre, later = pre ++ earlier.

(** [e] happened between the two traces. *)
Definition emitted (e : Event) (earlier later : list Event) : Prop :=
  exists pre, later = pre ++ earlier /\ In e pre.

(** What no cache or database call changes: the tables of restaurants and
    menu items, the clock, and what the outside decides. *)
Definition frame (w w' : World) : Prop :=
  restaurants w' = restaurants w /\ menu_items w' = menu_items w /\
  pg_fault w' = pg_fault w /\ redis_fault w' = redis_fault w /\
  backend w' = backend w /\ clock w' = clock w /\
  extends (trace w) (trace w').

(** The cache holds no item for the menu of [rid]: no entry, or the empty
    list. *)
Definition menu_cache_empty (w : World) (rid : string) : bool :=
  match redis_menu w !! rid with
  | Some (_, _ :: _) => false
  | _ => true
  end.

(** ** Worlds and requests to run the code on *)

(** An active row with the defaults of [add_restaurant.py]. *)
Definition sample_row (rid name sub slug_ : string) : RestaurantRow :=
  {| row_id := rid; row_name := name; row_subdomain := sub; row_slug := slug_;
     row_theme_config := "{}"; row_ai_personality := Some "warm and friendly";
     row_ai_name := Some "Sophie"; row_welcome_message := None;
     row_created_at := 0; row_active := true |}.

(** A restaurant whose id is not its subdomain. *)
Definition luigi : RestaurantRow := sample_row "rest-1" "Luigi's Trattoria" "luigi" "luigi".

(** A restaurant whose subdomain is the id of [luigi]. *)
Definition mario : RestaurantRow := sample_row "rest-2" "Mario's Pizzeria" "rest-1" "mario".

(** A restaurant whose id is also its subdomain. *)
Definition pepe : RestaurantRow := sample_row "pepe" "Pepe's Cantina" "pepe" "pepe".

(** A plain dish. *)
Definition sample_item (n : Z) (name : string) : MenuItem :=
  {| item_id := n; item_name := name; item_description := "House special";
     item_price := 1250; item_category := "main"; item_ingredients := [];
     item_allergens := []; item_vegetarian := false; item_vegan := false;
     item_gluten_free := false; item_spice_level := 0; item_prep_time := "15 minutes";
     item_calories := 500; item_chef_notes := "" |}.

(** The one dish on the menu of [pepe]. *)
Definition pepe_taco : MenuRow :=
  {| mrow_restaurant_id := "pepe"; mrow_active := true; mrow_display_order := 0;
     mrow_item := sample_item 1 "Taco" |}.

(** A fresh process: empty cache, no conversation yet; the cache commands all
    fail or all succeed, the database answers, the backend gives [reply]. *)
Definition world_with (rows : list RestaurantRow) (items : list MenuRow)
    (redis_down : bool) (reply : HttpReply) : World :=
  {| redis_restaurant := ∅; redis_menu := ∅;
     redis_fault := fun _ => redis_down; redis_ops := 0;
     restaurants := rows; menu_items := items; conversations := [];
     pg_fault := fun _ => false; pg_ops := 0;
     backend := fun _ _ _ _ => reply; clock := 0; trace := [] |}.

(** A chat turn: [POST /api/chat] with a JSON object as body. *)
Definition chat_request (h : string) (q : list (string * string)) (fields : list (string * json))
    : Request :=
  request_of h "/api/chat" q (Some (JObj fields)).

(** A menu listing: [GET /api/menu]. *)
Definition menu_request (h : string) (q : list (string * string)) : Request :=
  request_of h "/api/menu" q None.

(** What [_call_ai_api] makes of the backend's answer: the text of the first
    choice, or the exception. *)
Definition reply_content (reply : HttpReply) : Result json :=
  match reply with
  | ConnectionFailed => Raise ClientError
  | Reply status body =>
      if status =? 200 then
        match body with
        | None => Raise JSONDecodeError
        | Some result =>
            match getitem_key result "choices" with
            | Ok choices =>
                match getitem_0 choices with
                | Ok first =>
                    match getitem_key first "message" with
                    | Ok msg => getitem_key msg "content"
                    | Raise e => Raise e
                    end
                | Raise e => Raise e
                end
            | Raise e => Raise e
            end
        end
      else Raise (ApiError status)
  end.

(** The backend call failed: no text came back. *)
Definition backend_failed (reply : HttpReply) : bool :=
  match reply_content reply with
  | Ok (JStr _) => false
  | _ => true
  end.

(** The address and the model [_call_ai_api] uses. *)
Definition endpoint (ai : MultiRestaurantAI) : string * string :=
  match ai_service ai with
  | Some groq => ("https://api.groq.com/openai/v1/chat/completions", "llama3-70b-8192")
  | _ => ("https://api.openai.com/v1/chat/completions", "gpt-3.5-turbo")
  end.

(** Some category of the rule engine matches the prepared message. *)
Definition some_category `{PyText} (menu : list MenuItem) (m : string) : bool :=
  Clean._is_greeting m || Clean._is_menu_query m || Clean._is_dietary_query m ||
  Clean._is_recommendation_request m || Clean._is_specific_item_query menu m.

(** A menu of one dish that is neither vegetarian nor vegan. *)
Definition steak_only : list MenuItem := [sample_item 1 "Ribeye Steak"].

(** Two chat bodies with the same greeting, sent by two sessions. *)
Definition hello_from (session : string) : option json :=
  Some (JObj [("message", JStr "hello"); ("session_id", JStr session)]).

(** The assistant with no key in the environment: rule-based answers. *)
Definition rule_based : Clean.IntelligentAI := Clean.new_assistant None None "".

(** A fresh process whose random numbers are all zero. *)
Definition quiet_process : Clean.World :=
  Clean.fresh_world (fun _ => 0%nat) (fun _ _ _ => ConnectionFailed).

(** The order of [ORDER BY display_order, category, name]. *)
Definition row_before (a b : MenuRow) : Prop := menu_row_le a b = true.

(** The column a route compares with the identifier, and whether the
    dictionary it returns has the key [slug]. *)
Definition route_key (rt : RouteType) (row : RestaurantRow) : string :=
  match rt with
  | subdomain => row_subdomain row
  | slug => row_slug row
  end.

Definition route_has_slug (rt : RouteType) : bool :=
  match rt with
  | subdomain => false
  | slug => true
  end.

(** The error texts a chat turn can answer with. *)
Definition chat_errors : list string :=
  [ "Restaurant not specified"; "Empty message"; "Restaurant not found";
    "Failed to process message"; "Failed to generate response" ].

(** The same world with a database that answers no statement. *)
Definition database_down (w : World) : World :=
  {| redis_restaurant := redis_restaurant w; redis_menu := redis_menu w;
     redis_fault := redis_fault w; redis_ops := redis_ops w;
     restaurants := restaurants w; menu_items := menu_items w;
     conversations := conversations w; pg_fault := fun _ => true; pg_ops := pg_ops w;
     backend := backend w; clock := clock w; trace := trace w |}.

(** A row that was switched off. *)
Definition closed_row (row : RestaurantRow) : RestaurantRow :=
  {| row_id := row_id row; row_name := row_name row; row_subdomain := row_subdomain row;
     row_slug := row_slug row; row_theme_config := row_theme_config row;
     row_ai_personality := row_ai_personality row; row_ai_name := row_ai_name row;
     row_welcome_message := row_welcome_message row; row_created_at := row_created_at row;
     row_active := false |}.

(** The dietary flag a message asks for: the first of the three keywords, in
    the order of the tests, that occurs in it. *)
Definition dietary_flag (m : string) : option (MenuItem -> bool) :=
  if str_in "vegetarian" m then Some item_vegetarian
  else if str_in "vegan" m then Some item_vegan
  else if str_in "gluten" m then Some item_gluten_free
  else None.

(** What the rule engine leaves alone: the history, the log and the backend. *)
Definition rule_frame (cw cw' : Clean.World) : Prop :=
  Clean.conversation_history cw' = Clean.conversation_history cw /\
  Clean.trace cw' = Clean.trace cw /\
  Clean.backend cw' = Clean.backend cw.

(** A computation of [app_clean.py] that stays within [rule_frame], however
    it ends. *)
Definition keeps {A : Type} (c : M Clean.World A) : Prop :=
  forall cw, rule_frame cw (snd (c cw)).

(** The service a banner announces. *)
Definition banner_service (b : Clean.Banner) : option Clean.Service :=
  match b with
  | Clean.AiPoweredGroq => Some Clean.groq
  | Clean.AiPoweredOpenAI => Some Clean.openai
  | Clean.RuleBasedAssistant => None
  end.

(** The two entries a turn can add to the history. *)
Definition user_entry (text : string) : Clean.ChatMessage :=
  {| Clean.role := "user"; Clean.content := text |}.

Definition assistant_entry (text : string) : Clean.ChatMessage :=
  {| Clean.role := "assistant"; Clean.content := text |}.

(** The address and the model [_call_openai_api] uses for a service. *)
Definition clean_endpoint (service : Clean.Service) : string * string :=
  match service with
  | Clean.openai => ("https://api.openai.com/v1/chat/completions", "gpt-3.5-turbo")
  | Clean.groq => ("https://api.groq.com/openai/v1/chat/completions", "llama3-70b-8192")
  end.

(** Only errors were logged. *)
Definition only_errors (events : list Clean.Event) : Prop :=
  forall e, In e events -> exists msg, e = Clean.LogError msg.

(** A computation of [app_clean.py] that leaves the history and the backend
    alone and adds nothing but errors to the log, however it ends. *)
Definition logs_only {A : Type} (c : M Clean.World A) : Prop :=
  forall cw,
    Clean.conversation_history (snd (c cw)) = Clean.conversation_history cw /\
    Clean.backend (snd (c cw)) = Clean.backend cw /\
    exists pre, Clean.trace (snd (c cw)) = pre ++ Clean.trace cw /\ only_errors pre.

(** The apology of the chat handler of [app_clean.py]. *)
Definition apology : string :=
  "I apologize, but I encountered an issue. Could you please try rephrasing your question?".

(** No request was sent to the generative backend. *)
Definition no_post (events : list Event) : Prop :=
  forall url model prompt message, ~ In (BackendPost url model prompt message) events.

(** A computation of [app_async.py] that never calls the backend, however it
    ends. *)
Definition offline {A : Type} (c : M World A) : Prop :=
  forall w, exists pre, trace (snd (c w)) = pre ++ trace w /\ no_post pre.

(** The subdomain or the slug of the row is the one asked for. *)
Definition name_taken (args : AddRestaurant.Args) (row : RestaurantRow) : Prop :=
  row_subdomain row = AddRestaurant.args_subdomain args \/
  row_slug row = AddRestaurant.args_slug args.

(** No two rows share a subdomain, no two rows share a slug. *)
Definition names_unique (rows : list RestaurantRow) : Prop :=
  List.NoDup (map row_subdomain rows) /\ List.NoDup (map row_slug rows).

(** A schema that gives sequential ids and activates what is inserted. *)
Definition sample_schema : AddRestaurant.Schema :=
  {| AddRestaurant.new_restaurant_id := fun rows => "r" +:+ str_of_nat (length rows);
     AddRestaurant.default_created_at := 0;
     AddRestaurant.default_active := true;
     AddRestaurant.new_item_id := fun rows => Z.of_nat (length rows);
     AddRestaurant.default_item := sample_item 0 "";
     AddRestaurant.default_item_active := true |}.

(** [add --name "Nonna's" --subdomain nonna --slug nonna-pasta] *)
Definition nonna_args (samples : bool) : AddRestaurant.Args :=
  {| AddRestaurant.args_name := "Nonna's"; AddRestaurant.args_subdomain := "nonna";
     AddRestaurant.args_slug := "nonna-pasta"; AddRestaurant.args_description := None;
     AddRestaurant.args_ai_name := Some "Sophie"; AddRestaurant.args_ai_personality := None;
     AddRestaurant.args_welcome_message := None;
     AddRestaurant.args_primary_color := "#3498db";
     AddRestaurant.args_add_samples := samples |}.

(** The tables with the restaurants [rows] and nothing else. *)
Definition tables_of (rows : list RestaurantRow) : AddRestaurant.Database :=
  {| AddRestaurant.db_restaurants := rows; AddRestaurant.db_descriptions := [];
     AddRestaurant.db_menu_items := [] |}.

(** A serializer to run the script with. *)
Definition plain_dumps (v : json) : string := "{}".

(** The same world over other tables. *)
Definition with_tables (db : AddRestaurant.Database) (w : World) : World :=
  {| redis_restaurant := redis_restaurant w; redis_menu := redis_menu w;
     redis_fault := redis_fault w; redis_ops := redis_ops w;
     restaurants := AddRestaurant.db_restaurants db;
     menu_items := AddRestaurant.db_menu_items db;
     conversations := conversations w; pg_fault := pg_fault w; pg_ops := pg_ops w;
     backend := backend w; clock := clock w; trace := trace w |}.

(** Every entry of the cache expires in an hour. *)
Definition cache_ttl_ok (w : World) : Prop :=
  (forall k t r, redis_restaurant w !! k = Some (t, r) -> t = ttl) /\
  (forall k t menu, redis_menu w !! k = Some (t, menu) -> t = ttl).

(** What serving a request leaves as it is: the tables of restaurants and
    menu items are not written, conversations are only appended, the cache
    keeps its one-hour entries, and the command counters only grow. *)
Definition served (w w' : World) : Prop :=
  restaurants w' = restaurants w /\ menu_items w' = menu_items w /\
  (exists new, conversations w' = conversations w ++ new) /\
  (cache_ttl_ok w -> cache_ttl_ok w') /\
  (redis_ops w <= redis_ops w')%nat /\ (pg_ops w <= pg_ops w')%nat.

(** A computation of [app_async.py] that stays within [served], however it
    ends. *)
Definition safe {A : Type} (c : M World A) : Prop :=
  forall w, served w (snd (c w)).

(** The filter a recommendation request asks for: the one of the first group
    of keywords that the message contains. A request with none of them gets
    the popular dishes, which pass through no filter. *)
Definition recommendation_filter (m : string) : option (MenuItem -> bool) :=
  if any_in ["hungry"; "starving"; "filling"] m then
    Some (fun item => String.eqb (item_category item) "main" && (350 <? item_calories item))
  else if any_in ["light"; "small"; "not very hungry"] m then
    Some (fun item => String.eqb (item_category item) "appetizer" ||
                      (item_calories item <? 300))
  else if any_in ["spicy"; "hot"] m then
    Some (fun item => 2 <? item_spice_level item)
  else if any_in ["healthy"; "nutritious"; "diet"] m then
    Some (fun item => (item_calories item <? 400) || item_gluten_free item)
  else if any_in ["sweet"; "dessert"] m then
    Some (fun item => String.eqb (item_category item) "dessert")
  else None.

(** The filter the rule engine puts the menu through for a prepared message:
    the dietary flag of a dietary query, the filter of a recommendation
    request. The other categories, tried in the order of the dispatch, take
    their dishes from the whole menu. *)
Definition asked_filter (m : string) : option (MenuItem -> bool) :=
  if Clean._is_greeting m then None
  else if Clean._is_menu_query m then None
  else if Clean._is_dietary_query m then dietary_flag m
  else if Clean._is_recommendation_request m then recommendation_filter m
  else None.

(** No dish of the menu passes the filter. *)
Definition none_passes (flt : MenuItem -> bool) (menu : list MenuItem) : Prop :=
  forall item, In item menu -> flt item = false.

(** A menu with nothing on it. *)
Definition no_menu : list MenuItem := [].

(** The requests of a list handled one after the other by the one handler of
    the process: the state they leave. *)
Fixpoint serve_all `{PyText} (menu : list MenuItem) (assistant : Clean.IntelligentAI)
    (bodies : list (option json)) (cw : Clean.World) : Clean.World :=
  match bodies with
  | [] => cw
  | b :: rest =>
      serve_all menu assistant rest (snd (Clean._handle_chat menu assistant b cw))
  end.

(** A computation of [app_clean.py] that never takes the greeting flag down,
    however it ends. *)
Definition flag_stays {A : Type} (c : M Clean.World A) : Prop :=
  forall cw, Clean.greeting_used cw = true -> Clean.greeting_used (snd (c cw)) = true.

(** A chat body that thanks, sent by a session. *)
Definition thanks_from (session : string) : option json :=
  Some (JObj [("message", JStr "thanks a lot"); ("session_id", JStr session)]).

(** A restaurant whose assistant is not called Sophie. *)
Definition gina_row : RestaurantRow :=
  {| row_id := "rest-9"; row_name := "Nonna's"; row_subdomain := "nonna";
     row_slug := "nonna-pasta"; row_theme_config := "{}";
     row_ai_personality := Some "warm and friendly"; row_ai_name := Some "Gina";
     row_welcome_message := None; row_created_at := 0; row_active := true |}.


(** * Properties *)

(** ** Strings *)

Lemma split_nonempty (sep : ascii) (s : string) : split sep s <> [].
Proof.
  destruct s as [|c r]; simpl; [discriminate|].
  destruct (Ascii.eqb c sep); [discriminate|].
  destruct (split sep r); discriminate.
Qed.

Lemma prefix_cons (a b : ascii) (p s : string) :
  String.prefix (String a p) (String b s) = true -> a = b /\ String.prefix p s = true.
Proof. simpl. destruct (ascii_dec a b); [auto|discriminate]. Qed.

(** A path that starts with [/r/] always has the three parts the resolver
    asks for. *)
Lemma split_r_path (p : string) :
  startswith p "/r/" = true -> (3 <=? length (split "/" p))%nat = true.
Proof.
  unfold startswith. intros Hp.
  destruct p as [|a p]; [discriminate|]. apply prefix_cons in Hp as [<- Hp].
  destruct p as [|b p]; [discriminate|]. apply prefix_cons in Hp as [<- Hp].
  destruct p as [|c p]; [discriminate|]. apply prefix_cons in Hp as [<- _].
  simpl. pose proof (split_nonempty "/" p) as Hne.
  destruct (split "/" p); [congruence|]. reflexivity.
Qed.

(** ** The tenant resolver *)

(** C2, as the code has it. The resolver lower-cases the host first. When the
    lower-cased host contains a dot and its leftmost label is not reserved, the
    answer is [('subdomain', label)] whatever the path, the query and the body
    are; when the label is reserved, the answer is the one of the path:
    [('slug', parts[2])] for a path that starts with [/r/], [(None, None)]
    otherwise. *)
Theorem resolver_host_precedence `{PyText} (request : Request) :
  str_in "." (lower (host request)) = true ->
  get_restaurant_from_request request =
    if str_mem (leftmost_label (lower (host request))) reserved then
      if startswith (path request) "/r/"
      then (Some slug, JStr (nth 2 (split "/" (path request)) ""))
      else (None, JNull)
    else (Some subdomain, JStr (leftmost_label (lower (host request)))).
Proof.
  intros Hdot. unfold get_restaurant_from_request, leftmost_label.
  rewrite Hdot.
  destruct (str_mem _ reserved); cbn [negb]; [|reflexivity].
  destruct (startswith (path request) "/r/") eqn:Hp; [|reflexivity].
  now rewrite (split_r_path _ Hp).
Qed.

Lemma resolver_host_precedence_witness :
  @get_restaurant_from_request ascii_text
    (request_of "luigi.restaurant-ai.com" "/r/mario" [("restaurant_id", "pepe")] None)
  = (Some subdomain, JStr "luigi").
Proof.
  exact (@resolver_host_precedence ascii_text
           (request_of "luigi.restaurant-ai.com" "/r/mario" [("restaurant_id", "pepe")] None)
           eq_refl).
Defined.

(** The claim read on the host as it arrives fails on a host with capitals:
    the label [Luigi] is not reserved, and the answer carries [luigi]. *)
Lemma resolver_keeps_label_counterexample :
  let request := request_of "Luigi.restaurant-ai.com" "/" [] None in
  str_in "." (host request) = true /\
  str_mem (leftmost_label (host request)) reserved = false /\
  @get_restaurant_from_request ascii_text request
    <> (Some subdomain, JStr (leftmost_label (host request))).
Proof. vm_compute. repeat split; discriminate. Qed.

(** ** The recommendation extractor *)

(** One step of either extraction loop, once the item is appended: stop at
    two, go on below. *)
Lemma take2_snoc {A : Type} (loop : list A -> list A) (acc : list A) (x : A) (tl : list A) :
  (length acc < 2)%nat ->
  (forall acc', (length acc' < 2)%nat -> loop acc' = firstn 2 (acc' ++ tl)) ->
  (if match length (acc ++ [x]) with S (S _) => true | _ => false end
   then acc ++ [x] else loop (acc ++ [x]))
  = firstn 2 (acc ++ x :: tl).
Proof.
  intros Hacc IH.
  replace (acc ++ x :: tl) with ((acc ++ [x]) ++ tl) by (now rewrite <- app_assoc).
  assert (Hl : length (acc ++ [x]) = S (length acc)) by (rewrite length_app; simpl; lia).
  destruct (length (acc ++ [x])) as [|[|n]] eqn:E.
  - lia.
  - apply IH. lia.
  - assert (n = 0)%nat as -> by lia.
    rewrite firstn_app, E. simpl.
    rewrite app_nil_r. symmetry. apply firstn_all2. lia.
Qed.

Section Extractor.

Context `{PyText}.

Lemma async_extract_loop_spec (text : string) (items : list MenuItem)
    (acc : list Recommendation) :
  (length acc < 2)%nat ->
  Async.extract_loop text items acc =
  firstn 2 (acc ++ map recommendation_of
                     (List.filter (fun item => str_in (lower (item_name item)) text) items)).
Proof.
  revert acc. induction items as [|item rest IH]; intros acc Hacc; simpl.
  - rewrite app_nil_r. symmetry. apply firstn_all2. lia.
  - destruct (str_in (lower (item_name item)) text); [|now apply IH].
    simpl. apply (take2_snoc (Async.extract_loop text rest)); auto.
Qed.

Lemma clean_extract_loop_spec (text : string) (items acc : list MenuItem) :
  (length acc < 2)%nat ->
  Clean.extract_loop text items acc =
  firstn 2 (acc ++ List.filter
                     (fun item =>
                        str_in (lower (item_name item)) text ||
                        existsb (fun ingredient => str_in (lower ingredient) text)
                                (firstn 2 (item_ingredients item)))
                     items).
Proof.
  revert acc. induction items as [|item rest IH]; intros acc Hacc; simpl.
  - rewrite app_nil_r. symmetry. apply firstn_all2. lia.
  - match goal with |- context [if ?b then _ else _] => destruct b end; [|now apply IH].
    simpl. apply (take2_snoc (Clean.extract_loop text rest)); auto.
Qed.

Lemma in_firstn {A : Type} (n : nat) (l : list A) (x : A) : In x (firstn n l) -> In x l.
Proof.
  revert l. induction n as [|n IH]; intros [|y l]; simpl; try tauto.
  intros [->|Hin]; [now left | right; now apply IH].
Qed.

Lemma firstn_length_le {A : Type} (n : nat) (l : list A) : (length (firstn n l) <= n)%nat.
Proof. rewrite length_firstn. lia. Qed.

Lemma async_extract_spec (text : string) (menu : list MenuItem) :
  Async._extract_recommendations text menu =
  firstn 2 (map recommendation_of (List.filter (name_mentioned text) menu)).
Proof.
  unfold Async._extract_recommendations.
  rewrite async_extract_loop_spec by (simpl; lia). reflexivity.
Qed.

Lemma clean_extract_spec (menu : list MenuItem) (text : string) :
  Clean._extract_recommendations menu text =
  match firstn 2 (List.filter (item_mentioned text) menu) with
  | [] => firstn 2 (firstn 3 menu)
  | found => found
  end.
Proof.
  unfold Clean._extract_recommendations.
  rewrite clean_extract_loop_spec by (simpl; lia). cbn [app].
  fold (item_mentioned text).
  now destruct (firstn 2 (List.filter (item_mentioned text) menu)).
Qed.

(** C3, as the code has it. Both extractors return at most two items and scan
    the menu in its order, stopping at the second match. The extractor of
    [app_async.py] matches on the lower-cased name only, so the name of every
    item it returns occurs in the lower-cased text. The extractor of
    [app_clean.py] also matches on either of the first two ingredients, and
    returns the first two featured items when nothing matches. *)
Theorem extraction_at_most_two_in_menu_order (text : string) (menu : list MenuItem) :
  ((length (Async._extract_recommendations text menu) <= 2)%nat /\
   Async._extract_recommendations text menu =
     firstn 2 (map recommendation_of (List.filter (name_mentioned text) menu)) /\
   (forall r, In r (Async._extract_recommendations text menu) ->
      str_in (lower (rec_name r)) (lower text) = true /\
      exists item, In item menu /\ r = recommendation_of item))
  /\
  ((length (Clean._extract_recommendations menu text) <= 2)%nat /\
   Clean._extract_recommendations menu text =
     match firstn 2 (List.filter (item_mentioned text) menu) with
     | [] => firstn 2 (firstn 3 menu)
     | found => found
     end).
Proof.
  split; [split; [|split]|split].
  - rewrite async_extract_spec. apply firstn_length_le.
  - apply async_extract_spec.
  - intros r Hr. rewrite async_extract_spec in Hr.
    apply in_firstn in Hr. apply in_map_iff in Hr as (item & <- & Hitem).
    apply filter_In in Hitem as [Hin Hm]. split; [exact Hm | eauto].
  - rewrite clean_extract_spec.
    destruct (firstn 2 (List.filter (item_mentioned text) menu)) eqn:E.
    + apply firstn_length_le.
    + rewrite <- E. apply firstn_length_le.
  - apply clean_extract_spec.
Qed.

End Extractor.

(** The claim fails on the extractor of [app_clean.py]: nothing in [hello]
    names an item, and two items come back. *)
Lemma extraction_substring_counterexample :
  exists item,
    In item (@Clean._extract_recommendations ascii_text Clean.MENU_DATA "hello") /\
    str_in (@lower ascii_text (item_name item)) (@lower ascii_text "hello") = false.
Proof.
  exists (nth 0 Clean.MENU_DATA
            {| item_id := 0; item_name := ""; item_description := ""; item_price := 0;
               item_category := ""; item_ingredients := []; item_allergens := [];
               item_vegetarian := false; item_vegan := false; item_gluten_free := false;
               item_spice_level := 0; item_prep_time := ""; item_calories := 0;
               item_chef_notes := "" |}).
  vm_compute. split; [left; reflexivity | reflexivity].
Qed.

(** ** The cache-aside store and the orchestrator *)

(** The menu listing never reads the body, the chat turn never reads the
    query string. *)
Lemma handle_menu_ignores_body `{PyText} b request :
  handle_menu (with_body b request) = handle_menu request.
Proof. reflexivity. Qed.

Lemma handle_chat_ignores_query `{PyText} ai q request :
  handle_chat ai (with_query q request) = handle_chat ai request.
Proof. reflexivity. Qed.

(** The body the chat turn keeps is the request's body, and it is true-valued. *)
Lemma chat_route_data `{PyText} request rt ident jd :
  chat_route request = (rt, ident, jd) -> jd = None \/ (jd = body request /\ exists d, jd = Some d /\ truthy d = true).
Proof.
  unfold chat_route. destruct (get_restaurant_from_request request) as [r i].
  unfold route_from_body. destruct r.
  - intros [= <- <- <-]. now left.
  - unfold request_json. destruct (body request) as [d|] eqn:Hb.
    + destruct (dict_get d "restaurant_id" JNull) as [v|e] eqn:Hg.
      * destruct (truthy v) eqn:Hv.
        -- intros [= <- <- <-]. right. split; [reflexivity|]. exists d. split; [reflexivity|].
           destruct d; simpl in Hg; try discriminate. destruct fields; [|reflexivity].
           simpl in Hg. injection Hg as <-. discriminate.
        -- intros [= <- <- <-]. now left.
      * intros [= <- <- <-]. now left.
    + intros [= <- <- <-]. now left.
Qed.

Lemma extends_refl t : extends t t.
Proof. now exists []. Qed.

Lemma extends_cons e t t' : extends t t' -> extends t (e :: t').
Proof. intros [pre ->]. now exists (e :: pre). Qed.

Lemma extends_trans t1 t2 t3 : extends t1 t2 -> extends t2 t3 -> extends t1 t3.
Proof. intros [p ->] [q ->]. exists (q ++ p). now rewrite app_assoc. Qed.

Lemma emitted_here e t t' : extends t t' -> emitted e t (e :: t').
Proof. intros [pre ->]. exists (e :: pre). split; [reflexivity | now left]. Qed.

Lemma emitted_cons e e' t t' : emitted e t t' -> emitted e t (e' :: t').
Proof. intros (pre & -> & Hin). exists (e' :: pre). split; [reflexivity | now right]. Qed.

Lemma emitted_extends_l e t1 t2 t3 : extends t1 t2 -> emitted e t2 t3 -> emitted e t1 t3.
Proof.
  intros [p ->] (q & -> & Hin). exists (q ++ p). split; [now rewrite app_assoc|].
  apply in_or_app. now left.
Qed.

Lemma emitted_extends_r e t1 t2 t3 : emitted e t1 t2 -> extends t2 t3 -> emitted e t1 t3.
Proof.
  intros (p & -> & Hin) [q ->]. exists (q ++ p). split; [now rewrite app_assoc|].
  apply in_or_app. now right.
Qed.

(** Goals about a trace that grew by explicit events. *)
Ltac trace_tac :=
  cbn;
  lazymatch goal with
  | |- extends _ _ => repeat apply extends_cons; apply extends_refl
  | |- emitted _ _ _ =>
      repeat first [ apply emitted_here; repeat apply extends_cons; apply extends_refl
                   | apply emitted_cons ]
  end.

(** Goals about a world built from an earlier one by explicit steps. *)
Ltac world_tac :=
  repeat split; cbn;
  first [ reflexivity | left; reflexivity | right; reflexivity | trace_tac | discriminate | idtac ].

Arguments select_menu_items : simpl never.

Arguments select_by_subdomain : simpl never.

Arguments select_by_slug : simpl never.

Arguments build_system_prompt : simpl never.

Arguments String.append : simpl never.

(** Each method of [RestaurantCache] and [DatabaseManager], run in a world. *)
Lemma get_restaurant_run w rid :
  get_restaurant rid w =
  if redis_fault w (redis_ops w)
  then (Ok None, emit (LogError "Redis get error")
                   (tick_redis (emit (RedisGet ("restaurant:" +:+ rid)) w)))
  else (Ok (snd <$> redis_restaurant w !! rid),
        tick_redis (emit (RedisGet ("restaurant:" +:+ rid)) w)).
Proof.
  unfold get_restaurant, try_except, bind, redis_command.
  destruct (redis_fault w (redis_ops w)); [reflexivity|].
  cbn. now destruct (redis_restaurant w !! rid) as [[t r]|].
Qed.

Lemma get_menu_run w rid :
  get_menu rid w =
  if redis_fault w (redis_ops w)
  then (Ok None, emit (LogError "Redis menu get error")
                   (tick_redis (emit (RedisGet ("menu:" +:+ rid)) w)))
  else (Ok (snd <$> redis_menu w !! rid),
        tick_redis (emit (RedisGet ("menu:" +:+ rid)) w)).
Proof.
  unfold get_menu, try_except, bind, redis_command.
  destruct (redis_fault w (redis_ops w)); [reflexivity|].
  cbn. now destruct (redis_menu w !! rid) as [[t r]|].
Qed.

Lemma set_restaurant_run w rid r :
  set_restaurant rid r w =
  if redis_fault w (redis_ops w)
  then (Ok tt, emit (LogError "Redis set error")
                 (tick_redis (emit (RedisSetex ("restaurant:" +:+ rid) ttl) w)))
  else (Ok tt, set_redis_restaurant (fun m => <[rid := (ttl, r)]> m)
                 (tick_redis (emit (RedisSetex ("restaurant:" +:+ rid) ttl) w))).
Proof.
  unfold set_restaurant, try_except, redis_command.
  now destruct (redis_fault w (redis_ops w)).
Qed.

Lemma set_menu_run w rid menu :
  set_menu rid menu w =
  if redis_fault w (redis_ops w)
  then (Ok tt, emit (LogError "Redis menu set error")
                 (tick_redis (emit (RedisSetex ("menu:" +:+ rid) ttl) w)))
  else (Ok tt, set_redis_menu (fun m => <[rid := (ttl, menu)]> m)
                 (tick_redis (emit (RedisSetex ("menu:" +:+ rid) ttl) w))).
Proof.
  unfold set_menu, try_except, redis_command.
  now destruct (redis_fault w (redis_ops w)).
Qed.

Lemma invalidate_restaurant_run w rid :
  invalidate_restaurant rid w =
  if redis_fault w (redis_ops w)
  then (Ok tt, emit (LogError "Redis invalidate error")
                 (tick_redis (emit (RedisDelete ("restaurant:" +:+ rid)) w)))
  else if redis_fault w (S (redis_ops w))
  then (Ok tt, emit (LogError "Redis invalidate error")
                 (tick_redis (emit (RedisDelete ("menu:" +:+ rid))
                    (set_redis_restaurant (fun m => delete rid m)
                       (tick_redis (emit (RedisDelete ("restaurant:" +:+ rid)) w))))))
  else (Ok tt, set_redis_menu (fun m => delete rid m)
                 (tick_redis (emit (RedisDelete ("menu:" +:+ rid))
                    (set_redis_restaurant (fun m => delete rid m)
                       (tick_redis (emit (RedisDelete ("restaurant:" +:+ rid)) w)))))).
Proof.
  unfold invalidate_restaurant, try_except, bind, redis_command.
  destruct (redis_fault w (redis_ops w)); [reflexivity|]. cbn.
  now destruct (redis_fault w (S (redis_ops w))).
Qed.

Lemma lookup_route_run rt ident w :
  lookup_route rt ident w =
  if pg_fault w (pg_ops w) then (Raise PostgresError, tick_pg (emit (route_event rt ident) w))
  else match text_param ident with
       | Ok p => (Ok (select_route rt p (restaurants w)), tick_pg (emit (route_event rt ident) w))
       | Raise e => (Raise e, tick_pg (emit (route_event rt ident) w))
       end.
Proof.
  destruct rt; unfold lookup_route, get_restaurant_by_subdomain, get_restaurant_by_slug,
    bind, pg_command, lift, gets; cbn;
  destruct (pg_fault w (pg_ops w)); try reflexivity;
  now destruct (text_param ident).
Qed.

Lemma get_menu_items_run rid w :
  get_menu_items rid w =
  if pg_fault w (pg_ops w) then (Raise PostgresError, tick_pg (emit (PgMenuItems rid) w))
  else (Ok (select_menu_items rid (menu_items w)), tick_pg (emit (PgMenuItems rid) w)).
Proof.
  unfold get_menu_items, pg_command. now destruct (pg_fault w (pg_ops w)).
Qed.

(** The profile lookup: what it leaves alone, whatever happens. *)
Lemma fetch_restaurant_frame w rid :
  let '(res, w') := fetch_restaurant rid w in
  frame w w' /\ conversations w' = conversations w /\ redis_menu w' = redis_menu w /\
  (pg_ops w' = pg_ops w \/ pg_ops w' = S (pg_ops w)).
Proof.
  unfold fetch_restaurant, bind. rewrite get_restaurant_run.
  change (get_restaurant_by_subdomain (JStr rid)) with (lookup_route subdomain (JStr rid)).
  destruct (redis_fault w (redis_ops w)) eqn:Hf1.
  - cbv beta iota. rewrite (lookup_route_run subdomain (JStr rid)). cbn.
    destruct (pg_fault w (pg_ops w)); [world_tac |].
    destruct (select_by_subdomain (Some rid) (restaurants w)); [| world_tac].
    rewrite set_restaurant_run. cbn.
    destruct (redis_fault w (S (redis_ops w))); world_tac.
  - destruct (redis_restaurant w !! rid) as [[t r]|]; cbn; [world_tac |].
    cbv beta iota. rewrite (lookup_route_run subdomain (JStr rid)). cbn.
    destruct (pg_fault w (pg_ops w)); [world_tac |].
    destruct (select_by_subdomain (Some rid) (restaurants w)); [| world_tac].
    rewrite set_restaurant_run. cbn.
    destruct (redis_fault w (S (redis_ops w))); world_tac.
Qed.

(** The profile lookup on a miss, with the database answering. *)
Lemma fetch_restaurant_miss w rid :
  pg_fault w (pg_ops w) = false ->
  (redis_fault w (redis_ops w) = true \/ redis_restaurant w !! rid = None) ->
  exists w',
    fetch_restaurant rid w = (Ok (select_by_subdomain (Some rid) (restaurants w)), w') /\
    pg_ops w' = S (pg_ops w) /\
    emitted (PgRestaurantBySubdomain (JStr rid)) (trace w) (trace w').
Proof.
  intros Hpg Hmiss. unfold fetch_restaurant, bind. rewrite get_restaurant_run.
  change (get_restaurant_by_subdomain (JStr rid)) with (lookup_route subdomain (JStr rid)).
  destruct (redis_fault w (redis_ops w)) eqn:Hf1.
  - cbv beta iota. rewrite (lookup_route_run subdomain (JStr rid)). cbn. rewrite Hpg.
    destruct (select_by_subdomain (Some rid) (restaurants w)).
    + rewrite set_restaurant_run. cbn.
      destruct (redis_fault w (S (redis_ops w))); eexists; (split; [reflexivity|]); split; try reflexivity; trace_tac.
    + eexists; (split; [reflexivity|]); split; try reflexivity; trace_tac.
  - destruct Hmiss as [?| ->]; [discriminate|]. cbn.
    cbv beta iota. rewrite (lookup_route_run subdomain (JStr rid)). cbn. rewrite Hpg.
    destruct (select_by_subdomain (Some rid) (restaurants w)).
    + rewrite set_restaurant_run. cbn.
      destruct (redis_fault w (S (redis_ops w))); eexists; (split; [reflexivity|]); split; try reflexivity; trace_tac.
    + eexists; (split; [reflexivity|]); split; try reflexivity; trace_tac.
Qed.

Lemma menu_missing_cached w rid :
  menu_missing (snd <$> redis_menu w !! rid) = menu_cache_empty w rid.
Proof. unfold menu_cache_empty. now destruct (redis_menu w !! rid) as [[t [|x l]]|]. Qed.

Lemma fetch_menu_frame w rid r :
  let '(res, w') := fetch_menu rid r w in
  frame w w' /\ conversations w' = conversations w /\
  redis_restaurant w' = redis_restaurant w.
Proof.
  unfold fetch_menu, bind. rewrite get_menu_run.
  destruct (redis_fault w (redis_ops w)) eqn:Hf1; cbv beta iota.
  - cbn [menu_missing]. rewrite get_menu_items_run. cbn.
    destruct (pg_fault w (pg_ops w)); [world_tac |].
    destruct (select_menu_items (r_id r) (menu_items w)); [world_tac |].
    rewrite set_menu_run. cbn.
    destruct (redis_fault w (S (redis_ops w))); world_tac.
  - destruct (menu_missing (snd <$> redis_menu w !! rid)); [| world_tac].
    rewrite get_menu_items_run. cbn.
    destruct (pg_fault w (pg_ops w)); [world_tac |].
    destruct (select_menu_items (r_id r) (menu_items w)); [world_tac |].
    rewrite set_menu_run. cbn.
    destruct (redis_fault w (S (redis_ops w))); world_tac.
Qed.

(** The menu lookup when the cache fails or holds no item: the database is
    asked, and its answer is the result. *)
Lemma fetch_menu_miss w rid r :
  (redis_fault w (redis_ops w) = true \/ menu_cache_empty w rid = true) ->
  let '(res, w') := fetch_menu rid r w in
  emitted (PgMenuItems (r_id r)) (trace w) (trace w') /\
  (pg_fault w (pg_ops w) = false -> res = Ok (select_menu_items (r_id r) (menu_items w))).
Proof.
  intros Hmiss. unfold fetch_menu, bind. rewrite get_menu_run.
  destruct (redis_fault w (redis_ops w)) eqn:Hf1; cbv beta iota.
  - cbn [menu_missing]. rewrite get_menu_items_run. cbn.
    destruct (pg_fault w (pg_ops w)); [world_tac |].
    destruct (select_menu_items (r_id r) (menu_items w)); [world_tac |].
    rewrite set_menu_run. cbn.
    destruct (redis_fault w (S (redis_ops w))); (world_tac).
  - destruct Hmiss as [?|Hmiss]; [discriminate|].
    rewrite menu_missing_cached, Hmiss.
    rewrite get_menu_items_run. cbn.
    destruct (pg_fault w (pg_ops w)); [world_tac |].
    destruct (select_menu_items (r_id r) (menu_items w)); [world_tac |].
    rewrite set_menu_run. cbn.
    destruct (redis_fault w (S (redis_ops w))); (world_tac).
Qed.

Lemma call_ai_api_extends ai prompt m w :
  let '(res, w') := _call_ai_api ai prompt m w in
  extends (trace w) (trace w') /\ conversations w' = conversations w.
Proof.
  unfold _call_ai_api.
  destruct (match ai_service ai with
            | Some groq => _
            | _ => _
            end) as [url model].
  unfold bind, http_post. cbn.
  destruct (backend w url model prompt m) as [|status body]; cbn; [world_tac|].
  destruct (status =? 200).
  - destruct body as [result|]; cbn; [|world_tac].
    unfold lift.
    destruct (getitem_key result "choices") as [c|]; cbn; [|world_tac].
    destruct (getitem_0 c) as [f|]; cbn; [|world_tac].
    destruct (getitem_key f "message") as [msg|]; cbn; [|world_tac].
    world_tac.
  - cbn. world_tac.
Qed.

Lemma log_conversation_extends rid sid m resp w :
  let '(res, w') := log_conversation rid sid m resp w in
  extends (trace w) (trace w').
Proof.
  unfold log_conversation, bind, pg_command, lift, modify. cbn.
  destruct (pg_fault w (pg_ops w)); [trace_tac|].
  destruct (text_param sid); trace_tac.
Qed.

Section Orchestrator.

Context `{PyText}.

Lemma generate_response_not_found ai rid m sid w w1 :
  fetch_restaurant rid w = (Ok None, w1) ->
  generate_response ai rid m sid w = (Ok (Failed "Restaurant not found"), w1).
Proof.
  intros Hf. unfold generate_response, try_except, bind. now rewrite Hf.
Qed.

(** [generate_response] catches everything. *)
Lemma generate_response_total ai rid m sid w :
  exists v w', generate_response ai rid m sid w = (Ok v, w').
Proof.
  unfold generate_response, try_except.
  match goal with |- context [match ?m w with _ => _ end] => destruct (m w) as [[v|e] w'] end.
  - eauto.
  - unfold bind, log_error, modify, ret. eauto.
Qed.

(** Past the profile lookup, with no item cached for the menu, the database
    is asked for the menu. *)
Lemma generate_response_queries_menu ai rid m sid w r w1 :
  fetch_restaurant rid w = (Ok (Some r), w1) ->
  (redis_fault w1 (redis_ops w1) = true \/ menu_cache_empty w1 rid = true) ->
  let '(res, w') := generate_response ai rid m sid w in
  emitted (PgMenuItems (r_id r)) (trace w) (trace w').
Proof.
  intros Hf Hmiss.
  pose proof (fetch_restaurant_frame w rid) as Hfr. rewrite Hf in Hfr.
  destruct Hfr as ((_ & _ & _ & _ & _ & _ & Hext) & _).
  pose proof (fetch_menu_miss w1 rid r Hmiss) as Hm.
  unfold generate_response, try_except, bind. rewrite Hf. cbv beta iota.
  destruct (fetch_menu rid r w1) as [[menu|e] w2].
  2:{ cbn. apply emitted_cons. eapply emitted_extends_l; [exact Hext | apply Hm]. }
  destruct Hm as [Hm _].
  assert (Hm' : emitted (PgMenuItems (r_id r)) (trace w) (trace w2))
    by (eapply emitted_extends_l; eauto).
  clear Hm Hf Hmiss Hext.
  assert (Hcall : exists res3 w3,
            (match ai_service ai with
             | Some _ => _call_ai_api ai (build_system_prompt r menu) m
             | None => ret (JStr (_generate_fallback_response m r))
             end) w2 = (res3, w3) /\ extends (trace w2) (trace w3)).
  { destruct (ai_service ai).
    - pose proof (call_ai_api_extends ai (build_system_prompt r menu) m w2) as Hc.
      destruct (_call_ai_api ai (build_system_prompt r menu) m w2) as [res3 w3].
      exists res3, w3. split; [reflexivity | apply Hc].
    - eexists _, _. split; [reflexivity | apply extends_refl]. }
  destruct Hcall as (res3 & w3 & -> & Hext3).
  assert (Hm3 : emitted (PgMenuItems (r_id r)) (trace w) (trace w3))
    by (eapply emitted_extends_r; eauto).
  destruct res3 as [text|e]; [|cbn; now apply emitted_cons].
  unfold lift. destruct (as_str text) as [s|e]; [|cbn; now apply emitted_cons].
  cbv beta iota.
  pose proof (log_conversation_extends (r_id r) sid m s w3) as Hl.
  destruct (log_conversation (r_id r) sid m s w3) as [[[]|e] w4]; cbn.
  - eapply emitted_extends_r; eauto.
  - apply emitted_cons. eapply emitted_extends_r; eauto.
Qed.

End Orchestrator.

Section Chat.

Context `{PyText}.

(** The chat handler, for a request that names a restaurant the database
    finds and carries a message that is not blank: the answer is the one of
    [generate_response], called with the id of the row. *)
Lemma handle_chat_found ai request w rt ident jd m p r :
  chat_route request = (Some rt, ident, jd) ->
  message_field (body request) = Some (JStr m) ->
  strip m <> "" ->
  pg_fault w (pg_ops w) = false ->
  text_param ident = Ok p ->
  select_route rt p (restaurants w) = Some r ->
  exists sid,
    handle_chat ai request w =
    generate_response ai (r_id r) (strip m) sid (tick_pg (emit (route_event rt ident) w)).
Proof.
  intros Hroute Hmsg Hne Hpg Hp Hsel. unfold handle_chat.
  pose proof (chat_route_data request) as Hd. unfold chat_route in *.
  destruct (get_restaurant_from_request request) as [r0 i0].
  destruct (route_from_body request r0 i0) as [[rt' ident'] jd'].
  injection Hroute as -> -> ->.
  specialize (Hd _ _ _ eq_refl).
  unfold message_field in Hmsg.
  destruct (body request) as [[| | | | |fields]|] eqn:Hbody; try discriminate.
  assert (Hdata : match jd with
                  | Some d => if truthy d then Ok d else request_json request
                  | None => request_json request
                  end = Ok (JObj fields)).
  { destruct Hd as [->|[-> (d & Hd & Ht)]].
    - unfold request_json. now rewrite Hbody.
    - injection Hd as <-. now rewrite Ht. }
  exists (match assoc "session_id" fields with Some x => x | None => JStr "anonymous" end).
  unfold try_except, bind, lift. rewrite Hdata. cbn [dict_get].
  injection Hmsg as Hmsg. rewrite Hmsg. cbn [str_strip].
  destruct (String.eqb_spec (strip m) ""); [contradiction|].
  rewrite (lookup_route_run rt ident), Hpg, Hp, Hsel.
  destruct (generate_response_total ai (r_id r) (strip m)
              (match assoc "session_id" fields with Some x => x | None => JStr "anonymous" end)
              (tick_pg (emit (route_event rt ident) w))) as (v & w' & ->).
  reflexivity.
Qed.

(** C9, as the code has it. [handle_chat] finds the row, then calls
    [generate_response] with the row's id; on a profile cache miss
    [generate_response] looks that id up as a subdomain. When no active
    restaurant has that id as its subdomain, the chat fails with
    [Restaurant not found], and nothing is logged as a conversation. *)
Theorem chat_profile_miss_not_found ai request w rt ident jd m p r :
  chat_route request = (Some rt, ident, jd) ->
  message_field (body request) = Some (JStr m) ->
  strip m <> "" ->
  text_param ident = Ok p ->
  select_route rt p (restaurants w) = Some r ->
  pg_fault w (pg_ops w) = false ->
  pg_fault w (S (pg_ops w)) = false ->
  (redis_fault w (redis_ops w) = true \/ redis_restaurant w !! r_id r = None) ->
  select_by_subdomain (Some (r_id r)) (restaurants w) = None ->
  exists w',
    handle_chat ai request w = (Ok (Failed "Restaurant not found"), w') /\
    conversations w' = conversations w /\
    emitted (PgRestaurantBySubdomain (JStr (r_id r))) (trace w) (trace w').
Proof.
  intros Hroute Hmsg Hne Hp Hsel Hpg1 Hpg2 Hcache Hnone.
  destruct (handle_chat_found ai request w rt ident jd m p r) as (sid & ->); auto.
  set (w1 := tick_pg (emit (route_event rt ident) w)).
  destruct (fetch_restaurant_miss w1 (r_id r)) as (w' & Hf & _ & Hem).
  { exact Hpg2. }
  { exact Hcache. }
  change (restaurants w1) with (restaurants w) in Hf. rewrite Hnone in Hf.
  exists w'. split; [now apply generate_response_not_found|].
  pose proof (fetch_restaurant_frame w1 (r_id r)) as Hfr. rewrite Hf in Hfr.
  destruct Hfr as (_ & Hc & _). split; [exact Hc|].
  eapply emitted_extends_l; [|exact Hem]. subst w1. trace_tac.
Qed.

End Chat.

Lemma chat_profile_miss_not_found_witness :
  exists w',
    @handle_chat ascii_text (new_ai None None)
      (chat_request "luigi.restaurant-ai.com" [] [("message", JStr "hi")])
      (world_with [luigi] [] false ConnectionFailed)
    = (Ok (Failed "Restaurant not found"), w') /\
    conversations w' = [] /\
    emitted (PgRestaurantBySubdomain (JStr "rest-1")) [] (trace w').
Proof.
  apply (@chat_profile_miss_not_found ascii_text (new_ai None None)
           (chat_request "luigi.restaurant-ai.com" [] [("message", JStr "hi")])
           (world_with [luigi] [] false ConnectionFailed)
           subdomain (JStr "luigi") None "hi" (Some "luigi") (dict_of_row false luigi));
    try reflexivity.
  - vm_compute. discriminate.
  - right. reflexivity.
Defined.

(** The claim as it stands fails when another active restaurant has the id
    as its subdomain: the chat for [luigi] is answered, in the name of
    [mario]. *)
Lemma chat_profile_miss_counterexample :
  let w := world_with [luigi; mario] [] false ConnectionFailed in
  let request := chat_request "luigi.restaurant-ai.com" [] [("message", JStr "hi")] in
  row_active luigi = true /\
  row_id luigi <> row_subdomain luigi /\
  select_by_subdomain (Some "luigi") (restaurants w) = Some (dict_of_row false luigi) /\
  redis_restaurant w !! row_id luigi = None /\
  fst (@handle_chat ascii_text (new_ai None None) request w)
  = Ok (ChatOk "Our menu has some amazing options. What are you in the mood for?" []
          "Mario's Pizzeria" (Some "Sophie")).
Proof. vm_compute. repeat split; discriminate. Qed.

Lemma fetch_restaurant_no_cache_error w rid :
  fst (fetch_restaurant rid w) <> Raise RedisError.
Proof.
  unfold fetch_restaurant, bind. rewrite get_restaurant_run.
  destruct (redis_fault w (redis_ops w)) eqn:Hf1; cbv beta iota.
  - rewrite (lookup_route_run subdomain (JStr rid)). cbn.
    destruct (pg_fault w (pg_ops w)); [discriminate|].
    destruct (select_by_subdomain (Some rid) (restaurants w)); [|discriminate].
    rewrite set_restaurant_run. cbn.
    destruct (redis_fault w (S (redis_ops w))); discriminate.
  - destruct (redis_restaurant w !! rid) as [[t r]|]; cbn; [discriminate|].
    cbv beta iota. rewrite (lookup_route_run subdomain (JStr rid)). cbn.
    destruct (pg_fault w (pg_ops w)); [discriminate|].
    destruct (select_by_subdomain (Some rid) (restaurants w)); [|discriminate].
    rewrite set_restaurant_run. cbn.
    destruct (redis_fault w (S (redis_ops w))); discriminate.
Qed.

Lemma fetch_menu_no_cache_error w rid r :
  fst (fetch_menu rid r w) <> Raise RedisError.
Proof.
  unfold fetch_menu, bind. rewrite get_menu_run.
  destruct (redis_fault w (redis_ops w)) eqn:Hf1; cbv beta iota.
  - cbn [menu_missing]. rewrite get_menu_items_run. cbn.
    destruct (pg_fault w (pg_ops w)); [discriminate|].
    destruct (select_menu_items (r_id r) (menu_items w)); [discriminate|].
    rewrite set_menu_run. cbn.
    destruct (redis_fault w (S (redis_ops w))); discriminate.
  - destruct (menu_missing (snd <$> redis_menu w !! rid)); [|discriminate].
    rewrite get_menu_items_run. cbn.
    destruct (pg_fault w (pg_ops w)); [discriminate|].
    destruct (select_menu_items (r_id r) (menu_items w)); [discriminate|].
    rewrite set_menu_run. cbn.
    destruct (redis_fault w (S (redis_ops w))); discriminate.
Qed.

Lemma fetch_restaurant_cache_down w rid :
  redis_fault w (redis_ops w) = true ->
  pg_fault w (pg_ops w) = false ->
  exists w',
    fetch_restaurant rid w = (Ok (select_by_subdomain (Some rid) (restaurants w)), w') /\
    emitted (LogError "Redis get error") (trace w) (trace w') /\
    emitted (PgRestaurantBySubdomain (JStr rid)) (trace w) (trace w').
Proof.
  intros Hf Hpg. unfold fetch_restaurant, bind. rewrite get_restaurant_run, Hf.
  cbv beta iota. rewrite (lookup_route_run subdomain (JStr rid)). cbn. rewrite Hpg.
  destruct (select_by_subdomain (Some rid) (restaurants w)).
  - rewrite set_restaurant_run. cbn.
    destruct (redis_fault w (S (redis_ops w))); eexists; (split; [reflexivity|]); world_tac.
  - eexists; (split; [reflexivity|]); world_tac.
Qed.

Lemma fetch_menu_cache_down w rid r :
  redis_fault w (redis_ops w) = true ->
  pg_fault w (pg_ops w) = false ->
  exists w',
    fetch_menu rid r w = (Ok (select_menu_items (r_id r) (menu_items w)), w') /\
    emitted (LogError "Redis menu get error") (trace w) (trace w') /\
    emitted (PgMenuItems (r_id r)) (trace w) (trace w').
Proof.
  intros Hf Hpg. unfold fetch_menu, bind. rewrite get_menu_run, Hf.
  cbv beta iota. cbn [menu_missing]. rewrite get_menu_items_run. cbn. rewrite Hpg.
  destruct (select_menu_items (r_id r) (menu_items w)).
  - eexists; (split; [reflexivity|]); world_tac.
  - rewrite set_menu_run. cbn.
    destruct (redis_fault w (S (redis_ops w))); eexists; (split; [reflexivity|]); world_tac.
Qed.

Section MenuEndpoint.

Context `{PyText}.

Lemma handle_menu_found request w rt ident p r :
  menu_route request = (Some rt, ident) ->
  pg_fault w (pg_ops w) = false ->
  text_param ident = Ok p ->
  select_route rt p (restaurants w) = Some r ->
  (redis_fault w (redis_ops w) = true \/ menu_cache_empty w (r_id r) = true) ->
  let items := select_menu_items (r_id r) (menu_items w) in
  let '(res, w') := handle_menu request w in
  emitted (PgMenuItems (r_id r)) (trace w) (trace w') /\
  (pg_fault w (S (pg_ops w)) = false ->
   res = Ok (MenuOk (r_id r) (r_name r) items (length items)) /\
   (redis_fault w (redis_ops w) = false -> redis_fault w (S (redis_ops w)) = false ->
    redis_menu w' !! r_id r = Some (ttl, items))).
Proof.
  intros Hroute Hpg Hp Hsel Hmiss items. unfold handle_menu.
  unfold menu_route in Hroute.
  destruct (get_restaurant_from_request request) as [r0 i0]. rewrite Hroute.
  unfold bind. rewrite (lookup_route_run rt ident), Hpg, Hp, Hsel. cbv beta iota.
  rewrite get_menu_run. cbn [redis_fault redis_ops tick_pg emit].
  destruct (redis_fault w (redis_ops w)) eqn:Hf1; cbv beta iota.
  - cbn [menu_missing]. rewrite get_menu_items_run. cbn.
    destruct (pg_fault w (S (pg_ops w))); [world_tac|].
    rewrite set_menu_run. cbn.
    destruct (redis_fault w (S (redis_ops w))); world_tac.
  - destruct Hmiss as [?|Hmiss]; [discriminate|].
    rewrite menu_missing_cached.
    change (menu_cache_empty _ (r_id r)) with (menu_cache_empty w (r_id r)).
    rewrite Hmiss. rewrite get_menu_items_run. cbn.
    destruct (pg_fault w (S (pg_ops w))); [world_tac|].
    rewrite set_menu_run. cbn.
    destruct (redis_fault w (S (redis_ops w))); world_tac.
    intros _ _. apply lookup_insert_eq.
Qed.

End MenuEndpoint.

Section MenuRefetch.

Context `{PyText}.

(** After a menu listing that the database answered: the tables are as
    before and two statements were sent; the cache holds the list just read
    unless the write failed. *)
Lemma handle_menu_found_world request w rt ident p r :
  menu_route request = (Some rt, ident) ->
  pg_fault w (pg_ops w) = false ->
  pg_fault w (S (pg_ops w)) = false ->
  text_param ident = Ok p ->
  select_route rt p (restaurants w) = Some r ->
  menu_cache_empty w (r_id r) = true ->
  let items := select_menu_items (r_id r) (menu_items w) in
  let '(res, w') := handle_menu request w in
  restaurants w' = restaurants w /\ menu_items w' = menu_items w /\
  pg_fault w' = pg_fault w /\ pg_ops w' = S (S (pg_ops w)) /\
  (redis_menu w' !! r_id r = Some (ttl, items) \/ redis_menu w' = redis_menu w).
Proof.
  intros Hroute Hpg Hpg2 Hp Hsel Hmiss items. unfold handle_menu.
  unfold menu_route in Hroute.
  destruct (get_restaurant_from_request request) as [r0 i0]. rewrite Hroute.
  unfold bind. rewrite (lookup_route_run rt ident), Hpg, Hp, Hsel. cbv beta iota.
  rewrite get_menu_run. cbn [redis_fault redis_ops tick_pg emit].
  destruct (redis_fault w (redis_ops w)) eqn:Hf1; cbv beta iota.
  - cbn [menu_missing]. rewrite get_menu_items_run. cbn. rewrite Hpg2.
    rewrite set_menu_run. cbn.
    destruct (redis_fault w (S (redis_ops w))); world_tac.
    left. apply lookup_insert_eq.
  - rewrite menu_missing_cached.
    change (menu_cache_empty _ (r_id r)) with (menu_cache_empty w (r_id r)).
    rewrite Hmiss. rewrite get_menu_items_run. cbn. rewrite Hpg2.
    rewrite set_menu_run. cbn.
    destruct (redis_fault w (S (redis_ops w))); world_tac.
    left. apply lookup_insert_eq.
Qed.

(** C10, as the code has it. A menu listing that finds the restaurant asks the
    database for the menu whenever the cache holds no item for it; when the
    menu is empty it writes the empty list with the time to live of one hour,
    and the next listing asks the database again. A chat turn asks the
    database for the menu in the same situation once the profile lookup gave
    a restaurant; a chat turn that stops at the profile lookup never reaches
    the menu. *)
Theorem empty_cached_menu_is_refetched request w rt ident p r ai rid m sid wc rc wc1 :
  menu_route request = (Some rt, ident) ->
  text_param ident = Ok p ->
  select_route rt p (restaurants w) = Some r ->
  pg_fault w (pg_ops w) = false ->
  pg_fault w (S (pg_ops w)) = false ->
  pg_fault w (S (S (pg_ops w))) = false ->
  menu_cache_empty w (r_id r) = true ->
  select_menu_items (r_id r) (menu_items w) = [] ->
  fetch_restaurant rid wc = (Ok (Some rc), wc1) ->
  menu_cache_empty wc rid = true ->
  (let '(res1, w1) := handle_menu request w in
   let '(res2, w2) := handle_menu request w1 in
   res1 = Ok (MenuOk (r_id r) (r_name r) [] 0) /\
   emitted (PgMenuItems (r_id r)) (trace w) (trace w1) /\
   (redis_fault w (redis_ops w) = false -> redis_fault w (S (redis_ops w)) = false ->
    redis_menu w1 !! r_id r = Some (3600, [])) /\
   emitted (PgMenuItems (r_id r)) (trace w1) (trace w2)) /\
  (let '(res, w') := generate_response ai rid m sid wc in
   emitted (PgMenuItems (r_id rc)) (trace wc) (trace w')).
Proof.
  intros Hroute Hp Hsel Hpg1 Hpg2 Hpg3 Hmiss Hempty Hfetch Hmissc. split.
  - pose proof (handle_menu_found request w rt ident p r Hroute Hpg1 Hp Hsel
                  (or_intror Hmiss)) as H1.
    pose proof (handle_menu_found_world request w rt ident p r Hroute Hpg1 Hpg2 Hp Hsel
                  Hmiss) as H2.
    cbv zeta in H1, H2. rewrite Hempty in H1, H2.
    destruct (handle_menu request w) as [res1 w1].
    destruct H1 as (Hem1 & Hres1). specialize (Hres1 Hpg2) as [-> Hcached].
    destruct H2 as (Hr & Hm & Hf & Hops & Hcache).
    assert (Hmiss1 : menu_cache_empty w1 (r_id r) = true).
    { unfold menu_cache_empty in *. destruct Hcache as [-> | ->]; [reflexivity | exact Hmiss]. }
    pose proof (handle_menu_found request w1 rt ident p r Hroute) as H3.
    rewrite Hf, Hops, Hr in H3.
    specialize (H3 Hpg3 Hp Hsel (or_intror Hmiss1)). cbv zeta in H3.
    destruct (handle_menu request w1) as [res2 w2].
    destruct H3 as [Hem2 _]. repeat split; auto.
  - pose proof (fetch_restaurant_frame wc rid) as Hfr. rewrite Hfetch in Hfr.
    destruct Hfr as (_ & _ & Hrm & _).
    apply (generate_response_queries_menu ai rid m sid wc rc wc1 Hfetch).
    right. unfold menu_cache_empty in *. now rewrite Hrm.
Qed.

End MenuRefetch.

Lemma empty_cached_menu_is_refetched_witness :
  (let '(res1, w1) := @handle_menu ascii_text (menu_request "pepe.restaurant-ai.com" [])
                        (world_with [pepe] [] false ConnectionFailed) in
   let '(res2, w2) := @handle_menu ascii_text (menu_request "pepe.restaurant-ai.com" []) w1 in
   res1 = Ok (MenuOk "pepe" "Pepe's Cantina" [] 0) /\
   emitted (PgMenuItems "pepe") [] (trace w1) /\
   (false = false -> false = false -> redis_menu w1 !! "pepe" = Some (3600, [])) /\
   emitted (PgMenuItems "pepe") (trace w1) (trace w2)) /\
  (let '(res, w') := @generate_response ascii_text (new_ai None None) "pepe" "hi" (JStr "s1")
                       (world_with [pepe] [] false ConnectionFailed) in
   emitted (PgMenuItems "pepe") [] (trace w')).
Proof.
  exact (@empty_cached_menu_is_refetched ascii_text
           (menu_request "pepe.restaurant-ai.com" [])
           (world_with [pepe] [] false ConnectionFailed)
           subdomain (JStr "pepe") (Some "pepe") (dict_of_row false pepe)
           (new_ai None None) "pepe" "hi" (JStr "s1")
           (world_with [pepe] [] false ConnectionFailed) (dict_of_row false pepe)
           (snd (fetch_restaurant "pepe" (world_with [pepe] [] false ConnectionFailed)))
           eq_refl eq_refl eq_refl eq_refl eq_refl eq_refl eq_refl eq_refl eq_refl eq_refl).
Defined.

(** The claim as it stands fails on the chat turn: for [luigi], whose menu is
    empty and whose id is not a subdomain, the chat stops at the profile
    lookup and the menu is never asked for. *)
Lemma empty_menu_chat_counterexample :
  let w := world_with [luigi] [] false ConnectionFailed in
  let request := chat_request "luigi.restaurant-ai.com" [] [("message", JStr "hi")] in
  select_by_subdomain (Some "luigi") (restaurants w) = Some (dict_of_row false luigi) /\
  select_menu_items (row_id luigi) (menu_items w) = [] /\
  fst (@handle_chat ascii_text (new_ai None None) request w) = Ok (Failed "Restaurant not found") /\
  ~ In (PgMenuItems (row_id luigi)) (trace (snd (@handle_chat ascii_text (new_ai None None) request w))).
Proof.
  vm_compute. repeat split.
  intros H. repeat (destruct H as [H|H]; [discriminate|]). exact H.
Qed.

(** ** Cache failures *)

Lemma fetch_restaurant_healthy w rid r :
  pg_fault w (pg_ops w) = false ->
  select_by_subdomain (Some rid) (restaurants w) = Some r ->
  exists r' w', fetch_restaurant rid w = (Ok (Some r'), w').
Proof.
  intros Hpg Hsel. unfold fetch_restaurant, bind. rewrite get_restaurant_run.
  destruct (redis_fault w (redis_ops w)) eqn:Hf1; cbv beta iota.
  - rewrite (lookup_route_run subdomain (JStr rid)). cbn. rewrite Hpg, Hsel.
    rewrite set_restaurant_run. cbn.
    destruct (redis_fault w (S (redis_ops w))); eauto.
  - destruct (redis_restaurant w !! rid) as [[t r0]|]; cbn; [eauto|].
    cbv beta iota. rewrite (lookup_route_run subdomain (JStr rid)). cbn. rewrite Hpg, Hsel.
    rewrite set_restaurant_run. cbn.
    destruct (redis_fault w (S (redis_ops w))); eauto.
Qed.

Lemma fetch_menu_healthy w rid r :
  pg_fault w (pg_ops w) = false ->
  exists menu w', fetch_menu rid r w = (Ok menu, w').
Proof.
  intros Hpg. unfold fetch_menu, bind. rewrite get_menu_run.
  destruct (redis_fault w (redis_ops w)) eqn:Hf1; cbv beta iota.
  - cbn [menu_missing]. rewrite get_menu_items_run. cbn. rewrite Hpg.
    destruct (select_menu_items (r_id r) (menu_items w)); [unfold ret; eauto|].
    rewrite set_menu_run. cbn.
    destruct (redis_fault w (S (redis_ops w))); eauto.
  - destruct (menu_missing (snd <$> redis_menu w !! rid)); [|unfold ret; eauto].
    rewrite get_menu_items_run. cbn. rewrite Hpg.
    destruct (select_menu_items (r_id r) (menu_items w)); [unfold ret; eauto|].
    rewrite set_menu_run. cbn.
    destruct (redis_fault w (S (redis_ops w))); eauto.
Qed.

Lemma log_conversation_healthy rid sid sidp m resp w :
  pg_fault w (pg_ops w) = false ->
  text_param sid = Ok sidp ->
  exists c w',
    log_conversation rid sid m resp w = (Ok tt, w') /\
    conversations w' = conversations w ++ [c] /\
    conv_restaurant_id c = rid /\ conv_message c = m /\ conv_response c = resp.
Proof.
  intros Hpg Hsid. unfold log_conversation, bind, pg_command, lift, modify. cbn.
  rewrite Hpg, Hsid. eexists _, _. split; [reflexivity|]. cbn. repeat split.
Qed.

(** With the database answering and no backend configured, a chat turn for a
    restaurant the lookup finds succeeds whatever the cache does, and the
    exchange is logged. *)
Lemma generate_response_survives_cache `{PyText} ai rid m sid sidp w r :
  ai_service ai = None ->
  (forall n, pg_fault w n = false) ->
  text_param sid = Ok sidp ->
  select_by_subdomain (Some rid) (restaurants w) = Some r ->
  exists text recs name ai_name c w',
    generate_response ai rid m sid w = (Ok (ChatOk text recs name ai_name), w') /\
    conversations w' = conversations w ++ [c] /\
    conv_message c = m /\ conv_response c = text.
Proof.
  intros Hai Hpg Hsid Hsel.
  destruct (fetch_restaurant_healthy w rid r (Hpg _) Hsel) as (r' & w1 & Hf).
  pose proof (fetch_restaurant_frame w rid) as Hfr. rewrite Hf in Hfr.
  destruct Hfr as ((_ & _ & Hpg1 & _) & Hc1 & _).
  destruct (fetch_menu_healthy w1 rid r') as (menu & w2 & Hm).
  { rewrite Hpg1. apply Hpg. }
  pose proof (fetch_menu_frame w1 rid r') as Hmr. rewrite Hm in Hmr.
  destruct Hmr as ((_ & _ & Hpg2 & _) & Hc2 & _).
  unfold generate_response, try_except, bind. rewrite Hf. cbv beta iota. rewrite Hm.
  cbv beta iota. rewrite Hai. unfold ret at 1, lift. cbn [as_str]. cbv beta iota.
  destruct (log_conversation_healthy (r_id r') sid sidp m
              (_generate_fallback_response m r') w2) as (c & w3 & Hlog & Hc3 & _ & Hcm & Hcr).
  { rewrite Hpg2, Hpg1. apply Hpg. }
  { exact Hsid. }
  rewrite Hlog. unfold ret. eexists _, _, _, _, c, w3. split; [reflexivity|].
  split; [congruence|]. split; assumption.
Qed.

(** C5. When a cache command fails, every method of [RestaurantCache] returns
    normally: a read as a miss, a write or a delete as done; the tables and the
    cached entries are as before and the error is in the log. With the
    database answering, the profile lookup and the menu lookup of
    [generate_response] then return what the database holds, after asking it,
    and the menu listing answers with the menu of the database. In every
    world the two lookups never end with the cache's error, and with the
    database answering throughout a chat turn succeeds whatever the cache
    does. *)
Theorem cache_failure_degrades_to_store `{PyText} (w w0 wc : World) (rid : string)
    (r : Restaurant) (menu : list MenuItem)
    (request : Request) (rt : RouteType) (ident : json) (p : option string) (rm : Restaurant)
    (ai : MultiRestaurantAI) (cid m : string) (sid : json) (sidp : option string)
    (rc : Restaurant) :
  redis_fault w (redis_ops w) = true ->
  pg_fault w (pg_ops w) = false ->
  pg_fault w (S (pg_ops w)) = false ->
  menu_route request = (Some rt, ident) ->
  text_param ident = Ok p ->
  select_route rt p (restaurants w) = Some rm ->
  ai_service ai = None ->
  (forall n, pg_fault wc n = false) ->
  text_param sid = Ok sidp ->
  select_by_subdomain (Some cid) (restaurants wc) = Some rc ->
  (get_restaurant rid w =
     (Ok None, emit (LogError "Redis get error")
                 (tick_redis (emit (RedisGet ("restaurant:" +:+ rid)) w))) /\
   get_menu rid w =
     (Ok None, emit (LogError "Redis menu get error")
                 (tick_redis (emit (RedisGet ("menu:" +:+ rid)) w))) /\
   set_restaurant rid r w =
     (Ok tt, emit (LogError "Redis set error")
               (tick_redis (emit (RedisSetex ("restaurant:" +:+ rid) ttl) w))) /\
   set_menu rid menu w =
     (Ok tt, emit (LogError "Redis menu set error")
               (tick_redis (emit (RedisSetex ("menu:" +:+ rid) ttl) w))) /\
   invalidate_restaurant rid w =
     (Ok tt, emit (LogError "Redis invalidate error")
               (tick_redis (emit (RedisDelete ("restaurant:" +:+ rid)) w)))) /\
  (exists w',
     fetch_restaurant rid w = (Ok (select_by_subdomain (Some rid) (restaurants w)), w') /\
     emitted (LogError "Redis get error") (trace w) (trace w') /\
     emitted (PgRestaurantBySubdomain (JStr rid)) (trace w) (trace w') /\
     conversations w' = conversations w) /\
  (exists w',
     fetch_menu rid r w = (Ok (select_menu_items (r_id r) (menu_items w)), w') /\
     emitted (LogError "Redis menu get error") (trace w) (trace w') /\
     emitted (PgMenuItems (r_id r)) (trace w) (trace w') /\
     conversations w' = conversations w) /\
  fst (handle_menu request w) =
    Ok (MenuOk (r_id rm) (r_name rm) (select_menu_items (r_id rm) (menu_items w))
          (length (select_menu_items (r_id rm) (menu_items w)))) /\
  fst (fetch_restaurant rid w0) <> Raise RedisError /\
  fst (fetch_menu rid r w0) <> Raise RedisError /\
  (exists text recs name ai_name c w',
     generate_response ai cid m sid wc = (Ok (ChatOk text recs name ai_name), w') /\
     conversations w' = conversations wc ++ [c] /\
     conv_message c = m /\ conv_response c = text).
Proof.
  intros Hf Hpg Hpg2 Hroute Hp Hsel Hai Hpgc Hsid Hselc.
  split; [|split; [|split; [|split; [|split; [|split]]]]].
  - rewrite get_restaurant_run, get_menu_run, set_restaurant_run, set_menu_run,
      invalidate_restaurant_run, Hf. repeat split.
  - destruct (fetch_restaurant_cache_down w rid Hf Hpg) as (w' & Hrun & H1 & H2).
    exists w'. repeat split; auto.
    pose proof (fetch_restaurant_frame w rid) as Hfr. rewrite Hrun in Hfr. tauto.
  - destruct (fetch_menu_cache_down w rid r Hf Hpg) as (w' & Hrun & H1 & H2).
    exists w'. repeat split; auto.
    pose proof (fetch_menu_frame w rid r) as Hfr. rewrite Hrun in Hfr. tauto.
  - pose proof (handle_menu_found request w rt ident p rm Hroute Hpg Hp Hsel
                  (or_introl Hf)) as Hm.
    cbv zeta in Hm. destruct (handle_menu request w) as [res w'].
    destruct Hm as [_ Hm]. now destruct (Hm Hpg2) as [-> _].
  - apply fetch_restaurant_no_cache_error.
  - apply fetch_menu_no_cache_error.
  - now apply (generate_response_survives_cache ai cid m sid sidp wc rc).
Qed.

Lemma cache_failure_degrades_to_store_witness :
  let w := world_with [pepe] [pepe_taco] true ConnectionFailed in
  get_restaurant "pepe" w =
    (Ok None, emit (LogError "Redis get error")
                (tick_redis (emit (RedisGet "restaurant:pepe") w))) /\
  (exists w', fetch_restaurant "pepe" w = (Ok (Some (dict_of_row false pepe)), w') /\
              emitted (PgRestaurantBySubdomain (JStr "pepe")) [] (trace w')) /\
  (exists w', fetch_menu "pepe" (dict_of_row false pepe) w = (Ok [sample_item 1 "Taco"], w') /\
              emitted (PgMenuItems "pepe") [] (trace w')) /\
  fst (@handle_menu ascii_text (menu_request "pepe.restaurant-ai.com" []) w)
    = Ok (MenuOk "pepe" "Pepe's Cantina" [sample_item 1 "Taco"] 1) /\
  (exists text recs name ai_name c w',
     @generate_response ascii_text (new_ai None None) "pepe" "hello" (JStr "session-1") w
       = (Ok (ChatOk text recs name ai_name), w') /\
     conversations w' = [c] /\ conv_message c = "hello" /\ conv_response c = text).
Proof.
  intros w.
  destruct (@cache_failure_degrades_to_store ascii_text w w w "pepe" (dict_of_row false pepe) []
              (menu_request "pepe.restaurant-ai.com" []) subdomain (JStr "pepe") (Some "pepe")
              (dict_of_row false pepe) (new_ai None None) "pepe" "hello" (JStr "session-1")
              (Some "session-1") (dict_of_row false pepe)
              eq_refl eq_refl eq_refl eq_refl eq_refl eq_refl eq_refl
              (fun _ => eq_refl) eq_refl eq_refl)
    as ((Hget & _) & (w1 & Hr & _ & Hr' & _) & (w2 & Hm & _ & Hm' & _) & Hmenu & _ & _ & Hchat).
  split; [exact Hget|]. split; [exists w1; split; assumption|].
  split; [exists w2; split; assumption|]. split; [exact Hmenu | exact Hchat].
Defined.

(** ** Which request field names the restaurant *)

(** C7, as the code has it. When host and path name no restaurant, the menu
    listing takes a non-empty [restaurant_id] of the query string as a slug and
    does not look at the body; the chat turn takes a true-valued
    [restaurant_id] of a JSON-object body as a slug and does not look at the
    query string. *)
Theorem restaurant_id_fallback_per_endpoint `{PyText} (mreq creq : Request) (rid : string)
    (fields : list (string * json)) (v : json) :
  fst (get_restaurant_from_request mreq) = None ->
  assoc "restaurant_id" (query mreq) = Some rid ->
  rid <> "" ->
  fst (get_restaurant_from_request creq) = None ->
  body creq = Some (JObj fields) ->
  assoc "restaurant_id" fields = Some v ->
  truthy v = true ->
  (menu_route mreq = (Some slug, JStr rid) /\
   forall b, handle_menu (with_body b mreq) = handle_menu mreq) /\
  (chat_route creq = (Some slug, v, Some (JObj fields)) /\
   forall ai q, handle_chat ai (with_query q creq) = handle_chat ai creq).
Proof.
  intros Hm Hq Hne Hc Hb Hf Hv. split; split.
  - unfold menu_route. destruct (get_restaurant_from_request mreq) as [rt i].
    simpl in Hm. subst rt. unfold route_from_query. rewrite Hq.
    destruct (String.eqb_spec rid ""); [contradiction | reflexivity].
  - reflexivity.
  - unfold chat_route. destruct (get_restaurant_from_request creq) as [rt i].
    simpl in Hc. subst rt. unfold route_from_body, request_json. rewrite Hb.
    cbn [dict_get]. now rewrite Hf, Hv.
  - reflexivity.
Qed.

Lemma restaurant_id_fallback_per_endpoint_witness :
  @menu_route ascii_text (menu_request "localhost:8080" [("restaurant_id", "luigi")])
    = (Some slug, JStr "luigi") /\
  @chat_route ascii_text
    (chat_request "localhost:8080" [] [("restaurant_id", JStr "luigi"); ("message", JStr "hi")])
    = (Some slug, JStr "luigi",
       Some (JObj [("restaurant_id", JStr "luigi"); ("message", JStr "hi")])).
Proof.
  destruct (@restaurant_id_fallback_per_endpoint ascii_text
              (menu_request "localhost:8080" [("restaurant_id", "luigi")])
              (chat_request "localhost:8080" []
                 [("restaurant_id", JStr "luigi"); ("message", JStr "hi")])
              "luigi" [("restaurant_id", JStr "luigi"); ("message", JStr "hi")] (JStr "luigi")
              eq_refl eq_refl ltac:(discriminate) eq_refl eq_refl eq_refl eq_refl)
    as [[Hm _] [Hc _]].
  split; assumption.
Defined.

(** The claim as it stands fails on the chat turn: the slug is in the query
    string only, the same query string names the restaurant for the menu
    listing, and the chat answers that no restaurant is specified. *)
Lemma chat_query_only_counterexample :
  let w := world_with [luigi] [] false ConnectionFailed in
  let q := [("restaurant_id", "luigi")] in
  let request := chat_request "localhost:8080" q [("message", JStr "hi")] in
  fst (@get_restaurant_from_request ascii_text request) = None /\
  assoc "restaurant_id" (query request) = Some "luigi" /\
  fst (@handle_menu ascii_text (menu_request "localhost:8080" q) w)
    = Ok (MenuOk "rest-1" "Luigi's Trattoria" [] 0) /\
  @handle_chat ascii_text (new_ai None None) request w
    = (Ok (Failed "Restaurant not specified"), w).
Proof. vm_compute. repeat split. Qed.

(** ** Blank messages *)

Lemma clean_handle_chat_blank `{PyText} (menu : list MenuItem) (assistant : Clean.IntelligentAI)
    (b : option json) (cw : Clean.World) :
  blank_message b = true ->
  Clean._handle_chat menu assistant b cw =
    (Ok (Clean.Sent500 "I apologize, but I encountered an issue. Could you please try rephrasing your question?"),
     Clean.emit (Clean.LogError "Chat error") cw).
Proof.
  unfold blank_message, message_field. intros Hb.
  destruct b as [[| | | | |fields]|]; try discriminate.
  unfold Clean._handle_chat, try_except, bind, lift. cbn [dict_get].
  destruct (assoc "message" fields) as [[| | |s| |]|]; try discriminate.
  - cbv beta iota. now rewrite Hb.
  - cbv beta iota. now rewrite Hb.
Qed.

Lemma async_handle_chat_blank `{PyText} ai request w :
  blank_message (body request) = true ->
  handle_chat ai request w =
    (Ok (Failed (match fst (fst (chat_route request)) with
                 | Some _ => "Empty message"
                 | None => "Restaurant not specified"
                 end)), w).
Proof.
  intros Hb. unfold handle_chat.
  pose proof (chat_route_data request) as Hd. unfold chat_route in *.
  destruct (get_restaurant_from_request request) as [r i].
  destruct (route_from_body request r i) as [[rt ident] jd].
  specialize (Hd _ _ _ eq_refl). simpl.
  destruct rt; [|reflexivity].
  unfold blank_message, message_field in Hb.
  destruct (body request) as [[| | | | |fields]|] eqn:Hbody; try discriminate.
  assert (Hdata : match jd with
                  | Some d => if truthy d then Ok d else request_json request
                  | None => request_json request
                  end = Ok (JObj fields)).
  { destruct Hd as [->|[-> (d & Hd & Ht)]].
    - unfold request_json. now rewrite Hbody.
    - injection Hd as <-. now rewrite Ht. }
  unfold try_except, bind, lift. rewrite Hdata. simpl.
  destruct (assoc "message" fields) as [v|]; simpl.
  - destruct v; try discriminate. simpl. rewrite Hb. reflexivity.
  - simpl in Hb. rewrite Hb. reflexivity.
Qed.

(** C8, as the code has it. A chat request whose message is blank (absent,
    or empty once stripped) is answered with an error and leaves everything
    as it was. In
    [app_async.py] the answer is [Empty message] when the request names a
    restaurant and [Restaurant not specified] otherwise, and the world after
    is the world before: no cache command, no statement, no backend call, no
    conversation. In [app_clean.py] the answer is the 500 with the apology;
    the history, the greeting flag and the random state are untouched, the
    backend is not called, and the error is written to the log. *)
Theorem blank_message_no_side_effects `{PyText} (ai : MultiRestaurantAI) (request : Request)
    (w : World) (menu : list MenuItem) (assistant : Clean.IntelligentAI) (cw : Clean.World) :
  blank_message (body request) = true ->
  handle_chat ai request w =
    (Ok (Failed (match fst (fst (chat_route request)) with
                 | Some _ => "Empty message"
                 | None => "Restaurant not specified"
                 end)), w) /\
  Clean._handle_chat menu assistant (body request) cw =
    (Ok (Clean.Sent500 "I apologize, but I encountered an issue. Could you please try rephrasing your question?"),
     Clean.emit (Clean.LogError "Chat error") cw).
Proof.
  intros Hb. split.
  - now apply async_handle_chat_blank.
  - now apply clean_handle_chat_blank.
Qed.

Lemma blank_message_no_side_effects_witness :
  let request := chat_request "luigi.restaurant-ai.com" [] [("message", JStr "   ")] in
  let w := world_with [luigi] [] false ConnectionFailed in
  let cw := Clean.fresh_world (fun _ => 0%nat) (fun _ _ _ => ConnectionFailed) in
  @handle_chat ascii_text (new_ai None None) request w = (Ok (Failed "Empty message"), w) /\
  @Clean._handle_chat ascii_text Clean.MENU_DATA (Clean.new_assistant None None "") (body request) cw
    = (Ok (Clean.Sent500 "I apologize, but I encountered an issue. Could you please try rephrasing your question?"),
       Clean.emit (Clean.LogError "Chat error") cw).
Proof.
  intros request w cw.
  exact (@blank_message_no_side_effects ascii_text (new_ai None None) request w
           Clean.MENU_DATA (Clean.new_assistant None None "") cw eq_refl).
Defined.

(** The claim as it stands fails on what the user is shown. In
    [app_clean.py] a blank message gets the answer of a body that cannot be
    read at all: the 500 with the apology, which says nothing about the
    message. In [app_async.py] a blank message of a request that names no
    restaurant is answered [Restaurant not specified]. *)
Lemma blank_message_answer_counterexample :
  let blank := Some (JObj [("message", JStr "   ")]) in
  let w := world_with [luigi] [] false ConnectionFailed in
  @blank_message ascii_text blank = true /\
  fst (@Clean._handle_chat ascii_text Clean.MENU_DATA rule_based blank quiet_process)
    = Ok (Clean.Sent500 apology) /\
  fst (@Clean._handle_chat ascii_text Clean.MENU_DATA rule_based None quiet_process)
    = Ok (Clean.Sent500 apology) /\
  str_in "message" apology = false /\
  @handle_chat ascii_text (new_ai None None)
    (chat_request "localhost:8080" [] [("message", JStr "   ")]) w
    = (Ok (Failed "Restaurant not specified"), w).
Proof. vm_compute. repeat split. Qed.

(** ** A backend that fails *)

Lemma call_ai_api_result ai prompt m w :
  fst (_call_ai_api ai prompt m w) =
  reply_content (backend w (fst (endpoint ai)) (snd (endpoint ai)) prompt m).
Proof.
  unfold _call_ai_api, endpoint.
  destruct (match ai_service ai with
            | Some groq => _
            | _ => _
            end) as [url model].
  unfold bind, http_post. cbn.
  destruct (backend w url model prompt m) as [|status body]; cbn; [reflexivity|].
  destruct (status =? 200); [|reflexivity].
  destruct body as [result|]; cbn; [|reflexivity].
  unfold lift.
  destruct (getitem_key result "choices") as [c|]; cbn; [|reflexivity].
  destruct (getitem_0 c) as [f|]; cbn; [|reflexivity].
  destruct (getitem_key f "message") as [msg|]; cbn; [|reflexivity].
  now destruct (getitem_key msg "content").
Qed.

(** In [app_async.py] a failed backend call ends the chat turn with an error:
    the exception reaches the [except] of [generate_response], the fallback
    text is not produced and no conversation is logged. *)
Lemma async_backend_failure_ends_in_error `{PyText} ai rid m sid w r w1 menu w2 :
  ai_service ai <> None ->
  fetch_restaurant rid w = (Ok (Some r), w1) ->
  fetch_menu rid r w1 = (Ok menu, w2) ->
  backend_failed (backend w2 (fst (endpoint ai)) (snd (endpoint ai))
                    (build_system_prompt r menu) m) = true ->
  exists w',
    generate_response ai rid m sid w = (Ok (Failed "Failed to generate response"), w') /\
    conversations w' = conversations w.
Proof.
  intros Hai Hf Hm Hfail.
  pose proof (fetch_restaurant_frame w rid) as Hfr. rewrite Hf in Hfr.
  pose proof (fetch_menu_frame w1 rid r) as Hmr. rewrite Hm in Hmr.
  destruct Hfr as (_ & Hc1 & _). destruct Hmr as (_ & Hc2 & _).
  unfold generate_response, try_except, bind. rewrite Hf. cbv beta iota. rewrite Hm.
  cbv beta iota.
  destruct (ai_service ai) as [svc|] eqn:Hsvc; [|contradiction].
  pose proof (call_ai_api_result ai (build_system_prompt r menu) m w2) as Hres.
  pose proof (call_ai_api_extends ai (build_system_prompt r menu) m w2) as Hext.
  destruct (_call_ai_api ai (build_system_prompt r menu) m w2) as [res3 w3].
  destruct Hext as [_ Hc3]. simpl in Hres. unfold backend_failed in Hfail.
  rewrite <- Hres in Hfail.
  destruct res3 as [[| | |s| |]|e]; try discriminate; cbn;
    (eexists; split; [reflexivity|]; cbn; congruence).
Qed.

(** In [app_clean.py] the same failure is caught where the call is made, and
    the rule engine answers in its place. *)
Lemma clean_backend_failure_falls_back `{PyText} menu assistant user_message e cw cw1 :
  Clean._call_openai_api assistant
    ({| Clean.role := "system"; Clean.content := Clean.system_prompt assistant |}
       :: Clean.last6 (Clean.conversation_history cw)) cw = (Raise e, cw1) ->
  Clean._generate_ai_response menu assistant user_message cw =
  Clean._generate_fallback_response menu user_message
    (Clean.emit (Clean.LogError "AI API error") cw1).
Proof.
  intros Hcall. unfold Clean._generate_ai_response, try_except, bind, gets.
  cbv beta iota. rewrite Hcall. reflexivity.
Qed.

(** The same HTTP 500 in [app_clean.py]: the client gets the rule engine's
    greeting with status 200; the fallback text is not appended to the
    history, which holds the user's message only. *)
Lemma clean_backend_500_falls_back :
  let assistant := Clean.new_assistant (Some "sk-test") None "" in
  let cw := Clean.fresh_world (fun _ => 0%nat) (fun _ _ _ => Reply 500 None) in
  let run := @Clean._handle_chat ascii_text Clean.MENU_DATA assistant
               (Some (JObj [("message", JStr "hello")])) cw in
  Clean.use_ai_model assistant = true /\
  fst run = Ok (Clean.Sent200 (nth 0 Clean.first_greetings "") (firstn 3 Clean.MENU_DATA)) /\
  Clean.conversation_history (snd run) = [{| Clean.role := "user"; Clean.content := "hello" |}].
Proof. vm_compute. repeat split. Qed.

(** C1, on the code. With a backend configured that answers HTTP 500,
    [generate_response] of [app_async.py] posts to the backend and then
    returns [Failed to generate response]; the caller gets no fallback text
    and the table of conversations stays empty. The claim asks for the rule
    engine's text and a logged conversation there. *)
Theorem async_backend_500_returns_error :
  let ai := new_ai None (Some "sk-test") in
  let w := world_with [pepe] [pepe_taco] false (Reply 500 None) in
  let run := @generate_response ascii_text ai "pepe" "hello" (JStr "session-1") w in
  ai_service ai = Some openai /\
  fst run = Ok (Failed "Failed to generate response") /\
  conversations (snd run) = [] /\
  In (BackendPost "https://api.openai.com/v1/chat/completions" "gpt-3.5-turbo"
        (build_system_prompt (dict_of_row false pepe) [sample_item 1 "Taco"]) "hello")
     (trace (snd run)).
Proof. vm_compute. repeat split. right. right. left. reflexivity. Qed.

(** ** The rule engine *)

Lemma remove_nth_length {A : Type} (i : nat) (l : list A) :
  (i < length l)%nat -> length (Clean.remove_nth i l) = (length l - 1)%nat.
Proof.
  revert i. induction l as [|x l IH]; intros i Hi; simpl in *; [lia|].
  destruct i as [|i]; simpl; [lia|].
  rewrite IH by lia. lia.
Qed.

Lemma sample_loop_total {A : Type} (k : nat) (pool : list A) (cw : Clean.World) :
  exists l cw', Clean.sample_loop k pool cw = (Ok l, cw') /\
                length l = Nat.min k (length pool) /\
                Clean.greeting_used cw' = Clean.greeting_used cw /\
                Clean.conversation_history cw' = Clean.conversation_history cw /\
                Clean.trace cw' = Clean.trace cw.
Proof.
  revert pool cw. induction k as [|k IH]; intros pool cw; simpl.
  - eexists _, _. split; [reflexivity|]. auto.
  - destruct pool as [|x pool].
    + eexists _, _. split; [reflexivity|]. auto.
    + unfold bind, Clean.randbelow. cbv beta iota.
      set (i := (Clean.random_source cw (Clean.random_used cw) mod length (x :: pool))%nat).
      assert (Hi : (i < length (x :: pool))%nat)
        by (apply Nat.mod_upper_bound; simpl; lia).
      destruct (IH (Clean.remove_nth i (x :: pool)) (Clean.tick_random cw))
        as (l & cw' & -> & Hlen & Hg & Hh & Ht).
      eexists _, _. split; [reflexivity|]. simpl.
      rewrite Hlen, remove_nth_length by exact Hi. simpl. repeat split; auto. lia.
Qed.

Section RuleEngineProofs.

Context `{PyText}.
Variable menu : list MenuItem.

Lemma get_random_items_total (count : nat) (cw : Clean.World) :
  exists l cw', Clean._get_random_items menu count cw = (Ok l, cw') /\
                length l = Nat.min count (length menu) /\
                Clean.greeting_used cw' = Clean.greeting_used cw /\
                Clean.conversation_history cw' = Clean.conversation_history cw /\
                Clean.trace cw' = Clean.trace cw.
Proof.
  unfold Clean._get_random_items, Clean.random_sample.
  destruct (Nat.ltb_spec (length menu) (Nat.min count (length menu))); [lia|].
  destruct (sample_loop_total (Nat.min count (length menu)) menu cw)
    as (l & cw' & Hrun & Hlen & Hrest).
  exists l, cw'. split; [exact Hrun|]. split; [lia | exact Hrest].
Qed.

Lemma nonempty_length {A : Type} (l : list A) : (0 < length l)%nat -> l <> [].
Proof. destruct l; simpl; [lia | discriminate]. Qed.

Lemma length_nonempty {A : Type} (l : list A) : l <> [] -> (0 < length l)%nat.
Proof. destruct l; simpl; [congruence | lia]. Qed.

Lemma random_choice_total {A : Type} (seq : list A) (cw : Clean.World) :
  seq <> [] ->
  exists x, Clean.random_choice seq cw = (Ok x, Clean.tick_random cw) /\ In x seq.
Proof.
  intros Hne. destruct seq as [|d seq]; [congruence|].
  unfold Clean.random_choice, bind, Clean.randbelow, ret. cbv beta iota.
  eexists. split; [reflexivity|].
  apply nth_In. apply Nat.mod_upper_bound. simpl. lia.
Qed.

(** The greeting handler: the first list while the flag is down, the second
    once it is up; the flag is up afterwards. *)
Lemma handle_greeting_run (cw : Clean.World) :
  exists text cw',
    Clean._handle_greeting menu cw =
      (Ok {| Clean.message := text; Clean.recommendations := firstn 3 menu |}, cw') /\
    In text (if Clean.greeting_used cw then Clean.repeat_greetings else Clean.first_greetings) /\
    Clean.greeting_used cw' = true /\
    Clean.conversation_history cw' = Clean.conversation_history cw /\
    Clean.trace cw' = Clean.trace cw.
Proof.
  unfold Clean._handle_greeting, bind, gets. cbv beta iota.
  destruct (Clean.greeting_used cw) eqn:Hused; cbn [negb]; cbv beta iota.
  - destruct (random_choice_total Clean.repeat_greetings cw) as (x & Hx & Hin);
      [discriminate|].
    unfold ret at 1. cbv beta iota. rewrite Hx. cbv beta iota.
    eexists _, _. split; [reflexivity|]. cbn. auto.
  - unfold modify, ret. cbv beta iota.
    destruct (random_choice_total Clean.first_greetings (Clean.set_greeting_used true cw))
      as (x & Hx & Hin); [discriminate|].
    rewrite Hx. cbv beta iota.
    eexists _, _. split; [reflexivity|]. cbn. auto.
Qed.

Lemma handle_menu_query_total (m : string) (cw : Clean.World) :
  menu <> [] ->
  exists answer cw', Clean._handle_menu_query menu m cw = (Ok answer, cw') /\
                     Clean.recommendations answer <> [].
Proof.
  intros Hne. unfold Clean._handle_menu_query.
  destruct (get_random_items_total 3) with (cw := cw) as (l & cw' & Hrun & Hlen & _).
  assert (Hl : l <> []).
  { apply nonempty_length. apply length_nonempty in Hne. lia. }
  unfold bind.
  destruct (str_in "categories" m || str_in "types" m).
  - unfold ret at 1. cbv beta iota. rewrite Hrun. eexists _, _. split; [reflexivity | exact Hl].
  - destruct (str_in "price" m || str_in "cost" m).
    + destruct menu as [|x rest]; [congruence|].
      unfold lift, Clean.list_min, Clean.list_max. cbn [map]. cbv beta iota.
      unfold ret at 1. cbv beta iota. rewrite Hrun.
      eexists _, _. split; [reflexivity | exact Hl].
    + unfold ret at 1. cbv beta iota. rewrite Hrun.
      eexists _, _. split; [reflexivity | exact Hl].
Qed.

Lemma handle_dietary_query_total (m : string) (cw : Clean.World) :
  exists answer cw', Clean._handle_dietary_query menu m cw = (Ok answer, cw').
Proof.
  unfold Clean._handle_dietary_query, bind.
  destruct (str_in "vegetarian" m); [unfold ret; eauto|].
  destruct (str_in "vegan" m); [unfold ret; eauto|].
  destruct (str_in "gluten" m); [unfold ret; eauto|].
  destruct (get_random_items_total 2) with (cw := cw) as (l & cw' & Hrun & _).
  rewrite Hrun. unfold ret. eauto.
Qed.

Lemma handle_specific_item_query_total (m : string) (cw : Clean.World) :
  menu <> [] ->
  exists answer cw', Clean._handle_specific_item_query menu m cw = (Ok answer, cw') /\
                     Clean.recommendations answer <> [].
Proof.
  intros Hne. unfold Clean._handle_specific_item_query.
  destruct (find _ menu) as [item|].
  - unfold ret. eexists _, _. split; [reflexivity | discriminate].
  - destruct (get_random_items_total 2) with (cw := cw) as (l & cw' & Hrun & Hlen & _).
    unfold bind. rewrite Hrun. unfold ret. eexists _, _. split; [reflexivity|].
    apply nonempty_length. apply length_nonempty in Hne. simpl. lia.
Qed.

Lemma handle_general_conversation_total (m : string) (cw : Clean.World) :
  menu <> [] ->
  exists answer cw', Clean._handle_general_conversation menu m cw = (Ok answer, cw') /\
                     Clean.recommendations answer <> [].
Proof.
  intros Hne. unfold Clean._handle_general_conversation.
  match goal with |- context [Clean.random_choice ?l] => set (responses := l) end.
  assert (Hresp : responses <> []).
  { subst responses.
    destruct (any_in _ m); [discriminate|].
    destruct (any_in _ m); [discriminate|].
    destruct (any_in _ m); discriminate. }
  destruct (random_choice_total responses cw Hresp) as (x & Hx & _).
  unfold bind. rewrite Hx. cbv beta iota.
  destruct (get_random_items_total 2) with (cw := Clean.tick_random cw)
    as (l & cw' & Hrun & Hlen & _).
  rewrite Hrun. unfold ret. eexists _, _. split; [reflexivity|].
  apply nonempty_length. apply length_nonempty in Hne. simpl. lia.
Qed.

End RuleEngineProofs.

Lemma firstn_2_nil {A : Type} (l : list A) : firstn 2 l = [] <-> l = [].
Proof. destruct l as [|x [|y l]]; split; intros Hl; try reflexivity; discriminate. Qed.

Lemma filter_nil_iff {A : Type} (f : A -> bool) (l : list A) :
  List.filter f l = [] <-> forall x, In x l -> f x = false.
Proof.
  split.
  - intros Hnil x Hin. destruct (f x) eqn:Hf; [|reflexivity].
    assert (Hin' : In x (List.filter f l)) by (apply filter_In; auto).
    rewrite Hnil in Hin'. contradiction.
  - intros Hnone. destruct (List.filter f l) as [|x l'] eqn:Hfl; [reflexivity|].
    assert (Hin : In x (List.filter f l)) by (rewrite Hfl; now left).
    apply filter_In in Hin as [Hin Hx]. rewrite (Hnone x Hin) in Hx. discriminate.
Qed.

Lemma insert_by_nonempty key x l : Clean.insert_by key x l <> [].
Proof. destruct l as [|y l]; simpl; [discriminate|]. destruct (_ <=? _); discriminate. Qed.

Lemma sorted_by_nonempty key l : l <> [] -> Clean.sorted_by key l <> [].
Proof.
  destruct l as [|x l]; [congruence|]. intros _. unfold Clean.sorted_by. simpl.
  apply insert_by_nonempty.
Qed.

Section RuleEngineFilters.

Context `{PyText}.
Variable menu : list MenuItem.

(** The dietary handler: the dishes with the flag the message names, or two
    dishes drawn from the menu when it names none. *)
Lemma handle_dietary_query_run (m : string) (cw : Clean.World) :
  exists answer cw',
    Clean._handle_dietary_query menu m cw = (Ok answer, cw') /\
    match dietary_flag m with
    | Some flag => Clean.recommendations answer = firstn 2 (List.filter flag menu)
    | None => length (Clean.recommendations answer) = Nat.min 2 (length menu)
    end.
Proof.
  unfold Clean._handle_dietary_query, dietary_flag, bind.
  destruct (str_in "vegetarian" m); [unfold ret; eexists _, _; split; reflexivity|].
  destruct (str_in "vegan" m); [unfold ret; eexists _, _; split; reflexivity|].
  destruct (str_in "gluten" m); [unfold ret; eexists _, _; split; reflexivity|].
  destruct (get_random_items_total menu 2 cw) as (l & cw' & Hrun & Hlen & _).
  rewrite Hrun. unfold ret. eexists _, _. split; [reflexivity | exact Hlen].
Qed.

(** The recommendation handler: the dishes that pass the filter the message
    asks for, or the popular ones. *)
Lemma handle_recommendation_request_recs (m : string) :
  Clean.recommendations (Clean._handle_recommendation_request menu m) =
  match recommendation_filter m with
  | Some flt => firstn 2 (List.filter flt menu)
  | None => firstn 2 (Clean._get_popular_items menu)
  end.
Proof.
  unfold Clean._handle_recommendation_request, recommendation_filter.
  repeat (destruct (any_in _ m); [reflexivity|]). reflexivity.
Qed.

Lemma popular_items_nonempty : menu <> [] -> firstn 2 (Clean._get_popular_items menu) <> [].
Proof.
  intros Hne Hnil. apply firstn_2_nil in Hnil. unfold Clean._get_popular_items in Hnil.
  pose proof (sorted_by_nonempty Clean.popularity menu Hne) as Hs.
  destruct (Clean.sorted_by Clean.popularity menu) as [|x [|y [|z l]]]; [congruence|..];
    discriminate.
Qed.

(** What the rule engine recommends, by the filter the message asks for. *)
Lemma fallback_recommendations (user_message : string) (cw : Clean.World) :
  menu <> [] ->
  exists answer cw',
    Clean._generate_fallback_response menu user_message cw = (Ok answer, cw') /\
    match asked_filter (strip (lower user_message)) with
    | Some flt => Clean.recommendations answer = firstn 2 (List.filter flt menu)
    | None => Clean.recommendations answer <> []
    end.
Proof.
  intros Hne. unfold Clean._generate_fallback_response, asked_filter.
  set (m := strip (lower user_message)).
  assert (Hlen : forall l : list MenuItem,
            length l = Nat.min 2 (length menu) -> l <> []).
  { intros l Hl. apply nonempty_length. apply length_nonempty in Hne. lia. }
  destruct (Clean._is_greeting m).
  { destruct (handle_greeting_run menu cw) as (text & cw' & Hrun & _).
    rewrite Hrun. eexists _, _. split; [reflexivity|]. simpl.
    destruct menu; [congruence | discriminate]. }
  destruct (Clean._is_menu_query m).
  { destruct (handle_menu_query_total menu m cw Hne) as (a & cw' & Hrun & Ha). eauto. }
  destruct (Clean._is_dietary_query m).
  { destruct (handle_dietary_query_run m cw) as (a & cw' & Hrun & Ha).
    exists a, cw'. split; [exact Hrun|].
    destruct (dietary_flag m); [exact Ha | now apply Hlen]. }
  destruct (Clean._is_recommendation_request m).
  { unfold ret. eexists _, _. split; [reflexivity|].
    rewrite handle_recommendation_request_recs.
    destruct (recommendation_filter m); [reflexivity | now apply popular_items_nonempty]. }
  destruct (Clean._is_specific_item_query menu m).
  { destruct (handle_specific_item_query_total menu m cw Hne) as (a & cw' & Hrun & Ha). eauto. }
  destruct (handle_general_conversation_total menu m cw Hne) as (a & cw' & Hrun & Ha). eauto.
Qed.

End RuleEngineFilters.

Section ShippedMenu.

Context `{PyText}.

Lemma shipped_dietary_query (m : string) (cw : Clean.World) :
  exists answer cw', Clean._handle_dietary_query Clean.MENU_DATA m cw = (Ok answer, cw') /\
                     Clean.recommendations answer <> [].
Proof.
  unfold Clean._handle_dietary_query, bind.
  destruct (str_in "vegetarian" m);
    [unfold ret; eexists _, _; split; [reflexivity | cbv; discriminate]|].
  destruct (str_in "vegan" m);
    [unfold ret; eexists _, _; split; [reflexivity | cbv; discriminate]|].
  destruct (str_in "gluten" m);
    [unfold ret; eexists _, _; split; [reflexivity | cbv; discriminate]|].
  destruct (get_random_items_total Clean.MENU_DATA 2 cw) as (l & cw' & Hrun & Hlen & _).
  rewrite Hrun. unfold ret. cbv beta iota.
  destruct l as [|x l]; [discriminate Hlen|].
  eexists _, _. split; [reflexivity | discriminate].
Qed.

Lemma shipped_recommendation_request (m : string) :
  Clean.recommendations (Clean._handle_recommendation_request Clean.MENU_DATA m) <> [].
Proof.
  unfold Clean._handle_recommendation_request.
  destruct (any_in _ m); [cbv; discriminate|].
  destruct (any_in _ m); [cbv; discriminate|].
  destruct (any_in _ m); [cbv; discriminate|].
  destruct (any_in _ m); [cbv; discriminate|].
  destruct (any_in _ m); cbv; discriminate.
Qed.

(** C4, as the code has it. On a menu that is not empty the rule engine
    raises nothing and returns a message with a list of recommendations. When
    the message asks for a filter (the flag of a dietary query, the filter of
    a recommendation request) the list is the first two dishes of the menu
    that pass it, so it is empty exactly when the message asks for a filter
    that no dish of the menu passes; in every other case it is not empty. A
    message that matches no category is answered by the general-conversation
    handler. On the menu the module ships, the list is never empty. *)
Theorem rule_engine_answers (menu : list MenuItem) (user_message : string) (cw : Clean.World) :
  menu <> [] ->
  (exists answer cw',
     Clean._generate_fallback_response menu user_message cw = (Ok answer, cw') /\
     (forall flt, asked_filter (strip (lower user_message)) = Some flt ->
        Clean.recommendations answer = firstn 2 (List.filter flt menu)) /\
     (Clean.recommendations answer = [] <->
      exists flt, asked_filter (strip (lower user_message)) = Some flt /\
                  none_passes flt menu) /\
     (Clean.recommendations answer <> [] \/
      Clean._is_dietary_query (strip (lower user_message)) = true \/
      Clean._is_recommendation_request (strip (lower user_message)) = true)) /\
  (some_category menu (strip (lower user_message)) = true \/
   Clean._generate_fallback_response menu user_message cw =
   Clean._handle_general_conversation menu (strip (lower user_message)) cw) /\
  (exists answer cw',
     Clean._generate_fallback_response Clean.MENU_DATA user_message cw = (Ok answer, cw') /\
     Clean.recommendations answer <> []).
Proof.
  intros Hne. split; [|split].
  - destruct (fallback_recommendations menu user_message cw Hne) as (a & cw' & Hrun & Hrecs).
    exists a, cw'. split; [exact Hrun|].
    assert (Hkey : forall flt, asked_filter (strip (lower user_message)) = Some flt ->
              Clean._is_dietary_query (strip (lower user_message)) = true \/
              Clean._is_recommendation_request (strip (lower user_message)) = true).
    { unfold asked_filter. intros flt.
      destruct (Clean._is_greeting _); [discriminate|].
      destruct (Clean._is_menu_query _); [discriminate|].
      destruct (Clean._is_dietary_query _); [now left|].
      destruct (Clean._is_recommendation_request _); [now right | discriminate]. }
    destruct (asked_filter (strip (lower user_message))) as [flt|].
    + split; [now intros ? [= <-]|]. split.
      * rewrite Hrecs, firstn_2_nil, filter_nil_iff. split.
        -- intros Hnone. now exists flt.
        -- now intros (? & [= <-] & Hnone).
      * right. now apply (Hkey flt).
    + split; [discriminate|]. split; [|now left].
      split; [contradiction | now intros (? & ? & _)].
  - unfold some_category, Clean._generate_fallback_response.
    destruct (Clean._is_greeting _); [now left|].
    destruct (Clean._is_menu_query _); [now left|].
    destruct (Clean._is_dietary_query _); [now left|].
    destruct (Clean._is_recommendation_request _); [now left|].
    destruct (Clean._is_specific_item_query _ _); [now left|].
    now right.
  - assert (Hshipped : Clean.MENU_DATA <> []) by discriminate.
    unfold Clean._generate_fallback_response.
    destruct (Clean._is_greeting _).
    { destruct (handle_greeting_run Clean.MENU_DATA cw) as (text & cw' & Hrun & _).
      rewrite Hrun. eexists _, _. split; [reflexivity | discriminate]. }
    destruct (Clean._is_menu_query _).
    { apply handle_menu_query_total, Hshipped. }
    destruct (Clean._is_dietary_query _).
    { apply shipped_dietary_query. }
    destruct (Clean._is_recommendation_request _).
    { unfold ret. eexists _, _. split; [reflexivity | apply shipped_recommendation_request]. }
    destruct (Clean._is_specific_item_query _ _).
    { apply handle_specific_item_query_total, Hshipped. }
    apply handle_general_conversation_total, Hshipped.
Qed.

End ShippedMenu.

Lemma rule_engine_answers_witness :
  exists answer cw',
    @Clean._generate_fallback_response ascii_text steak_only "Anyone for a vegan dish?"
      (Clean.fresh_world (fun _ => 0%nat) (fun _ _ _ => ConnectionFailed)) = (Ok answer, cw') /\
    (forall flt, asked_filter "anyone for a vegan dish?" = Some flt ->
       Clean.recommendations answer = firstn 2 (List.filter flt steak_only)) /\
    (Clean.recommendations answer = [] <->
     exists flt, asked_filter "anyone for a vegan dish?" = Some flt /\
                 none_passes flt steak_only).
Proof.
  destruct (@rule_engine_answers ascii_text steak_only "Anyone for a vegan dish?"
              (Clean.fresh_world (fun _ => 0%nat) (fun _ _ _ => ConnectionFailed))
              ltac:(discriminate)) as ((a & cw' & Hrun & Hrecs & Hnil & _) & _ & _).
  exists a, cw'. split; [exact Hrun|]. split; [exact Hrecs | exact Hnil].
Defined.

(** The claim as it stands fails twice. On a menu without a vegan dish the
    menu is not empty, the message is not empty, and the list is. On the
    empty menu, which the claim includes, a question about prices raises:
    [min] of no price. *)
Lemma dietary_empty_list_counterexample :
  let cw := Clean.fresh_world (fun _ => 0%nat) (fun _ _ _ => ConnectionFailed) in
  (steak_only <> [] /\
   fst (@Clean._generate_fallback_response ascii_text steak_only "Vegan options?" cw)
   = Ok {| Clean.message := "We offer 0 tasty vegan dishes! "; Clean.recommendations := [] |}) /\
  fst (@Clean._generate_fallback_response ascii_text no_menu "What do the dishes cost?" cw)
  = Raise (ValueError "min() arg is an empty sequence").
Proof. split; [split; [discriminate | vm_compute; reflexivity] | vm_compute; reflexivity]. Qed.

(** ** The greeting flag *)

(** *** The flag is never taken down *)

Lemma flag_stays_here {A : Type} (c : M Clean.World A) :
  (forall cw, Clean.greeting_used (snd (c cw)) = Clean.greeting_used cw) -> flag_stays c.
Proof. intros Hc cw Hcw. now rewrite Hc. Qed.

Lemma flag_stays_ret {A : Type} (a : A) : flag_stays (ret a).
Proof. now apply flag_stays_here. Qed.

Lemma flag_stays_raise {A : Type} (e : Exn) : flag_stays (@raise Clean.World A e).
Proof. now apply flag_stays_here. Qed.

Lemma flag_stays_lift {A : Type} (r : Result A) : flag_stays (lift r).
Proof. now apply flag_stays_here. Qed.

Lemma flag_stays_gets {A : Type} (f : Clean.World -> A) : flag_stays (gets f).
Proof. now apply flag_stays_here. Qed.

Lemma flag_stays_randbelow (n : nat) : flag_stays (Clean.randbelow n).
Proof. now apply flag_stays_here. Qed.

Lemma flag_stays_log_error (msg : string) : flag_stays (Clean.log_error msg).
Proof. now apply flag_stays_here. Qed.

Lemma flag_stays_append_history (m : Clean.ChatMessage) :
  flag_stays (modify (Clean.append_history m)).
Proof. now apply flag_stays_here. Qed.

Lemma flag_stays_post url model messages :
  flag_stays (fun w => (Ok (Clean.backend w url model messages),
                        Clean.emit (Clean.BackendPost url model messages) w)).
Proof. now apply flag_stays_here. Qed.

(** The one write of the flag in the program puts it up. *)
Lemma flag_stays_set_greeting_used : flag_stays (modify (Clean.set_greeting_used true)).
Proof. intros cw _. reflexivity. Qed.

Lemma flag_stays_bind {A B : Type} (c : M Clean.World A) (k : A -> M Clean.World B) :
  flag_stays c -> (forall a, flag_stays (k a)) -> flag_stays (bind c k).
Proof.
  intros Hc Hk cw Hcw. unfold bind. specialize (Hc cw Hcw).
  destruct (c cw) as [[a|e] cw1]; [|exact Hc]. now apply Hk.
Qed.

Lemma flag_stays_try_except {A : Type} (c : M Clean.World A)
    (handler : Exn -> M Clean.World A) :
  flag_stays c -> (forall e, flag_stays (handler e)) -> flag_stays (try_except c handler).
Proof.
  intros Hc Hk cw Hcw. unfold try_except. specialize (Hc cw Hcw).
  destruct (c cw) as [[a|e] cw1]; [exact Hc|]. now apply Hk.
Qed.

Lemma flag_stays_random_choice {A : Type} (seq : list A) : flag_stays (Clean.random_choice seq).
Proof.
  destruct seq as [|x seq]; [apply flag_stays_raise|].
  apply flag_stays_bind; [apply flag_stays_randbelow | intros i; apply flag_stays_ret].
Qed.

Lemma flag_stays_sample_loop {A : Type} (k : nat) (pool : list A) :
  flag_stays (Clean.sample_loop k pool).
Proof.
  revert pool. induction k as [|k IH]; intros pool; simpl; [apply flag_stays_ret|].
  destruct pool as [|x pool]; [apply flag_stays_ret|].
  apply flag_stays_bind; [apply flag_stays_randbelow | intros i].
  apply flag_stays_bind; [apply IH | intros rest; apply flag_stays_ret].
Qed.

Lemma flag_stays_get_random_items (menu : list MenuItem) (count : nat) :
  flag_stays (Clean._get_random_items menu count).
Proof.
  unfold Clean._get_random_items, Clean.random_sample.
  destruct (_ <? _)%nat; [apply flag_stays_raise | apply flag_stays_sample_loop].
Qed.

(** Goals [flag_stays c] for a computation built from the pieces above. *)
Ltac flag_tac :=
  repeat first
    [ apply flag_stays_ret | apply flag_stays_raise | apply flag_stays_lift
    | apply flag_stays_gets | apply flag_stays_randbelow | apply flag_stays_log_error
    | apply flag_stays_append_history | apply flag_stays_set_greeting_used
    | apply flag_stays_post
    | apply flag_stays_random_choice | apply flag_stays_get_random_items
    | apply flag_stays_bind; [|intros ?]
    | apply flag_stays_try_except; [|intros ?]
    | match goal with
      | |- flag_stays (if ?b then _ else _) => destruct b
      | |- flag_stays (match ?x with _ => _ end) => destruct x
      | |- flag_stays (let '(_, _) := ?x in _) => destruct x
      end ].

Section Greeting.

Context `{PyText}.
Variable menu : list MenuItem.

(** The chat handler reads the message of the body and nothing else: the
    session id in particular is not looked at. *)
Lemma clean_handle_chat_reads_message_only (assistant : Clean.IntelligentAI)
    (b b' : option json) (cw : Clean.World) :
  message_field b = message_field b' ->
  Clean._handle_chat menu assistant b cw = Clean._handle_chat menu assistant b' cw.
Proof.
  unfold message_field, Clean._handle_chat, try_except, bind, lift.
  destruct b as [[| | | | |fields]|], b' as [[| | | | |fields']|];
    try discriminate; try reflexivity.
  cbn [dict_get]. intros [= ->]. reflexivity.
Qed.

(** A greeting sent to the rule-based assistant: the history grows by the
    message and the greeting handler answers. *)
Lemma clean_handle_chat_greeting (assistant : Clean.IntelligentAI) (b : option json)
    (m : string) (cw : Clean.World) :
  Clean.use_ai_model assistant = false ->
  message_field b = Some (JStr m) ->
  strip m <> "" ->
  Clean._is_greeting (strip (lower (strip m))) = true ->
  exists text cw',
    Clean._handle_chat menu assistant b cw = (Ok (Clean.Sent200 text (firstn 3 menu)), cw') /\
    In text (if Clean.greeting_used cw then Clean.repeat_greetings else Clean.first_greetings) /\
    Clean.greeting_used cw' = true.
Proof.
  intros Hrule Hmsg Hne Hgreet.
  unfold message_field in Hmsg.
  destruct b as [[| | | | |fields]|]; try discriminate. injection Hmsg as Hmsg.
  unfold Clean._handle_chat, try_except, bind, lift. cbn [dict_get]. rewrite Hmsg.
  cbv beta iota. destruct (String.eqb_spec (strip m) ""); [contradiction|].
  unfold ret at 1. cbv beta iota.
  unfold Clean.generate_response, bind, modify. cbv beta iota. rewrite Hrule.
  unfold Clean._generate_fallback_response. rewrite Hgreet.
  destruct (handle_greeting_run menu
              (Clean.append_history {| Clean.role := "user"; Clean.content := strip m |} cw))
    as (text & cw' & Hrun & Hin & Hused & _).
  rewrite Hrun. unfold ret. exists text, cw'. split; [reflexivity|]. split; [exact Hin | exact Hused].
Qed.

Lemma flag_stays_fallback (user_message : string) :
  flag_stays (Clean._generate_fallback_response menu user_message).
Proof.
  unfold Clean._generate_fallback_response.
  destruct (Clean._is_greeting _); [unfold Clean._handle_greeting; flag_tac|].
  destruct (Clean._is_menu_query _); [unfold Clean._handle_menu_query; flag_tac|].
  destruct (Clean._is_dietary_query _); [unfold Clean._handle_dietary_query; flag_tac|].
  destruct (Clean._is_recommendation_request _); [flag_tac|].
  destruct (Clean._is_specific_item_query _ _);
    [unfold Clean._handle_specific_item_query; flag_tac|].
  unfold Clean._handle_general_conversation; flag_tac.
Qed.

Lemma flag_stays_call_openai_api assistant messages :
  flag_stays (Clean._call_openai_api assistant messages).
Proof.
  unfold Clean._call_openai_api.
  destruct (Clean.ai_service assistant) as [[|]|]; flag_tac.
Qed.

(** No chat request takes the flag down, whatever its body and whichever
    assistant answers: the rule engine, or the backend with the rule engine
    behind it. *)
Lemma flag_stays_handle_chat assistant (b : option json) :
  flag_stays (Clean._handle_chat menu assistant b).
Proof.
  unfold Clean._handle_chat.
  apply flag_stays_try_except; [|intros e; flag_tac].
  apply flag_stays_bind; [apply flag_stays_lift | intros data].
  apply flag_stays_bind; [apply flag_stays_lift | intros msg].
  apply flag_stays_bind; [apply flag_stays_lift | intros m].
  apply flag_stays_bind; [flag_tac | intros _].
  apply flag_stays_bind; [|intros a; apply flag_stays_ret].
  unfold Clean.generate_response.
  apply flag_stays_bind; [apply flag_stays_append_history | intros _].
  destruct (Clean.use_ai_model assistant); [|apply flag_stays_fallback].
  unfold Clean._generate_ai_response.
  apply flag_stays_try_except.
  - apply flag_stays_bind; [apply flag_stays_gets | intros history].
    apply flag_stays_bind; [apply flag_stays_call_openai_api | intros reply].
    flag_tac.
  - intros e. apply flag_stays_bind; [apply flag_stays_log_error | intros _].
    apply flag_stays_fallback.
Qed.

Lemma serve_all_keeps_flag assistant (bodies : list (option json)) (cw : Clean.World) :
  Clean.greeting_used cw = true ->
  Clean.greeting_used (serve_all menu assistant bodies cw) = true.
Proof.
  revert cw. induction bodies as [|b bodies IH]; intros cw Hcw; [exact Hcw|].
  cbn [serve_all]. apply IH. now apply flag_stays_handle_chat.
Qed.

(** C6, as the code has it. The flag [greeting_used] belongs to the one
    assistant that all requests share, and nothing takes it down. With the
    rule-based assistant, a greeting gets the first-turn texts only while no
    greeting was handled by the process; once one was handled, whoever sent
    it, every later greeting gets the repeat texts, whatever requests were
    handled in between, and the handler does not read the session id. *)
Theorem greeting_flag_is_process_wide (assistant : Clean.IntelligentAI)
    (b1 b2 : option json) (between : list (option json)) (m1 m2 : string)
    (cw : Clean.World) :
  Clean.use_ai_model assistant = false ->
  message_field b1 = Some (JStr m1) ->
  message_field b2 = Some (JStr m2) ->
  strip m1 <> "" ->
  strip m2 <> "" ->
  Clean._is_greeting (strip (lower (strip m1))) = true ->
  Clean._is_greeting (strip (lower (strip m2))) = true ->
  let '(r1, cw1) := Clean._handle_chat menu assistant b1 cw in
  let later := serve_all menu assistant between cw1 in
  let '(r2, cw2) := Clean._handle_chat menu assistant b2 later in
  (exists text, r1 = Ok (Clean.Sent200 text (firstn 3 menu)) /\
                In text (if Clean.greeting_used cw then Clean.repeat_greetings
                         else Clean.first_greetings)) /\
  Clean.greeting_used cw1 = true /\
  Clean.greeting_used later = true /\
  (exists text, r2 = Ok (Clean.Sent200 text (firstn 3 menu)) /\
                In text Clean.repeat_greetings) /\
  (forall b, message_field b = message_field b2 ->
             Clean._handle_chat menu assistant b later = (r2, cw2)).
Proof.
  intros Hrule Hb1 Hb2 Hn1 Hn2 Hg1 Hg2.
  destruct (clean_handle_chat_greeting assistant b1 m1 cw Hrule Hb1 Hn1 Hg1)
    as (t1 & cw1 & Hrun1 & Hin1 & Hused1).
  rewrite Hrun1. cbv zeta.
  pose proof (serve_all_keeps_flag assistant between cw1 Hused1) as Hlater.
  destruct (clean_handle_chat_greeting assistant b2 m2
              (serve_all menu assistant between cw1) Hrule Hb2 Hn2 Hg2)
    as (t2 & cw2 & Hrun2 & Hin2 & Hused2).
  rewrite Hrun2. rewrite Hlater in Hin2.
  split; [eauto|]. split; [exact Hused1|]. split; [exact Hlater|]. split; [eauto|].
  intros b Hb. rewrite <- Hrun2. now apply clean_handle_chat_reads_message_only.
Qed.

End Greeting.

Lemma greeting_flag_is_process_wide_witness :
  let '(r1, cw1) := @Clean._handle_chat ascii_text Clean.MENU_DATA rule_based
                      (hello_from "alice") quiet_process in
  let later := @serve_all ascii_text Clean.MENU_DATA rule_based
                 [thanks_from "bob"; None; thanks_from "alice"] cw1 in
  let '(r2, cw2) := @Clean._handle_chat ascii_text Clean.MENU_DATA rule_based
                      (hello_from "carol") later in
  (exists text, r1 = Ok (Clean.Sent200 text (firstn 3 Clean.MENU_DATA)) /\
                In text Clean.first_greetings) /\
  Clean.greeting_used cw1 = true /\
  Clean.greeting_used later = true /\
  (exists text, r2 = Ok (Clean.Sent200 text (firstn 3 Clean.MENU_DATA)) /\
                In text Clean.repeat_greetings) /\
  (forall b, message_field b = message_field (hello_from "carol") ->
             @Clean._handle_chat ascii_text Clean.MENU_DATA rule_based b later = (r2, cw2)).
Proof.
  exact (@greeting_flag_is_process_wide ascii_text Clean.MENU_DATA rule_based
           (hello_from "alice") (hello_from "carol")
           [thanks_from "bob"; None; thanks_from "alice"] "hello" "hello" quiet_process
           eq_refl eq_refl eq_refl ltac:(discriminate) ltac:(discriminate) eq_refl eq_refl).
Defined.

(** The claim as it stands fails: the two sessions are distinct, [bob] alone
    is welcomed with a first-turn text, and [bob] after [alice] gets a repeat
    text. *)
Lemma greeting_shared_across_sessions_counterexample :
  hello_from "alice" <> hello_from "bob" /\
  fst (@Clean._handle_chat ascii_text Clean.MENU_DATA rule_based (hello_from "bob") quiet_process)
  = Ok (Clean.Sent200 (nth 0 Clean.first_greetings "") (firstn 3 Clean.MENU_DATA)) /\
  fst (@Clean._handle_chat ascii_text Clean.MENU_DATA rule_based (hello_from "bob")
         (snd (@Clean._handle_chat ascii_text Clean.MENU_DATA rule_based (hello_from "alice")
                 quiet_process)))
  = Ok (Clean.Sent200 (nth 0 Clean.repeat_greetings "") (firstn 3 Clean.MENU_DATA)) /\
  nth 0 Clean.first_greetings "" <> nth 0 Clean.repeat_greetings "".
Proof. repeat split; try discriminate; vm_compute; reflexivity. Qed.

(** * Further properties of the code *)

(** ** The cache: what is written is what is read *)

(** X1. With Redis answering, what [set_restaurant] and [set_menu] store under an
    id is what [get_restaurant] and [get_menu] return for it next, with the
    time to live of one hour; the write of a profile leaves the menus alone
    and the profiles of the other ids as they were. *)
Theorem cache_write_then_read (w : World) (rid : string) (r : Restaurant)
    (menu : list MenuItem) :
  redis_fault w (redis_ops w) = false ->
  redis_fault w (S (redis_ops w)) = false ->
  (let w1 := snd (set_restaurant rid r w) in
   fst (get_restaurant rid w1) = Ok (Some r) /\
   redis_restaurant w1 !! rid = Some (3600, r) /\
   redis_menu w1 = redis_menu w /\
   forall other, other <> rid -> redis_restaurant w1 !! other = redis_restaurant w !! other) /\
  (let w1 := snd (set_menu rid menu w) in
   fst (get_menu rid w1) = Ok (Some menu) /\
   redis_menu w1 !! rid = Some (3600, menu) /\
   redis_restaurant w1 = redis_restaurant w /\
   forall other, other <> rid -> redis_menu w1 !! other = redis_menu w !! other).
Proof.
  intros H0 H1. split.
  - rewrite set_restaurant_run, H0. cbn [snd]. rewrite get_restaurant_run. cbn.
    rewrite H1. cbn. rewrite lookup_insert_eq. repeat split.
    intros other Hne. now apply lookup_insert_ne.
  - rewrite set_menu_run, H0. cbn [snd]. rewrite get_menu_run. cbn.
    rewrite H1. cbn. rewrite lookup_insert_eq. repeat split.
    intros other Hne. now apply lookup_insert_ne.
Qed.

Lemma cache_write_then_read_witness :
  let w := world_with [pepe] [pepe_taco] false ConnectionFailed in
  fst (get_restaurant "pepe" (snd (set_restaurant "pepe" (dict_of_row false pepe) w)))
    = Ok (Some (dict_of_row false pepe)) /\
  fst (get_menu "pepe" (snd (set_menu "pepe" [sample_item 1 "Taco"] w)))
    = Ok (Some [sample_item 1 "Taco"]).
Proof.
  intros w.
  destruct (cache_write_then_read w "pepe" (dict_of_row false pepe) [sample_item 1 "Taco"]
              eq_refl eq_refl) as ((Hr & _) & (Hm & _)).
  split; assumption.
Defined.

(** X2. [invalidate_restaurant] sends two deletes in one [try]. When both go
    through, the profile and the menu of the id are gone and the entries of
    the other ids stay. When the first fails, nothing is deleted and the
    second is not sent. When only the second fails, the profile is gone and
    the menu stays cached. In all three cases the method returns normally. *)
Theorem invalidate_restaurant_outcomes (w : World) (rid : string) :
  fst (invalidate_restaurant rid w) = Ok tt /\
  (let w' := snd (invalidate_restaurant rid w) in
   if redis_fault w (redis_ops w) then
     redis_restaurant w' = redis_restaurant w /\ redis_menu w' = redis_menu w /\
     redis_ops w' = S (redis_ops w)
   else if redis_fault w (S (redis_ops w)) then
     redis_restaurant w' !! rid = None /\ redis_menu w' = redis_menu w
   else
     redis_restaurant w' !! rid = None /\ redis_menu w' !! rid = None /\
     forall other, other <> rid ->
       redis_restaurant w' !! other = redis_restaurant w !! other /\
       redis_menu w' !! other = redis_menu w !! other).
Proof.
  rewrite invalidate_restaurant_run.
  destruct (redis_fault w (redis_ops w)); [cbn; auto|].
  destruct (redis_fault w (S (redis_ops w))); cbn.
  - split; [reflexivity|]. split; [apply lookup_delete_eq | reflexivity].
  - split; [reflexivity|]. split; [apply lookup_delete_eq|].
    split; [apply lookup_delete_eq|].
    intros other Hne. split; now apply lookup_delete_ne.
Qed.

(** ** Cache-aside reads *)

(** X3. A profile that is in the cache is served from it: with Redis answering,
    the profile lookup returns the cached value and sends no statement to
    PostgreSQL, whatever the table of restaurants holds by now. *)
Theorem profile_hit_skips_database (w : World) (rid : string) (t : Z) (r : Restaurant) :
  redis_fault w (redis_ops w) = false ->
  redis_restaurant w !! rid = Some (t, r) ->
  fetch_restaurant rid w =
    (Ok (Some r), tick_redis (emit (RedisGet ("restaurant:" +:+ rid)) w)) /\
  pg_ops (snd (fetch_restaurant rid w)) = pg_ops w.
Proof.
  intros Hf Hhit. unfold fetch_restaurant, bind. rewrite get_restaurant_run, Hf, Hhit.
  cbn. split; reflexivity.
Qed.

Lemma profile_hit_skips_database_witness :
  let w := snd (set_restaurant "rest-1" (dict_of_row false luigi)
                  (world_with [] [] false ConnectionFailed)) in
  restaurants w = [] /\
  fst (fetch_restaurant "rest-1" w) = Ok (Some (dict_of_row false luigi)) /\
  pg_ops (snd (fetch_restaurant "rest-1" w)) = pg_ops w.
Proof.
  intros w.
  destruct (profile_hit_skips_database w "rest-1" 3600 (dict_of_row false luigi)
              eq_refl eq_refl) as [Hrun Hops].
  split; [reflexivity|]. split; [now rewrite Hrun | exact Hops].
Defined.



(** X5. A restaurant the database does not find is not cached: after such a
    lookup no write was sent to Redis and both key spaces are as before, so
    the next lookup asks the database again. The menu lookup of
    [generate_response] likewise never writes an empty menu. *)
Theorem negative_results_not_cached (w : World) (rid : string) (r : Restaurant) :
  pg_fault w (pg_ops w) = false ->
  (redis_fault w (redis_ops w) = true \/ redis_restaurant w !! rid = None) ->
  (redis_fault w (redis_ops w) = true \/ menu_cache_empty w rid = true) ->
  select_by_subdomain (Some rid) (restaurants w) = None ->
  select_menu_items (r_id r) (menu_items w) = [] ->
  (let '(res, w') := fetch_restaurant rid w in
   res = Ok None /\
   redis_restaurant w' = redis_restaurant w /\ redis_menu w' = redis_menu w /\
   redis_ops w' = S (redis_ops w)) /\
  (let '(res, w') := fetch_menu rid r w in
   res = Ok [] /\
   redis_restaurant w' = redis_restaurant w /\ redis_menu w' = redis_menu w /\
   redis_ops w' = S (redis_ops w)).
Proof.
  intros Hpg Hmiss Hmmiss Hsel Hmenu. split.
  - unfold fetch_restaurant, bind. rewrite get_restaurant_run.
    destruct (redis_fault w (redis_ops w)) eqn:Hf; cbv beta iota.
    + rewrite (lookup_route_run subdomain (JStr rid)). cbn. rewrite Hpg, Hsel. cbn.
      repeat split.
    + destruct Hmiss as [?|Hmiss]; [discriminate|]. rewrite Hmiss. cbn.
      cbv beta iota. rewrite (lookup_route_run subdomain (JStr rid)). cbn.
      rewrite Hpg, Hsel. cbn. repeat split.
  - unfold fetch_menu, bind. rewrite get_menu_run.
    destruct (redis_fault w (redis_ops w)) eqn:Hf; cbv beta iota.
    + cbn [menu_missing]. rewrite get_menu_items_run. cbn. rewrite Hpg, Hmenu. cbn.
      repeat split.
    + destruct Hmmiss as [?|Hmmiss]; [discriminate|].
      rewrite menu_missing_cached, Hmmiss.
      rewrite get_menu_items_run. cbn. rewrite Hpg, Hmenu. cbn. repeat split.
Qed.

Lemma negative_results_not_cached_witness :
  let w := world_with [luigi] [] false ConnectionFailed in
  (let '(res, w') := fetch_restaurant "rest-1" w in
   res = Ok None /\
   redis_restaurant w' = redis_restaurant w /\ redis_menu w' = redis_menu w /\
   redis_ops w' = 1%nat) /\
  (let '(res, w') := fetch_menu "rest-1" (dict_of_row false luigi) w in
   res = Ok [] /\
   redis_restaurant w' = redis_restaurant w /\ redis_menu w' = redis_menu w /\
   redis_ops w' = 1%nat).
Proof.
  intros w.
  exact (negative_results_not_cached w "rest-1" (dict_of_row false luigi)
           eq_refl (or_intror eq_refl) (or_intror eq_refl) eq_refl eq_refl).
Defined.

(** ** The order of the menu *)

Lemma menu_row_le_total (a b : MenuRow) : menu_row_le a b = true \/ menu_row_le b a = true.
Proof.
  unfold menu_row_le.
  destruct (Z.ltb_spec (mrow_display_order a) (mrow_display_order b)); [now left|].
  destruct (Z.ltb_spec (mrow_display_order b) (mrow_display_order a)); [now right|].
  rewrite (String.compare_antisym (item_category (mrow_item a)) (item_category (mrow_item b))).
  destruct (String.compare (item_category (mrow_item b)) (item_category (mrow_item a)));
    cbn; auto.
  apply String.leb_total.
Qed.

Lemma insert_row_perm (x : MenuRow) (l : list MenuRow) : Permutation (insert_row x l) (x :: l).
Proof.
  induction l as [|y l IH]; simpl; [reflexivity|].
  destruct (menu_row_le x y); [reflexivity|].
  rewrite IH. apply perm_swap.
Qed.

Lemma insert_row_sorted (x : MenuRow) (l : list MenuRow) :
  Sorted row_before l -> Sorted row_before (insert_row x l).
Proof.
  induction l as [|y l IH]; intros Hs; simpl.
  - repeat constructor.
  - destruct (menu_row_le x y) eqn:Hxy.
    + constructor; [exact Hs | constructor; exact Hxy].
    + inversion Hs as [|? ? Hl Hhd]; subst.
      constructor; [now apply IH|].
      destruct l as [|z l]; simpl.
      * constructor. destruct (menu_row_le_total x y); [congruence | assumption].
      * destruct (menu_row_le x z).
        -- constructor. destruct (menu_row_le_total x y); [congruence | assumption].
        -- inversion Hhd; subst. now constructor.
Qed.

Lemma order_rows_perm (l : list MenuRow) : Permutation (order_rows l) l.
Proof.
  induction l as [|x l IH]; simpl; [reflexivity|].
  unfold order_rows in *. simpl. rewrite insert_row_perm. now constructor.
Qed.

Lemma order_rows_sorted (l : list MenuRow) : Sorted row_before (order_rows l).
Proof.
  induction l as [|x l IH]; simpl; [constructor|].
  unfold order_rows in *. simpl. now apply insert_row_sorted.
Qed.

(** X6. What [get_menu_items] selects: exactly the active rows of the restaurant,
    each as often as the table has it, ordered by display order, then
    category, then name. An item of another restaurant or of an inactive row
    is never returned. *)
Theorem menu_items_selected_in_order (restaurant_id : string) (rows : list MenuRow) :
  exists ordered,
    select_menu_items restaurant_id rows = map mrow_item ordered /\
    Sorted row_before ordered /\
    Permutation ordered
      (List.filter (fun row => String.eqb (mrow_restaurant_id row) restaurant_id && mrow_active row)
         rows) /\
    (forall row, In row ordered <->
       In row rows /\ mrow_restaurant_id row = restaurant_id /\ mrow_active row = true) /\
    length (select_menu_items restaurant_id rows) = length ordered.
Proof.
  set (chosen := List.filter
                   (fun row => String.eqb (mrow_restaurant_id row) restaurant_id && mrow_active row)
                   rows).
  exists (order_rows chosen). split; [reflexivity|].
  split; [apply order_rows_sorted|]. split; [apply order_rows_perm|]. split.
  - intros row. split.
    + intros Hin. apply (Permutation_in _ (order_rows_perm chosen)) in Hin.
      apply filter_In in Hin as [Hin Hb]. apply andb_true_iff in Hb as [Hid Hact].
      apply String.eqb_eq in Hid. auto.
    + intros (Hin & Hid & Hact).
      apply (Permutation_in _ (Permutation_sym (order_rows_perm chosen))).
      apply filter_In. split; [exact Hin|].
      apply andb_true_iff. split; [now apply String.eqb_eq | exact Hact].
  - unfold select_menu_items. fold chosen. now rewrite length_map.
Qed.

(** ** The orchestrator *)

Lemma log_conversation_cases rid sid m resp w :
  let '(res, w') := log_conversation rid sid m resp w in
  (res = Ok tt /\
   conversations w' =
     conversations w ++
     [{| conv_restaurant_id := rid;
         conv_session_id := match sid with JStr s => Some s | _ => None end;
         conv_message := m; conv_response := resp; conv_timestamp := clock w |}]) \/
  ((exists e, res = Raise e) /\ conversations w' = conversations w).
Proof.
  unfold log_conversation, bind, pg_command, lift, modify. cbn.
  destruct (pg_fault w (pg_ops w)); [right; split; [eauto | reflexivity]|].
  destruct sid; cbn; first [ left; split; reflexivity | right; split; [eauto | reflexivity] ].
Qed.

Section Logging.

Context `{PyText}.

(** X7. A chat turn is logged exactly when it succeeds: a successful answer comes
    with one new row in [conversations], appended after the rows that were
    there, carrying the message, the answer's text and the time of the call; a
    failed answer leaves the table as it was. [generate_response] itself never
    raises. *)
Theorem chat_logged_exactly_on_success ai rid m sid w :
  let '(res, w') := generate_response ai rid m sid w in
  match res with
  | Ok (ChatOk text recs name ai_name) =>
      exists c, conversations w' = conversations w ++ [c] /\
                conv_message c = m /\ conv_response c = text /\
                conv_timestamp c = clock w
  | Ok (Failed _) => conversations w' = conversations w
  | _ => False
  end.
Proof.
  unfold generate_response, try_except, bind.
  pose proof (fetch_restaurant_frame w rid) as Hfr.
  destruct (fetch_restaurant rid w) as [[[r|]|e] w1]; cbv beta iota;
    destruct Hfr as ((_ & _ & _ & _ & _ & Hk1 & _) & Hc1 & _);
    [| cbn; assumption | cbn; assumption].
  pose proof (fetch_menu_frame w1 rid r) as Hmr.
  destruct (fetch_menu rid r w1) as [[menu|e] w2]; cbv beta iota;
    destruct Hmr as ((_ & _ & _ & _ & _ & Hk2 & _) & Hc2 & _); [|cbn; congruence].
  assert (Hcall : exists res3 w3,
            (match ai_service ai with
             | Some _ => _call_ai_api ai (build_system_prompt r menu) m
             | None => ret (JStr (_generate_fallback_response m r))
             end) w2 = (res3, w3) /\ conversations w3 = conversations w2 /\
            clock w3 = clock w2).
  { destruct (ai_service ai).
    - pose proof (call_ai_api_extends ai (build_system_prompt r menu) m w2) as Hc.
      assert (Hk : clock (snd (_call_ai_api ai (build_system_prompt r menu) m w2)) = clock w2).
      { clear. unfold _call_ai_api.
        destruct (match ai_service ai with Some groq => _ | _ => _ end) as [url model].
        unfold bind, http_post. cbn.
        destruct (backend w2 url model (build_system_prompt r menu) m) as [|status body];
          cbn; [reflexivity|].
        destruct (status =? 200); [|reflexivity].
        destruct body as [result|]; cbn; [|reflexivity].
        unfold lift.
        destruct (getitem_key result "choices") as [c|]; cbn; [|reflexivity].
        destruct (getitem_0 c) as [f|]; cbn; [|reflexivity].
        destruct (getitem_key f "message") as [msg|]; cbn; [|reflexivity].
        now destruct (getitem_key msg "content"). }
      destruct (_call_ai_api ai (build_system_prompt r menu) m w2) as [res3 w3].
      exists res3, w3. split; [reflexivity|]. split; [apply Hc | exact Hk].
    - eexists _, _. split; [reflexivity|]. split; reflexivity. }
  destruct Hcall as (res3 & w3 & Hrun3 & Hc3 & Hk3). rewrite Hrun3.
  destruct res3 as [text|e]; cbv beta iota; [|cbn; congruence].
  unfold lift. destruct (as_str text) as [s|e]; cbv beta iota; [|cbn; congruence].
  pose proof (log_conversation_cases (r_id r) sid m s w3) as Hl.
  destruct (log_conversation (r_id r) sid m s w3) as [[[]|e] w4]; cbn.
  - destruct Hl as [[_ Hl]|[[e He] _]]; [|discriminate].
    eexists. split; [rewrite Hl, Hc3, Hc2, Hc1; reflexivity|]. cbn.
    repeat split. congruence.
  - destruct Hl as [[Hl _]|[_ Hl]]; [discriminate|]. congruence.
Qed.

(** X8. The text of the backend is passed on as it is: when the backend answers
    200 with a text in the first choice, the chat turn returns that text
    untrimmed, recommends the items it names, and logs it. *)
Theorem backend_text_returned_verbatim ai rid m sid sidp w r w1 menu w2 content :
  ai_service ai <> None ->
  fetch_restaurant rid w = (Ok (Some r), w1) ->
  fetch_menu rid r w1 = (Ok menu, w2) ->
  reply_content (backend w2 (fst (endpoint ai)) (snd (endpoint ai))
                   (build_system_prompt r menu) m) = Ok (JStr content) ->
  pg_fault w2 (pg_ops w2) = false ->
  text_param sid = Ok sidp ->
  exists c w',
    generate_response ai rid m sid w =
      (Ok (ChatOk content (_extract_recommendations content menu) (r_name r) (r_ai_name r)),
       w') /\
    conversations w' = conversations w ++ [c] /\
    conv_restaurant_id c = r_id r /\ conv_session_id c = sidp /\
    conv_message c = m /\ conv_response c = content.
Proof.
  intros Hai Hf Hm Hreply Hpg Hsid.
  pose proof (fetch_restaurant_frame w rid) as Hfr. rewrite Hf in Hfr.
  pose proof (fetch_menu_frame w1 rid r) as Hmr. rewrite Hm in Hmr.
  destruct Hfr as (_ & Hc1 & _). destruct Hmr as (_ & Hc2 & _).
  unfold generate_response, try_except, bind. rewrite Hf. cbv beta iota. rewrite Hm.
  cbv beta iota.
  destruct (ai_service ai) as [svc|] eqn:Hsvc; [|contradiction].
  pose proof (call_ai_api_result ai (build_system_prompt r menu) m w2) as Hres.
  pose proof (call_ai_api_extends ai (build_system_prompt r menu) m w2) as Hext.
  assert (Hw3 : pg_fault (snd (_call_ai_api ai (build_system_prompt r menu) m w2))
                  (pg_ops (snd (_call_ai_api ai (build_system_prompt r menu) m w2))) = false).
  { rewrite <- Hpg. clear. unfold _call_ai_api.
    destruct (match ai_service ai with Some groq => _ | _ => _ end) as [url model].
    unfold bind, http_post. cbn.
    destruct (backend w2 url model (build_system_prompt r menu) m) as [|status body];
      cbn; [reflexivity|].
    destruct (status =? 200); [|reflexivity].
    destruct body as [result|]; cbn; [|reflexivity].
    unfold lift.
    destruct (getitem_key result "choices") as [c|]; cbn; [|reflexivity].
    destruct (getitem_0 c) as [f|]; cbn; [|reflexivity].
    destruct (getitem_key f "message") as [msg|]; cbn; [|reflexivity].
    now destruct (getitem_key msg "content"). }
  destruct (_call_ai_api ai (build_system_prompt r menu) m w2) as [res3 w3].
  destruct Hext as [_ Hc3]. cbn [fst snd] in Hres, Hw3. rewrite Hreply in Hres. subst res3.
  unfold lift. cbn [as_str]. cbv beta iota.
  destruct (log_conversation_healthy (r_id r) sid sidp m content w3 Hw3 Hsid)
    as (c & w4 & Hlog & Hc4 & Hcid & Hcm & Hcr).
  rewrite Hlog. unfold ret. exists c, w4. split; [reflexivity|].
  split; [congruence|]. repeat split; try assumption.
  clear - Hlog Hc4 Hsid Hw3. unfold log_conversation, bind, pg_command, lift, modify in Hlog.
  cbn in Hlog. rewrite Hw3, Hsid in Hlog. cbn in Hlog. injection Hlog as <-.
  cbn in Hc4. apply app_inv_head in Hc4. now injection Hc4 as <-.
Qed.

(** X9. With no backend configured the answer is one of three fixed sentences,
    picked by the hash of the message; neither the words of the message nor
    the menu enter it. *)
Theorem no_backend_answer_is_canned (message : string) (restaurant : Restaurant) :
  In (_generate_fallback_response message restaurant)
     [ "Hi! I'm " +:+ str_of_opt (r_ai_name restaurant) +:+ " from " +:+ r_name restaurant +:+
       ". What can I help you find?";
       "Looking for something specific? I'd love to help!";
       "Our menu has some amazing options. What are you in the mood for?" ].
Proof.
  unfold _generate_fallback_response.
  apply nth_In. simpl.
  pose proof (Z.mod_pos_bound (hash message) 3 ltac:(lia)). lia.
Qed.

End Logging.

Lemma backend_text_returned_verbatim_witness :
  let reply := Reply 200 (Some (JObj [("choices",
                 JArr [JObj [("message", JObj [("content", JStr "  Try the Taco!  ")])]])])) in
  let w := world_with [pepe] [pepe_taco] false reply in
  exists c w',
    @generate_response ascii_text (new_ai None (Some "sk-test")) "pepe" "hungry" (JStr "s1") w
    = (Ok (ChatOk "  Try the Taco!  "
             (@_extract_recommendations ascii_text "  Try the Taco!  " [sample_item 1 "Taco"])
             "Pepe's Cantina" (Some "Sophie")), w') /\
    conversations w' = [c] /\
    conv_restaurant_id c = "pepe" /\ conv_session_id c = Some "s1" /\
    conv_message c = "hungry" /\ conv_response c = "  Try the Taco!  ".
Proof.
  intros reply w.
  apply (@backend_text_returned_verbatim ascii_text (new_ai None (Some "sk-test"))
           "pepe" "hungry" (JStr "s1") (Some "s1") w (dict_of_row false pepe)
           (snd (fetch_restaurant "pepe" w)) [sample_item 1 "Taco"]
           (snd (fetch_menu "pepe" (dict_of_row false pepe) (snd (fetch_restaurant "pepe" w))))
           "  Try the Taco!  ").
  - discriminate.
  - vm_compute. reflexivity.
  - vm_compute. reflexivity.
  - vm_compute. reflexivity.
  - vm_compute. reflexivity.
  - reflexivity.
Defined.

(** ** The endpoints *)

Section Endpoints.

Context `{PyText}.

Lemma generate_response_answers ai rid m sid w :
  exists res w', generate_response ai rid m sid w = (Ok res, w') /\
    match res with
    | ChatOk _ _ _ _ => True
    | Failed e => e = "Restaurant not found" \/ e = "Failed to generate response"
    | MenuOk _ _ _ _ => False
    end.
Proof.
  unfold generate_response, try_except, bind.
  destruct (fetch_restaurant rid w) as [[[r|]|e] w1]; cbv beta iota.
  2:{ unfold ret. eexists _, _. split; [reflexivity|]. now left. }
  2:{ unfold log_error, modify, ret. eexists _, _. split; [reflexivity|]. now right. }
  destruct (fetch_menu rid r w1) as [[menu|e] w2]; cbv beta iota.
  2:{ unfold log_error, modify, ret. eexists _, _. split; [reflexivity|]. now right. }
  match goal with |- context [match ?c w2 with _ => _ end] => destruct (c w2) as [[text|e] w3] end;
    cbv beta iota.
  2:{ unfold log_error, modify, ret. eexists _, _. split; [reflexivity|]. now right. }
  unfold lift. destruct (as_str text) as [s|e]; cbv beta iota.
  2:{ unfold log_error, modify, ret. eexists _, _. split; [reflexivity|]. now right. }
  destruct (log_conversation (r_id r) sid m s w3) as [[[]|e] w4]; cbv beta iota.
  - unfold ret. eexists _, _. split; [reflexivity | exact I].
  - unfold log_error, modify, ret. eexists _, _. split; [reflexivity|]. now right.
Qed.

(** X10. The chat turn never raises and never answers with a menu listing: its
    answer is a chat answer or one of five error texts. *)
Theorem chat_endpoint_always_answers ai request w :
  exists res w', handle_chat ai request w = (Ok res, w') /\
    match res with
    | ChatOk _ _ _ _ => True
    | Failed e => In e chat_errors
    | MenuOk _ _ _ _ => False
    end.
Proof.
  unfold handle_chat, chat_errors.
  destruct (get_restaurant_from_request request) as [r0 i0].
  destruct (route_from_body request r0 i0) as [[[rt|] ident] jd].
  2:{ unfold ret. eexists _, _. split; [reflexivity|]. now left. }
  assert (Hfail : forall w0 : World, exists res w',
            (log_error "Chat error";;; ret (Failed "Failed to process message")) w0
              = (Ok res, w') /\
            match res with
            | ChatOk _ _ _ _ => True
            | Failed e => In e chat_errors
            | MenuOk _ _ _ _ => False
            end).
  { intros w0. unfold bind, log_error, modify, ret. eexists _, _.
    split; [reflexivity|]. right. right. right. now left. }
  unfold try_except, bind, lift.
  match goal with |- context [match ?d with Ok _ => _ | Raise _ => _ end] =>
    destruct d as [data|e] end; cbv beta iota; [|apply Hfail].
  destruct (dict_get data "message" (JStr "")) as [msg|e]; cbv beta iota; [|apply Hfail].
  destruct (str_strip msg) as [m|e]; cbv beta iota; [|apply Hfail].
  destruct (dict_get data "session_id" (JStr "anonymous")) as [sid|e]; cbv beta iota;
    [|apply Hfail].
  destruct (String.eqb m "").
  { unfold ret. eexists _, _. split; [reflexivity|]. right. now left. }
  destruct (lookup_route rt ident w) as [[[r|]|e] w1]; cbv beta iota; [| |apply Hfail].
  - destruct (generate_response_answers ai (r_id r) m sid w1) as (res & w' & -> & Hres).
    exists res, w'. split; [reflexivity|].
    destruct res as [| |e]; [exact I | exact Hres|].
    destruct Hres as [->| ->]; cbn; auto 6.
  - unfold ret. eexists _, _. split; [reflexivity|]. right. right. now left.
Qed.

(** The body a chat turn works with is the request's body. *)
Lemma chat_data request rt ident jd :
  chat_route request = (rt, ident, jd) ->
  match jd with
  | Some d => if truthy d then Ok d else request_json request
  | None => request_json request
  end = request_json request.
Proof.
  intros Hroute. destruct (chat_route_data request _ _ _ Hroute) as [->|[-> (d & Hd & Ht)]];
    [reflexivity|].
  unfold request_json. rewrite Hd. now rewrite Ht.
Qed.

(** X11. When the database does not answer, the menu listing raises (it has no
    handler of its own), while the chat turn answers with an error text and
    logs the failure. *)
Theorem database_failure_per_endpoint ai request w rt ident m :
  get_restaurant_from_request request = (Some rt, ident) ->
  message_field (body request) = Some (JStr m) ->
  strip m <> "" ->
  pg_fault w (pg_ops w) = true ->
  handle_menu request w = (Raise PostgresError, tick_pg (emit (route_event rt ident) w)) /\
  handle_chat ai request w =
    (Ok (Failed "Failed to process message"),
     emit (LogError "Chat error") (tick_pg (emit (route_event rt ident) w))).
Proof.
  intros Hroute Hmsg Hne Hpg. split.
  - unfold handle_menu. rewrite Hroute. cbn [route_from_query].
    unfold bind. now rewrite (lookup_route_run rt ident), Hpg.
  - unfold handle_chat. rewrite Hroute. cbn [route_from_body].
    unfold message_field in Hmsg.
    destruct (body request) as [[| | | | |fields]|] eqn:Hbody; try discriminate.
    unfold try_except, bind, lift, request_json. rewrite Hbody. cbn [dict_get].
    injection Hmsg as ->. cbn [str_strip].
    destruct (String.eqb_spec (strip m) ""); [contradiction|].
    now rewrite (lookup_route_run rt ident), Hpg.
Qed.

(** X12. A chat request that names a restaurant but whose body is not a JSON
    object, or whose [message] is not a string, is answered [Failed to process
    message]: the failure is logged, and neither the cache nor the database
    nor the backend is reached. *)
Theorem chat_malformed_body ai request w rt ident jd :
  chat_route request = (Some rt, ident, jd) ->
  (forall m, message_field (body request) <> Some (JStr m)) ->
  handle_chat ai request w =
    (Ok (Failed "Failed to process message"), emit (LogError "Chat error") w).
Proof.
  intros Hroute Hmsg. unfold handle_chat.
  pose proof (chat_data request _ _ _ Hroute) as Hd. unfold chat_route in Hroute.
  destruct (get_restaurant_from_request request) as [r0 i0]. rewrite Hroute.
  unfold try_except, bind, lift. rewrite Hd. unfold request_json, message_field in *.
  destruct (body request) as [[| | | | |fields]|]; try reflexivity.
  cbn [dict_get].
  destruct (assoc "message" fields) as [[| | |s| |]|]; try reflexivity.
  - now contradiction (Hmsg s).
  - now contradiction (Hmsg "").
Qed.

(** X13. A request for a restaurant that no active row matches is answered
    [Restaurant not found] by both endpoints, after one statement; the cache
    is not consulted and nothing else changes. *)
Theorem unknown_restaurant_not_found request w rt ident p :
  pg_fault w (pg_ops w) = false ->
  text_param ident = Ok p ->
  select_route rt p (restaurants w) = None ->
  (menu_route request = (Some rt, ident) ->
   handle_menu request w =
     (Ok (Failed "Restaurant not found"), tick_pg (emit (route_event rt ident) w))) /\
  (forall ai jd m,
     chat_route request = (Some rt, ident, jd) ->
     message_field (body request) = Some (JStr m) ->
     strip m <> "" ->
     handle_chat ai request w =
       (Ok (Failed "Restaurant not found"), tick_pg (emit (route_event rt ident) w))).
Proof.
  intros Hpg Hp Hsel. split.
  - intros Hroute. unfold handle_menu. unfold menu_route in Hroute.
    destruct (get_restaurant_from_request request) as [r0 i0]. rewrite Hroute.
    unfold bind. now rewrite (lookup_route_run rt ident), Hpg, Hp, Hsel.
  - intros ai jd m Hroute Hmsg Hne. unfold handle_chat.
    pose proof (chat_data request _ _ _ Hroute) as Hd. unfold chat_route in Hroute.
    destruct (get_restaurant_from_request request) as [r0 i0]. rewrite Hroute.
    unfold try_except, bind, lift. rewrite Hd. unfold request_json, message_field in *.
    destruct (body request) as [[| | | | |fields]|]; try discriminate.
    cbn [dict_get]. injection Hmsg as ->. cbn [str_strip].
    destruct (String.eqb_spec (strip m) ""); [contradiction|].
    now rewrite (lookup_route_run rt ident), Hpg, Hp, Hsel.
Qed.

End Endpoints.

Lemma find_first {A : Type} (f : A -> bool) (l : list A) :
  match find f l with
  | Some x => exists before after,
      l = before ++ x :: after /\ f x = true /\ forall y, In y before -> f y = false
  | None => forall y, In y l -> f y = false
  end.
Proof.
  induction l as [|a l IH]; simpl; [now intros y []|].
  destruct (f a) eqn:Ha.
  - exists [], l. repeat split; [exact Ha | now intros y []].
  - destruct (find f l) as [x|].
    + destruct IH as (before & after & -> & Hx & Hb).
      exists (a :: before), after. repeat split; [exact Hx|].
      intros y [<-|Hy]; [exact Ha | now apply Hb].
    + intros y [<-|Hy]; [exact Ha | now apply IH].
Qed.

(** X14. A restaurant lookup that the database answers returns the first active
    row whose subdomain (or slug) is the identifier, and nothing when there is
    none: a row that is not active is never returned. The dictionary has the
    key [slug] only when the lookup is by slug. *)
Theorem lookup_returns_first_active_match rt s w :
  pg_fault w (pg_ops w) = false ->
  exists res, fst (lookup_route rt (JStr s) w) = Ok res /\
    match res with
    | Some r =>
        exists before row after,
          restaurants w = before ++ row :: after /\
          row_active row = true /\ route_key rt row = s /\
          r = dict_of_row (route_has_slug rt) row /\
          (r_slug r = None <-> rt = subdomain) /\
          forall x, In x before -> row_active x = false \/ route_key rt x <> s
    | None =>
        forall row, In row (restaurants w) -> row_active row = false \/ route_key rt row <> s
    end.
Proof.
  intros Hpg. rewrite lookup_route_run, Hpg. cbn [text_param fst].
  eexists. split; [reflexivity|].
  assert (Hcases : forall x : RestaurantRow,
            opt_eqb (route_key rt x) (Some s) && row_active x = false ->
            row_active x = false \/ route_key rt x <> s).
  { intros x Hx. apply andb_false_iff in Hx as [Hx|Hx]; [right | now left].
    cbn in Hx. now apply String.eqb_neq in Hx. }
  destruct rt; unfold select_route, select_by_subdomain, select_by_slug.
  - pose proof (find_first (fun row => opt_eqb (row_subdomain row) (Some s) && row_active row)
                  (restaurants w)) as Hf.
    destruct (find _ (restaurants w)) as [row|]; cbn [option_map].
    + destruct Hf as (before & after & Hrows & Hrow & Hb).
      apply andb_true_iff in Hrow as [Hkey Hact]. cbn in Hkey. apply String.eqb_eq in Hkey.
      exists before, row, after.
      repeat split; auto; try discriminate; intros x Hx; apply (Hcases x); now apply Hb.
    + intros row Hin. apply (Hcases row). now apply Hf.
  - pose proof (find_first (fun row => opt_eqb (row_slug row) (Some s) && row_active row)
                  (restaurants w)) as Hf.
    destruct (find _ (restaurants w)) as [row|]; cbn [option_map].
    + destruct Hf as (before & after & Hrows & Hrow & Hb).
      apply andb_true_iff in Hrow as [Hkey Hact]. cbn in Hkey. apply String.eqb_eq in Hkey.
      exists before, row, after.
      repeat split; auto; try discriminate; intros x Hx; apply (Hcases x); now apply Hb.
    + intros row Hin. apply (Hcases row). now apply Hf.
Qed.

(** ** Paths of the form [/r/<slug>] *)

Lemma split_segment (s t : string) :
  str_in "/" s = false ->
  split "/" (s +:+ String "/" t) = s :: split "/" t.
Proof.
  induction s as [|c s IH]; intros Hs; [reflexivity|].
  cbn [str_in String.prefix] in Hs. apply orb_false_iff in Hs as [Hc Hs].
  change (String c s +:+ String "/" t) with (String c (s +:+ String "/" t)).
  cbn [split]. destruct (Ascii.eqb_spec c "/") as [->|Hne].
  - destruct (ascii_dec "/" "/"); [|congruence]. now destruct s.
  - now rewrite (IH Hs).
Qed.

Lemma split_last_segment (s : string) :
  str_in "/" s = false -> split "/" s = [s].
Proof.
  induction s as [|c s IH]; intros Hs; [reflexivity|].
  cbn [str_in String.prefix] in Hs. apply orb_false_iff in Hs as [Hc Hs].
  cbn [split]. destruct (Ascii.eqb_spec c "/") as [->|Hne].
  - destruct (ascii_dec "/" "/"); [|congruence]. now destruct s.
  - now rewrite (IH Hs).
Qed.

(** X15. When the host names no restaurant (it has no dot, or its leftmost label
    is reserved), a path [/r/<slug>], followed by nothing or by [/] and more,
    resolves to the slug scheme with that slug; the slug may be empty. *)
Theorem slug_path_resolves `{PyText} (request : Request) (s t : string) :
  (str_in "." (lower (host request)) = false \/
   str_mem (leftmost_label (lower (host request))) reserved = true) ->
  str_in "/" s = false ->
  (path request = "/r/" +:+ s \/ path request = "/r/" +:+ s +:+ String "/" t) ->
  get_restaurant_from_request request = (Some slug, JStr s).
Proof.
  intros Hhost Hs Hpath.
  assert (Hparts : startswith (path request) "/r/" = true /\
                   (3 <=? length (split "/" (path request)))%nat = true /\
                   nth 2 (split "/" (path request)) "" = s).
  { destruct Hpath as [-> | ->].
    - change ("/r/" +:+ s) with (String "/" (String "r" (String "/" s))).
      cbn [split startswith String.prefix]. cbn.
      rewrite (split_last_segment s Hs). repeat split. now destruct s.
    - change ("/r/" +:+ s +:+ String "/" t)
        with (String "/" (String "r" (String "/" (s +:+ String "/" t)))).
      cbn [split startswith String.prefix]. cbn.
      rewrite (split_segment s t Hs). pose proof (split_nonempty "/" t).
      destruct (split "/" t); [congruence|]. repeat split. now destruct (s +:+ String "/" t). }
  destruct Hparts as (Hstart & Hlen & Hnth).
  unfold get_restaurant_from_request. rewrite Hstart, Hlen, Hnth.
  unfold leftmost_label in Hhost.
  destruct (str_in "." (lower (host request))); [|reflexivity].
  destruct Hhost as [?| ->]; [discriminate | reflexivity].
Qed.

Lemma database_failure_per_endpoint_witness :
  let request := chat_request "pepe.restaurant-ai.com" [] [("message", JStr "hi")] in
  let w := database_down (world_with [pepe] [pepe_taco] false ConnectionFailed) in
  @handle_menu ascii_text request w =
    (Raise PostgresError, tick_pg (emit (PgRestaurantBySubdomain (JStr "pepe")) w)) /\
  @handle_chat ascii_text (new_ai None None) request w =
    (Ok (Failed "Failed to process message"),
     emit (LogError "Chat error") (tick_pg (emit (PgRestaurantBySubdomain (JStr "pepe")) w))).
Proof.
  intros request w.
  exact (@database_failure_per_endpoint ascii_text (new_ai None None) request w
           subdomain (JStr "pepe") "hi" eq_refl eq_refl ltac:(discriminate) eq_refl).
Defined.

Lemma chat_malformed_body_witness :
  let request := request_of "pepe.restaurant-ai.com" "/api/chat" [] None in
  let w := world_with [pepe] [pepe_taco] false ConnectionFailed in
  @handle_chat ascii_text (new_ai None None) request w =
    (Ok (Failed "Failed to process message"), emit (LogError "Chat error") w).
Proof.
  intros request w.
  exact (@chat_malformed_body ascii_text (new_ai None None) request w
           subdomain (JStr "pepe") None eq_refl ltac:(intros m; discriminate)).
Defined.

Lemma unknown_restaurant_not_found_witness :
  let request := chat_request "nobody.restaurant-ai.com" [] [("message", JStr "hi")] in
  let w := world_with [pepe; closed_row (sample_row "n-1" "Nobody's" "nobody" "nobody")]
             [pepe_taco] false ConnectionFailed in
  let w' := tick_pg (emit (PgRestaurantBySubdomain (JStr "nobody")) w) in
  @handle_menu ascii_text request w = (Ok (Failed "Restaurant not found"), w') /\
  @handle_chat ascii_text (new_ai None None) request w = (Ok (Failed "Restaurant not found"), w').
Proof.
  intros request w w'.
  destruct (@unknown_restaurant_not_found ascii_text request w subdomain (JStr "nobody")
              (Some "nobody") eq_refl eq_refl eq_refl) as [Hmenu Hchat].
  split.
  - exact (Hmenu eq_refl).
  - exact (Hchat (new_ai None None) None "hi" eq_refl eq_refl ltac:(discriminate)).
Defined.

Lemma lookup_returns_first_active_match_witness :
  let w := world_with [closed_row luigi; luigi] [] false ConnectionFailed in
  exists res, fst (lookup_route slug (JStr "luigi") w) = Ok res /\
    match res with
    | Some r =>
        exists before row after,
          restaurants w = before ++ row :: after /\
          row_active row = true /\ route_key slug row = "luigi" /\
          r = dict_of_row (route_has_slug slug) row /\
          (r_slug r = None <-> slug = subdomain) /\
          forall x, In x before -> row_active x = false \/ route_key slug x <> "luigi"
    | None =>
        forall row, In row (restaurants w) ->
                    row_active row = false \/ route_key slug row <> "luigi"
    end.
Proof.
  intros w. exact (lookup_returns_first_active_match slug "luigi" w eq_refl).
Defined.

Lemma slug_path_resolves_witness :
  @get_restaurant_from_request ascii_text (request_of "localhost:8080" "/r/luigi/menu" [] None)
  = (Some slug, JStr "luigi").
Proof.
  apply (@slug_path_resolves ascii_text (request_of "localhost:8080" "/r/luigi/menu" [] None)
           "luigi" "menu").
  - left. reflexivity.
  - reflexivity.
  - right. reflexivity.
Defined.

(** ** The home page *)

Lemma replace_from_absent (old new s : string) :
  str_in old s = false -> replace_from old new 0 s = s.
Proof.
  induction s as [|c s IH]; intros Hs; [reflexivity|].
  cbn [str_in] in Hs. apply orb_false_iff in Hs as [Hp Hs].
  cbn [replace_from]. rewrite Hp. now rewrite (IH Hs).
Qed.

Section HomePage.

Context `{PyText}.

(** X16. The home page of a restaurant is never served to a request that is
    routed by subdomain: the dictionary [get_restaurant_by_subdomain] returns
    has no key [slug], which [handle_index] reads. Such a request gets the 404
    of an unknown restaurant or an exception; once the restaurant is found and
    the template is read, the exception is [KeyError] ([TypeError] when the
    restaurant has no assistant name). *)
Theorem index_fails_on_subdomain_route read_template request ident w :
  get_restaurant_from_request request = (Some subdomain, ident) ->
  match fst (handle_index read_template request w) with
  | Ok (Page status text) => status = 404 /\ text = "Restaurant not found"
  | Raise _ => True
  end /\
  forall html p r,
    read_template = Ok html ->
    pg_fault w (pg_ops w) = false ->
    text_param ident = Ok p ->
    select_by_subdomain p (restaurants w) = Some r ->
    fst (handle_index read_template request w) =
      Raise (match r_ai_name r with Some _ => KeyError | None => TypeError end).
Proof.
  intros Hroute. unfold handle_index. rewrite Hroute. unfold bind.
  rewrite (lookup_route_run subdomain ident). cbn [select_route route_event].
  assert (Hslug : forall p r, select_by_subdomain p (restaurants w) = Some r -> r_slug r = None).
  { intros p r. unfold select_by_subdomain.
    destruct (find _ (restaurants w)); [|discriminate]. now intros [= <-]. }
  split.
  - destruct (pg_fault w (pg_ops w)); [exact I|].
    destruct (text_param ident) as [p|e]; [|exact I].
    destruct (select_by_subdomain p (restaurants w)) as [r|] eqn:Hsel; [|now split].
    unfold lift. destruct read_template as [html|e]; [|exact I]. cbv beta iota.
    unfold replace_opt. destruct (r_ai_name r); [|exact I]. cbv beta iota.
    unfold getitem_slug. now rewrite (Hslug p r Hsel).
  - intros html p r -> Hpg Hp Hsel. rewrite Hpg, Hp, Hsel.
    unfold lift. cbv beta iota.
    unfold replace_opt. destruct (r_ai_name r); [|reflexivity]. cbv beta iota.
    unfold getitem_slug. now rewrite (Hslug p r Hsel).
Qed.

(** X17. The home page reached through [/r/<slug>], once the restaurant is found
    and the template is read. A restaurant with no assistant name gets a
    [TypeError]. Any other gets, with status 200, the template in which first
    every [AI Restaurant] is replaced by the restaurant's name, then every
    [Sophie] by the assistant's name, then every closing [body] tag by the
    script with the restaurant's id, name, assistant name and slug followed by
    the tag; a template that has none of the three marks is served as it
    is. *)
Theorem index_page_on_slug_route request ident w html p r :
  get_restaurant_from_request request = (Some slug, ident) ->
  pg_fault w (pg_ops w) = false ->
  text_param ident = Ok p ->
  select_by_slug p (restaurants w) = Some r ->
  exists slug_,
    r_slug r = Some slug_ /\
    match r_ai_name r with
    | None => fst (handle_index (Ok html) request w) = Raise TypeError
    | Some ai_name =>
        let named := replace (replace html "AI Restaurant" (r_name r)) "Sophie" ai_name in
        let data := restaurant_data (r_id r) (r_name r) ai_name slug_ in
        fst (handle_index (Ok html) request w)
          = Ok (Page 200 (replace named "</body>" (data +:+ "</body>"))) /\
        (str_in "AI Restaurant" html = false -> str_in "Sophie" html = false ->
         str_in "</body>" html = false ->
         replace named "</body>" (data +:+ "</body>") = html)
    end.
Proof.
  intros Hroute Hpg Hp Hsel. unfold handle_index. rewrite Hroute. unfold bind.
  rewrite (lookup_route_run slug ident), Hpg, Hp. cbn [select_route]. rewrite Hsel.
  unfold lift. cbv beta iota.
  assert (Hslug : exists s, r_slug r = Some s).
  { unfold select_by_slug in Hsel.
    destruct (find _ (restaurants w)); [|discriminate]. injection Hsel as <-. cbn. eauto. }
  destruct Hslug as (s & Hs). exists s. split; [exact Hs|].
  unfold replace_opt. destruct (r_ai_name r) as [ai_name|]; [|reflexivity]. cbv beta iota.
  unfold getitem_slug. rewrite Hs. cbv beta iota. cbn [str_of_opt].
  split; [reflexivity|].
  intros H1 H2 H3. unfold replace.
  now rewrite (replace_from_absent _ _ html H1), (replace_from_absent _ _ html H2),
    (replace_from_absent _ _ html H3).
Qed.

End HomePage.

Lemma index_fails_on_subdomain_route_witness :
  let request := request_of "pepe.restaurant-ai.com" "/" [] None in
  let w := world_with [pepe] [pepe_taco] false ConnectionFailed in
  fst (@handle_index ascii_text (Ok "<html><body>AI Restaurant</body></html>") request w)
  = Raise KeyError.
Proof.
  intros request w.
  destruct (@index_fails_on_subdomain_route ascii_text
              (Ok "<html><body>AI Restaurant</body></html>") request (JStr "pepe") w eq_refl)
    as [_ Hfound].
  exact (Hfound "<html><body>AI Restaurant</body></html>" (Some "pepe") (dict_of_row false pepe)
           eq_refl eq_refl eq_refl eq_refl).
Defined.

Lemma index_page_on_slug_route_witness :
  let request := request_of "localhost:8080" "/r/nonna-pasta" [] None in
  let w := world_with [gina_row] [] false ConnectionFailed in
  fst (@handle_index ascii_text (Ok "<body><h1>AI Restaurant</h1>Ask Sophie!</body>") request w)
  = Ok (Page 200 ("<body><h1>Nonna's</h1>Ask Gina!" +:+
                  restaurant_data "rest-9" "Nonna's" "Gina" "nonna-pasta" +:+ "</body>")).
Proof.
  intros request w.
  destruct (@index_page_on_slug_route ascii_text request (JStr "nonna-pasta") w
              "<body><h1>AI Restaurant</h1>Ask Sophie!</body>" (Some "nonna-pasta")
              (dict_of_row true gina_row) eq_refl eq_refl eq_refl eq_refl)
    as (s & Hs & Hpage & _).
  injection Hs as <-. rewrite Hpage. vm_compute. reflexivity.
Defined.

(** ** The rule engine and the history of [app_clean.py] *)

Lemma remove_nth_perm {A : Type} (i : nat) (l : list A) (d : A) :
  (i < length l)%nat -> Permutation (nth i l d :: Clean.remove_nth i l) l.
Proof.
  revert i. induction l as [|a l IH]; intros i Hi; simpl in Hi; [lia|].
  destruct i as [|i]; simpl; [reflexivity|].
  etransitivity; [apply perm_swap|]. apply perm_skip. apply IH. lia.
Qed.

Lemma sample_loop_perm {A : Type} (k : nat) (pool : list A) (cw : Clean.World) :
  exists l rest cw', Clean.sample_loop k pool cw = (Ok l, cw') /\
                     length l = Nat.min k (length pool) /\
                     Permutation (l ++ rest) pool.
Proof.
  revert pool cw. induction k as [|k IH]; intros pool cw; simpl.
  - exists [], pool, cw. repeat split. reflexivity.
  - destruct pool as [|x pool].
    + exists [], [], cw. repeat split. reflexivity.
    + unfold bind, Clean.randbelow. cbv beta iota.
      set (i := (Clean.random_source cw (Clean.random_used cw) mod length (x :: pool))%nat).
      assert (Hi : (i < length (x :: pool))%nat)
        by (apply Nat.mod_upper_bound; simpl; lia).
      destruct (IH (Clean.remove_nth i (x :: pool)) (Clean.tick_random cw))
        as (l & rest & cw' & -> & Hlen & Hperm).
      eexists _, rest, _. split; [reflexivity|]. split.
      * simpl. rewrite Hlen, remove_nth_length by exact Hi. simpl. lia.
      * cbn [app]. etransitivity; [apply perm_skip, Hperm|]. apply remove_nth_perm, Hi.
Qed.

(** X18. [_get_random_items] never raises and never repeats a dish: it returns
    [min(count, len(menu))] items that stand at different positions of the
    menu. *)
Theorem random_items_without_repetition (menu : list MenuItem) (count : nat)
    (cw : Clean.World) :
  exists items rest cw',
    Clean._get_random_items menu count cw = (Ok items, cw') /\
    length items = Nat.min count (length menu) /\
    Permutation (items ++ rest) menu.
Proof.
  unfold Clean._get_random_items, Clean.random_sample.
  destruct (Nat.ltb_spec (length menu) (Nat.min count (length menu))); [lia|].
  destruct (sample_loop_perm (Nat.min count (length menu)) menu cw)
    as (l & rest & cw' & Hrun & Hlen & Hperm).
  exists l, rest, cw'. split; [exact Hrun|]. split; [lia | exact Hperm].
Qed.

(** X19. A dietary question that names a diet is answered from the menu alone:
    the recommendations are the first two dishes, in menu order, that carry
    the flag of the first keyword among vegetarian, vegan and gluten that the
    message contains; every one of them carries that flag; the list is empty
    only when no dish does; no random number is drawn and nothing changes. *)
Theorem dietary_query_filters_by_flag (menu : list MenuItem) (m : string)
    (flag : MenuItem -> bool) (cw : Clean.World) :
  dietary_flag m = Some flag ->
  exists text,
    Clean._handle_dietary_query menu m cw =
      (Ok {| Clean.message := text; Clean.recommendations := firstn 2 (List.filter flag menu) |},
       cw) /\
    (forall item, In item (firstn 2 (List.filter flag menu)) ->
                  flag item = true /\ In item menu) /\
    (firstn 2 (List.filter flag menu) = [] <-> forall item, In item menu -> flag item = false).
Proof.
  intros Hflag.
  assert (Hrun : exists text,
            Clean._handle_dietary_query menu m cw =
              (Ok {| Clean.message := text;
                     Clean.recommendations := firstn 2 (List.filter flag menu) |}, cw)).
  { unfold dietary_flag in Hflag. unfold Clean._handle_dietary_query, bind.
    destruct (str_in "vegetarian" m); [injection Hflag as <-; unfold ret; eauto|].
    destruct (str_in "vegan" m); [injection Hflag as <-; unfold ret; eauto|].
    destruct (str_in "gluten" m); [injection Hflag as <-; unfold ret; eauto|].
    discriminate. }
  destruct Hrun as (text & Hrun). exists text. split; [exact Hrun|]. split.
  - intros item Hin. apply in_firstn in Hin. apply filter_In in Hin. tauto.
  - split.
    + intros Hnil item Hin. destruct (flag item) eqn:Hf; [|reflexivity].
      assert (Hin' : In item (List.filter flag menu)) by (apply filter_In; auto).
      destruct (List.filter flag menu); [contradiction | discriminate].
    + intros Hnone. destruct (List.filter flag menu) as [|x l] eqn:Hfl; [reflexivity|].
      assert (Hin : In x (List.filter flag menu)) by (rewrite Hfl; now left).
      apply filter_In in Hin as [Hin Hx]. rewrite (Hnone x Hin) in Hx. discriminate.
Qed.

(** *** What the rule engine leaves alone *)

Lemma rule_frame_refl cw : rule_frame cw cw.
Proof. repeat split. Qed.

Lemma rule_frame_trans cw1 cw2 cw3 :
  rule_frame cw1 cw2 -> rule_frame cw2 cw3 -> rule_frame cw1 cw3.
Proof. unfold rule_frame. intros (? & ? & ?) (? & ? & ?). repeat split; congruence. Qed.

Lemma keeps_ret {A : Type} (a : A) : keeps (ret a).
Proof. intros cw. apply rule_frame_refl. Qed.

Lemma keeps_raise {A : Type} (e : Exn) : keeps (@raise Clean.World A e).
Proof. intros cw. apply rule_frame_refl. Qed.

Lemma keeps_lift {A : Type} (r : Result A) : keeps (lift r).
Proof. intros cw. apply rule_frame_refl. Qed.

Lemma keeps_gets {A : Type} (f : Clean.World -> A) : keeps (gets f).
Proof. intros cw. apply rule_frame_refl. Qed.

Lemma keeps_bind {A B : Type} (c : M Clean.World A) (k : A -> M Clean.World B) :
  keeps c -> (forall a, keeps (k a)) -> keeps (bind c k).
Proof.
  intros Hc Hk cw. unfold bind. specialize (Hc cw).
  destruct (c cw) as [[a|e] cw1]; [|exact Hc].
  eapply rule_frame_trans; [exact Hc | apply Hk].
Qed.

Lemma keeps_randbelow (n : nat) : keeps (Clean.randbelow n).
Proof. intros cw. repeat split. Qed.

Lemma keeps_set_greeting_used (b : bool) : keeps (modify (Clean.set_greeting_used b)).
Proof. intros cw. repeat split. Qed.

Lemma keeps_random_choice {A : Type} (seq : list A) : keeps (Clean.random_choice seq).
Proof.
  destruct seq as [|x seq]; [apply keeps_raise|].
  apply keeps_bind; [apply keeps_randbelow | intros i; apply keeps_ret].
Qed.

Lemma keeps_sample_loop {A : Type} (k : nat) (pool : list A) : keeps (Clean.sample_loop k pool).
Proof.
  revert pool. induction k as [|k IH]; intros pool; simpl; [apply keeps_ret|].
  destruct pool as [|x pool]; [apply keeps_ret|].
  apply keeps_bind; [apply keeps_randbelow | intros i].
  apply keeps_bind; [apply IH | intros rest; apply keeps_ret].
Qed.

Lemma keeps_get_random_items (menu : list MenuItem) (count : nat) :
  keeps (Clean._get_random_items menu count).
Proof.
  unfold Clean._get_random_items, Clean.random_sample.
  destruct (_ <? _)%nat; [apply keeps_raise | apply keeps_sample_loop].
Qed.

(** Goals [keeps c] for a computation built from the pieces above. *)
Ltac keeps_tac :=
  repeat first
    [ apply keeps_ret | apply keeps_raise | apply keeps_lift | apply keeps_gets
    | apply keeps_randbelow | apply keeps_set_greeting_used
    | apply keeps_random_choice | apply keeps_get_random_items
    | apply keeps_bind; [|intros ?]
    | match goal with
      | |- keeps (if ?b then _ else _) => destruct b
      | |- keeps (match ?x with _ => _ end) => destruct x
      | |- keeps (let '(_, _) := ?x in _) => destruct x
      end ].

Lemma only_errors_nil : only_errors [].
Proof. intros e []. Qed.

Lemma only_errors_app l1 l2 : only_errors l1 -> only_errors l2 -> only_errors (l1 ++ l2).
Proof. intros H1 H2 e Hin. apply in_app_or in Hin as [?|?]; auto. Qed.

Lemma logs_only_ret {A : Type} (a : A) : logs_only (ret a).
Proof. intros cw. repeat split. exists []. split; [reflexivity | apply only_errors_nil]. Qed.

Lemma logs_only_raise {A : Type} (e : Exn) : logs_only (@raise Clean.World A e).
Proof. intros cw. repeat split. exists []. split; [reflexivity | apply only_errors_nil]. Qed.

Lemma logs_only_lift {A : Type} (r : Result A) : logs_only (lift r).
Proof. intros cw. repeat split. exists []. split; [reflexivity | apply only_errors_nil]. Qed.

Lemma logs_only_log_error (msg : string) : logs_only (Clean.log_error msg).
Proof.
  intros cw. repeat split. exists [Clean.LogError msg]. split; [reflexivity|].
  intros e [<-|[]]. eauto.
Qed.

Lemma logs_only_bind {A B : Type} (c : M Clean.World A) (k : A -> M Clean.World B) :
  logs_only c -> (forall a, logs_only (k a)) -> logs_only (bind c k).
Proof.
  intros Hc Hk cw. unfold bind. specialize (Hc cw).
  destruct (c cw) as [[a|e] cw1]; [|exact Hc]. cbn [snd] in Hc.
  destruct Hc as (Hh & Hb & pre1 & Ht & He).
  destruct (Hk a cw1) as (Hh2 & Hb2 & pre2 & Ht2 & He2).
  split; [congruence|]. split; [congruence|].
  exists (pre2 ++ pre1). split; [now rewrite Ht2, Ht, app_assoc | now apply only_errors_app].
Qed.

Lemma logs_only_try_except {A : Type} (c : M Clean.World A) (handler : Exn -> M Clean.World A) :
  logs_only c -> (forall e, logs_only (handler e)) -> logs_only (try_except c handler).
Proof.
  intros Hc Hk cw. unfold try_except. specialize (Hc cw).
  destruct (c cw) as [[a|e] cw1]; [exact Hc|]. cbn [snd] in Hc.
  destruct Hc as (Hh & Hb & pre1 & Ht & He).
  destruct (Hk e cw1) as (Hh2 & Hb2 & pre2 & Ht2 & He2).
  split; [congruence|]. split; [congruence|].
  exists (pre2 ++ pre1). split; [now rewrite Ht2, Ht, app_assoc | now apply only_errors_app].
Qed.

(** Goals [logs_only c] for a computation built from the pieces above. *)
Ltac logs_tac :=
  repeat first
    [ apply logs_only_ret | apply logs_only_raise | apply logs_only_lift
    | apply logs_only_log_error
    | apply logs_only_bind; [|intros ?]
    | apply logs_only_try_except; [|intros ?]
    | match goal with
      | |- logs_only (if ?b then _ else _) => destruct b
      | |- logs_only (match ?x with _ => _ end) => destruct x
      end ].

Section History.

Context `{PyText}.
Variable menu : list MenuItem.

Lemma keeps_fallback (user_message : string) :
  keeps (Clean._generate_fallback_response menu user_message).
Proof.
  unfold Clean._generate_fallback_response.
  destruct (Clean._is_greeting _); [unfold Clean._handle_greeting; keeps_tac|].
  destruct (Clean._is_menu_query _); [unfold Clean._handle_menu_query; keeps_tac|].
  destruct (Clean._is_dietary_query _); [unfold Clean._handle_dietary_query; keeps_tac|].
  destruct (Clean._is_recommendation_request _); [keeps_tac|].
  destruct (Clean._is_specific_item_query _ _);
    [unfold Clean._handle_specific_item_query; keeps_tac|].
  unfold Clean._handle_general_conversation; keeps_tac.
Qed.

(** What a call of the backend does: nothing without a service; with one,
    the POST, and then errors only are logged. *)
Lemma call_openai_api_run self messages cw :
  match Clean.ai_service self with
  | None =>
      Clean._call_openai_api self messages cw =
        (Raise (ValueError "No AI service configured"), cw)
  | Some service =>
      exists k, logs_only k /\
        Clean._call_openai_api self messages cw =
          k (Clean.emit (Clean.BackendPost (fst (clean_endpoint service))
                           (snd (clean_endpoint service)) messages) cw)
  end.
Proof.
  unfold Clean._call_openai_api.
  destruct (Clean.ai_service self) as [service|]; [|reflexivity].
  destruct service; cbn [clean_endpoint fst snd]; unfold bind at 1; cbv beta iota;
    (eexists; split; [|reflexivity]); logs_tac.
Qed.

Lemma call_openai_api_history self messages cw :
  Clean.conversation_history (snd (Clean._call_openai_api self messages cw))
  = Clean.conversation_history cw.
Proof.
  pose proof (call_openai_api_run self messages cw) as Hrun.
  destruct (Clean.ai_service self) as [service|].
  - destruct Hrun as (k & Hk & ->).
    match goal with |- context [k ?w] => now destruct (Hk w) as (-> & _) end.
  - now rewrite Hrun.
Qed.

(** X20. The history is append-only, and only the backend's words are recorded as
    the assistant's. A turn first appends the user's message. With no backend
    in use the rule engine answers and nothing more is appended. With a
    backend in use it is called with the system prompt and the last six
    entries: when it gives a text, that text is the answer and is appended
    after the user's message; when the call fails, the rule engine answers
    and its answer is not recorded. *)
Theorem history_records_each_turn self user_message cw :
  let cw0 := Clean.append_history (user_entry user_message) cw in
  let messages :=
    {| Clean.role := "system"; Clean.content := Clean.system_prompt self |}
      :: Clean.last6 (Clean.conversation_history cw0) in
  let '(res, cw') := Clean.generate_response menu self user_message cw in
  if Clean.use_ai_model self then
    match Clean._call_openai_api self messages cw0 with
    | (Ok reply, _) =>
        res = Ok {| Clean.message := reply;
                    Clean.recommendations := Clean._extract_recommendations menu reply |} /\
        Clean.conversation_history cw' =
          Clean.conversation_history cw ++ [user_entry user_message; assistant_entry reply]
    | (Raise _, cw1) =>
        (res, cw') = Clean._generate_fallback_response menu user_message
                       (Clean.emit (Clean.LogError "AI API error") cw1) /\
        Clean.conversation_history cw' =
          Clean.conversation_history cw ++ [user_entry user_message]
    end
  else
    (res, cw') = Clean._generate_fallback_response menu user_message cw0 /\
    Clean.conversation_history cw' =
      Clean.conversation_history cw ++ [user_entry user_message].
Proof.
  intros cw0 messages. unfold Clean.generate_response, bind, modify. cbv beta iota.
  fold (user_entry user_message). fold cw0.
  assert (Hfb : forall cw1,
            Clean.conversation_history cw1 = Clean.conversation_history cw0 ->
            Clean.conversation_history
              (snd (Clean._generate_fallback_response menu user_message cw1)) =
            Clean.conversation_history cw ++ [user_entry user_message]).
  { intros cw1 H1. pose proof (keeps_fallback user_message cw1) as (Hh & _).
    now rewrite Hh, H1. }
  destruct (Clean.use_ai_model self) eqn:Huse.
  2:{ specialize (Hfb cw0 eq_refl).
      destruct (Clean._generate_fallback_response menu user_message cw0) as [res cw'].
      split; [reflexivity | exact Hfb]. }
  unfold Clean._generate_ai_response, try_except, bind, gets. cbv beta iota.
  fold messages.
  pose proof (call_openai_api_history self messages cw0) as Hh.
  destruct (Clean._call_openai_api self messages cw0) as [[reply|e] cw1]; cbn [snd] in Hh.
  - unfold modify, ret. split; [reflexivity|].
    cbn. rewrite Hh. cbn. now rewrite <- app_assoc.
  - unfold Clean.log_error, modify. cbv beta iota.
    specialize (Hfb (Clean.emit (Clean.LogError "AI API error") cw1) Hh).
    destruct (Clean._generate_fallback_response menu user_message _) as [res cw'].
    split; [reflexivity | exact Hfb].
Qed.

Lemma last6_bound {A : Type} (l : list A) : (length (Clean.last6 l) <= 6)%nat.
Proof. unfold Clean.last6. rewrite length_skipn. lia. Qed.

Lemma last6_snoc {A : Type} (l : list A) (x d : A) : List.last (Clean.last6 (l ++ [x])) d = x.
Proof.
  unfold Clean.last6. rewrite length_app. simpl.
  destruct (Nat.le_gt_cases (length l + 1) 6) as [Hle|Hgt].
  - replace (length l + 1 - 6)%nat with 0%nat by lia. simpl. apply last_last.
  - rewrite skipn_app. replace (length l + 1 - 6 - length l)%nat with 0%nat by lia.
    simpl. apply last_last.
Qed.

(** X21. With a backend configured, every turn sends it exactly one POST, to the
    address of the configured service, and logs nothing else but errors. The
    messages sent are the system prompt followed by the last six entries of
    the history, the user's message of this turn included: at most seven,
    the last one being the user's message. *)
Theorem backend_receives_recent_history self service user_message cw :
  Clean.use_ai_model self = true ->
  Clean.ai_service self = Some service ->
  let history := Clean.conversation_history cw ++ [user_entry user_message] in
  let system := {| Clean.role := "system"; Clean.content := Clean.system_prompt self |} in
  let messages := system :: Clean.last6 history in
  (exists pre,
     Clean.trace (snd (Clean.generate_response menu self user_message cw)) =
       pre ++ Clean.BackendPost (fst (clean_endpoint service)) (snd (clean_endpoint service))
                messages :: Clean.trace cw /\
     only_errors pre) /\
  (length messages <= 7)%nat /\
  List.last messages system = user_entry user_message.
Proof.
  intros Huse Hs history system messages. split; [|split].
  - unfold Clean.generate_response, bind, modify. cbv beta iota. rewrite Huse.
    set (cw0 := Clean.append_history _ cw).
    unfold Clean._generate_ai_response, try_except, bind, gets. cbv beta iota.
    change (Clean.conversation_history cw0) with history.
    change ({| Clean.role := "system"; Clean.content := Clean.system_prompt self |}
              :: Clean.last6 history) with messages.
    pose proof (call_openai_api_run self messages cw0) as Hrun. rewrite Hs in Hrun.
    destruct Hrun as (k & Hk & ->).
    set (cw1 := Clean.emit _ cw0).
    destruct (Hk cw1) as (_ & _ & pre & Hpre & Herr).
    destruct (k cw1) as [[reply|e] cw2]; cbn [snd] in Hpre.
    + unfold modify, ret. cbn. exists pre. split; [exact Hpre | exact Herr].
    + unfold Clean.log_error, modify. cbv beta iota.
      pose proof (keeps_fallback user_message
                    (Clean.emit (Clean.LogError "AI API error") cw2)) as (_ & Ht & _).
      rewrite Ht. cbn. exists (Clean.LogError "AI API error" :: pre).
      split; [now rewrite Hpre|].
      intros ev [<-|Hin]; [eauto | now apply Herr].
  - subst messages. simpl. pose proof (last6_bound history). lia.
  - subst messages history.
    destruct (Clean.last6 (Clean.conversation_history cw ++ [user_entry user_message]))
      as [|y l] eqn:Hl.
    + exfalso. apply (f_equal (fun l => List.last l system)) in Hl.
      rewrite last6_snoc in Hl. simpl in Hl. subst system. discriminate.
    + change (List.last (system :: y :: l) system) with (List.last (y :: l) system).
      rewrite <- Hl. apply last6_snoc.
Qed.

Lemma fallback_total (user_message : string) (cw : Clean.World) :
  menu <> [] ->
  exists answer cw', Clean._generate_fallback_response menu user_message cw = (Ok answer, cw').
Proof.
  intros Hne. unfold Clean._generate_fallback_response.
  destruct (Clean._is_greeting _).
  { destruct (handle_greeting_run menu cw) as (text & cw' & Hrun & _). eauto. }
  destruct (Clean._is_menu_query _).
  { destruct (handle_menu_query_total menu (strip (lower user_message)) cw Hne)
      as (a & cw' & Hrun & _). eauto. }
  destruct (Clean._is_dietary_query _); [apply handle_dietary_query_total|].
  destruct (Clean._is_recommendation_request _); [unfold ret; eauto|].
  destruct (Clean._is_specific_item_query _ _).
  { destruct (handle_specific_item_query_total menu (strip (lower user_message)) cw Hne)
      as (a & cw' & Hrun & _). eauto. }
  destruct (handle_general_conversation_total menu (strip (lower user_message)) cw Hne)
    as (a & cw' & Hrun & _). eauto.
Qed.

Lemma clean_generate_response_total self (user_message : string) (cw : Clean.World) :
  menu <> [] ->
  exists answer cw', Clean.generate_response menu self user_message cw = (Ok answer, cw').
Proof.
  intros Hne. unfold Clean.generate_response, bind, modify. cbv beta iota.
  destruct (Clean.use_ai_model self); [|now apply fallback_total].
  unfold Clean._generate_ai_response, try_except.
  match goal with |- context [match ?c ?w with _ => _ end] =>
    destruct (c w) as [[a|e] cw1] end; [eauto|].
  unfold bind, Clean.log_error, modify. cbv beta iota. now apply fallback_total.
Qed.

(** X22. The chat endpoint of [app_clean.py], for a menu that is not empty: a body
    that is a JSON object with a text message that is not blank is always
    answered 200, with the answer [generate_response] gives for the stripped
    message, whatever the backend does; every other body gets the 500 with
    the apology, and then nothing but the log changes. *)
Theorem clean_chat_status self body cw :
  menu <> [] ->
  match message_field body with
  | Some (JStr m) =>
      if String.eqb (strip m) "" then
        Clean._handle_chat menu self body cw =
          (Ok (Clean.Sent500 apology), Clean.emit (Clean.LogError "Chat error") cw)
      else
        exists answer cw',
          Clean.generate_response menu self (strip m) cw = (Ok answer, cw') /\
          Clean._handle_chat menu self body cw =
            (Ok (Clean.Sent200 (Clean.message answer) (Clean.recommendations answer)), cw')
  | _ =>
      Clean._handle_chat menu self body cw =
        (Ok (Clean.Sent500 apology), Clean.emit (Clean.LogError "Chat error") cw)
  end.
Proof.
  intros Hne. unfold message_field, Clean._handle_chat, try_except, bind, lift.
  destruct body as [[| | | | |fields]|]; try reflexivity.
  cbn [dict_get].
  destruct (assoc "message" fields) as [[| | |m| |]|]; try reflexivity; cbv beta iota.
  all: match goal with |- context [String.eqb (strip ?m) ""] =>
         destruct (String.eqb (strip m) ""); [reflexivity|];
         destruct (clean_generate_response_total self (strip m) cw Hne) as (a & cw' & Hrun);
         exists a, cw'; split; [exact Hrun|];
         unfold ret at 1; cbv beta iota; now rewrite Hrun
       end.
Qed.

End History.

(** X23. The banner [run_server] prints and the service the assistant uses are
    decided by two tests in opposite orders: they name the same service
    unless both keys are set, and then the banner announces Groq while the
    assistant calls OpenAI. *)
Theorem banner_names_the_service (groq_key openai_key : option string) (prompt : string) :
  if Clean.key_present groq_key && Clean.key_present openai_key then
    Clean.ai_status groq_key openai_key = Clean.AiPoweredGroq /\
    Clean.ai_service (Clean.new_assistant openai_key groq_key prompt) = Some Clean.openai
  else
    banner_service (Clean.ai_status groq_key openai_key)
    = Clean.ai_service (Clean.new_assistant openai_key groq_key prompt).
Proof.
  unfold Clean.ai_status, Clean.new_assistant. cbn [Clean.ai_service].
  destruct (Clean.key_present groq_key), (Clean.key_present openai_key); cbn; auto.
Qed.

Lemma dietary_query_filters_by_flag_witness :
  exists text,
    Clean._handle_dietary_query Clean.MENU_DATA "vegan or vegetarian?" quiet_process =
      (Ok {| Clean.message := text;
             Clean.recommendations := firstn 2 (List.filter item_vegetarian Clean.MENU_DATA) |},
       quiet_process) /\
    (forall item, In item (firstn 2 (List.filter item_vegetarian Clean.MENU_DATA)) ->
                  item_vegetarian item = true /\ In item Clean.MENU_DATA) /\
    (firstn 2 (List.filter item_vegetarian Clean.MENU_DATA) = [] <->
     forall item, In item Clean.MENU_DATA -> item_vegetarian item = false).
Proof.
  exact (dietary_query_filters_by_flag Clean.MENU_DATA "vegan or vegetarian?" item_vegetarian
           quiet_process eq_refl).
Defined.

Lemma backend_receives_recent_history_witness :
  let self := Clean.new_assistant (Some "sk-test") None "You are Sophie" in
  let system := {| Clean.role := "system"; Clean.content := "You are Sophie" |} in
  let messages := [system; user_entry "hello"] in
  (exists pre,
     Clean.trace (snd (@Clean.generate_response ascii_text Clean.MENU_DATA self "hello"
                         quiet_process)) =
       pre ++ [Clean.BackendPost "https://api.openai.com/v1/chat/completions" "gpt-3.5-turbo"
                 messages] /\
     only_errors pre) /\
  (length messages <= 7)%nat /\
  List.last messages system = user_entry "hello".
Proof.
  intros self system messages.
  exact (@backend_receives_recent_history ascii_text Clean.MENU_DATA self Clean.openai "hello"
           quiet_process eq_refl eq_refl).
Defined.

Lemma clean_chat_status_witness :
  exists answer cw',
    @Clean.generate_response ascii_text Clean.MENU_DATA rule_based "hello" quiet_process
      = (Ok answer, cw') /\
    @Clean._handle_chat ascii_text Clean.MENU_DATA rule_based (hello_from "alice") quiet_process
      = (Ok (Clean.Sent200 (Clean.message answer) (Clean.recommendations answer)), cw').
Proof.
  exact (@clean_chat_status ascii_text Clean.MENU_DATA rule_based (hello_from "alice")
           quiet_process ltac:(discriminate)).
Defined.

(** ** A menu that is cached *)

(** X24. A menu that is in the cache is what the menu listing returns: with
    Redis answering and a list that is not empty under the restaurant's id,
    the listing sends one statement (the restaurant lookup) and one read to
    Redis, and never looks at the table of menu items, whatever it holds by
    now. *)
Theorem menu_listing_served_from_cache `{PyText} request w rt ident p r t items :
  menu_route request = (Some rt, ident) ->
  pg_fault w (pg_ops w) = false ->
  text_param ident = Ok p ->
  select_route rt p (restaurants w) = Some r ->
  redis_fault w (redis_ops w) = false ->
  redis_menu w !! r_id r = Some (t, items) ->
  items <> [] ->
  handle_menu request w =
    (Ok (MenuOk (r_id r) (r_name r) items (length items)),
     tick_redis (emit (RedisGet ("menu:" +:+ r_id r)) (tick_pg (emit (route_event rt ident) w)))).
Proof.
  intros Hroute Hpg Hp Hsel Hredis Hhit Hne. unfold handle_menu.
  unfold menu_route in Hroute.
  destruct (get_restaurant_from_request request) as [r0 i0]. rewrite Hroute.
  unfold bind. rewrite (lookup_route_run rt ident), Hpg, Hp, Hsel. cbv beta iota.
  rewrite get_menu_run. cbn [redis_fault redis_ops redis_menu tick_pg emit].
  rewrite Hredis, Hhit. cbn [fmap option_fmap option_map snd menu_missing].
  destruct items as [|x items]; [congruence|]. reflexivity.
Qed.

Lemma menu_listing_served_from_cache_witness :
  let request := menu_request "pepe.restaurant-ai.com" [] in
  let w0 := world_with [pepe] [] false ConnectionFailed in
  let w := snd (set_menu "pepe" [sample_item 1 "Taco"] w0) in
  menu_items w = [] /\
  fst (@handle_menu ascii_text request w)
    = Ok (MenuOk "pepe" "Pepe's Cantina" [sample_item 1 "Taco"] 1) /\
  pg_ops (snd (@handle_menu ascii_text request w)) = S (pg_ops w).
Proof.
  intros request w0 w.
  pose proof (@menu_listing_served_from_cache ascii_text request w subdomain (JStr "pepe")
                (Some "pepe") (dict_of_row false pepe) ttl [sample_item 1 "Taco"]
                eq_refl eq_refl eq_refl eq_refl eq_refl eq_refl ltac:(discriminate)) as Hrun.
  rewrite Hrun. repeat split.
Defined.

(** ** Without a key, nothing is sent to the backend *)

Lemma no_post_nil : no_post [].
Proof. intros url model prompt message []. Qed.

Lemma no_post_app l1 l2 : no_post l1 -> no_post l2 -> no_post (l1 ++ l2).
Proof.
  intros H1 H2 url model prompt message Hin.
  apply in_app_or in Hin as [Hin|Hin]; [eapply H1 | eapply H2]; exact Hin.
Qed.

Lemma no_post_cons e l :
  (forall url model prompt message, e <> BackendPost url model prompt message) ->
  no_post l -> no_post (e :: l).
Proof.
  intros He Hl url model prompt message [Heq|Hin]; [eapply He | eapply Hl]; eauto.
Qed.

Lemma offline_here {A : Type} (c : M World A) :
  (forall w, snd (c w) = w) -> offline c.
Proof. intros Hc w. exists []. rewrite Hc. split; [reflexivity | apply no_post_nil]. Qed.

Lemma offline_ret {A : Type} (a : A) : offline (ret a).
Proof. now apply offline_here. Qed.

Lemma offline_raise {A : Type} (e : Exn) : offline (@raise World A e).
Proof. now apply offline_here. Qed.

Lemma offline_lift {A : Type} (r : Result A) : offline (lift r).
Proof. now apply offline_here. Qed.

Lemma offline_gets {A : Type} (f : World -> A) : offline (gets f).
Proof. now apply offline_here. Qed.

Lemma offline_log_error (msg : string) : offline (log_error msg).
Proof.
  intros w. exists [LogError msg]. split; [reflexivity|].
  apply no_post_cons; [discriminate | apply no_post_nil].
Qed.

Lemma offline_bind {A B : Type} (c : M World A) (k : A -> M World B) :
  offline c -> (forall a, offline (k a)) -> offline (bind c k).
Proof.
  intros Hc Hk w. unfold bind. destruct (Hc w) as (pre1 & Ht & Hn).
  destruct (c w) as [[a|e] w1]; cbn [snd] in Ht; [|now exists pre1].
  destruct (Hk a w1) as (pre2 & Ht2 & Hn2).
  exists (pre2 ++ pre1). split; [now rewrite Ht2, Ht, app_assoc | now apply no_post_app].
Qed.

Lemma offline_try_except {A : Type} (c : M World A) (handler : Exn -> M World A) :
  offline c -> (forall e, offline (handler e)) -> offline (try_except c handler).
Proof.
  intros Hc Hk w. unfold try_except. destruct (Hc w) as (pre1 & Ht & Hn).
  destruct (c w) as [[a|e] w1]; cbn [snd] in Ht; [now exists pre1|].
  destruct (Hk e w1) as (pre2 & Ht2 & Hn2).
  exists (pre2 ++ pre1). split; [now rewrite Ht2, Ht, app_assoc | now apply no_post_app].
Qed.

(** A command sent to Redis or to PostgreSQL, whose effect leaves the trace
    alone. *)
Lemma offline_redis_command {A : Type} (e : Event) (run : World -> A * World) :
  (forall url model prompt message, e <> BackendPost url model prompt message) ->
  (forall w, trace (snd (run w)) = trace w) ->
  offline (redis_command e run).
Proof.
  intros He Hrun w. unfold redis_command. exists [e].
  split; [|apply no_post_cons; [exact He | apply no_post_nil]].
  destruct (redis_fault w (redis_ops w)); [reflexivity|].
  specialize (Hrun (tick_redis (emit e w))).
  destruct (run (tick_redis (emit e w))) as [a w2]. cbn [snd] in *. now rewrite Hrun.
Qed.

Lemma offline_pg_command {A : Type} (e : Event) (run : World -> A * World) :
  (forall url model prompt message, e <> BackendPost url model prompt message) ->
  (forall w, trace (snd (run w)) = trace w) ->
  offline (pg_command e run).
Proof.
  intros He Hrun w. unfold pg_command. exists [e].
  split; [|apply no_post_cons; [exact He | apply no_post_nil]].
  destruct (pg_fault w (pg_ops w)); [reflexivity|].
  specialize (Hrun (tick_pg (emit e w))).
  destruct (run (tick_pg (emit e w))) as [a w2]. cbn [snd] in *. now rewrite Hrun.
Qed.

Lemma offline_add_conversation (f : World -> Conversation) :
  offline (modify (fun w => add_conversation (f w) w)).
Proof. intros w. exists []. split; [reflexivity | apply no_post_nil]. Qed.

(** Goals [offline c] for a computation built from the pieces above. *)
Ltac offline_tac :=
  repeat first
    [ apply offline_ret | apply offline_raise | apply offline_lift | apply offline_gets
    | apply offline_log_error | apply offline_add_conversation
    | apply offline_redis_command; [discriminate | reflexivity]
    | apply offline_pg_command; [discriminate | reflexivity]
    | apply offline_bind; [|intros ?]
    | apply offline_try_except; [|intros ?]
    | match goal with
      | |- offline (if ?b then _ else _) => destruct b
      | |- offline (match ?x with _ => _ end) => destruct x
      end ].

Section Offline.

Context `{PyText}.

Lemma offline_lookup_route rt ident : offline (lookup_route rt ident).
Proof.
  destruct rt; unfold lookup_route, get_restaurant_by_subdomain, get_restaurant_by_slug;
    offline_tac.
Qed.

Lemma offline_generate_response ai rid m sid :
  ai_service ai = None -> offline (generate_response ai rid m sid).
Proof.
  intros Hs. unfold generate_response. rewrite Hs.
  unfold fetch_restaurant, fetch_menu, get_restaurant, set_restaurant, get_menu, set_menu,
    get_restaurant_by_subdomain, get_menu_items, log_conversation.
  offline_tac.
Qed.

(** X25. The menu listing and the home page never call the generative backend,
    and with no API key in the environment neither does a chat turn: nothing
    of a conversation leaves the process. *)
Theorem no_key_no_backend_call ai read_template request w :
  (exists pre, trace (snd (handle_menu request w)) = pre ++ trace w /\ no_post pre) /\
  (exists pre, trace (snd (handle_index read_template request w)) = pre ++ trace w /\
               no_post pre) /\
  (ai_service ai = None ->
   exists pre, trace (snd (handle_chat ai request w)) = pre ++ trace w /\ no_post pre).
Proof.
  split; [|split].
  - revert w. change (offline (handle_menu request)). unfold handle_menu.
    destruct (get_restaurant_from_request request) as [r0 i0].
    destruct (route_from_query request r0 i0) as [[rt|] ident]; [|apply offline_ret].
    apply offline_bind; [apply offline_lookup_route | intros [r|]; [|apply offline_ret]].
    unfold get_menu, set_menu, get_menu_items. offline_tac.
  - revert w. change (offline (handle_index read_template request)). unfold handle_index.
    destruct (get_restaurant_from_request request) as [[rt|] ident]; [|apply offline_ret].
    apply offline_bind; [apply offline_lookup_route | intros [r|]; [|apply offline_ret]].
    offline_tac.
  - intros Hs. revert w. change (offline (handle_chat ai request)). unfold handle_chat.
    destruct (get_restaurant_from_request request) as [r0 i0].
    destruct (route_from_body request r0 i0) as [[[rt|] ident] jd]; [|apply offline_ret].
    apply offline_try_except; [|intros e; offline_tac].
    apply offline_bind; [apply offline_lift | intros data].
    apply offline_bind; [apply offline_lift | intros msg].
    apply offline_bind; [apply offline_lift | intros m].
    apply offline_bind; [apply offline_lift | intros sid].
    destruct (String.eqb m ""); [apply offline_ret|].
    apply offline_bind; [apply offline_lookup_route | intros [r|]; [|apply offline_ret]].
    now apply offline_generate_response.
Qed.

End Offline.

(** ** Adding a restaurant *)

Lemma insert_items_restaurants schema rid idx items db :
  AddRestaurant.db_restaurants (AddRestaurant.insert_items schema rid idx items db)
  = AddRestaurant.db_restaurants db.
Proof.
  revert idx db. induction items as [|item items IH]; intros idx db; [reflexivity|].
  simpl. now rewrite IH.
Qed.

(** The restaurants after [add_restaurant]: as before when it refuses, one
    more row when it accepts. *)
Lemma add_restaurant_rows schema dumps args db :
  let '(ok, db') := AddRestaurant.add_restaurant schema dumps args db in
  (ok = false /\ db' = db /\
   exists row, In row (AddRestaurant.db_restaurants db) /\ name_taken args row) \/
  (ok = true /\
   (forall row, In row (AddRestaurant.db_restaurants db) -> ~ name_taken args row) /\
   exists row,
     AddRestaurant.db_restaurants db' = AddRestaurant.db_restaurants db ++ [row] /\
     row_id row = AddRestaurant.new_restaurant_id schema (AddRestaurant.db_restaurants db) /\
     row_name row = AddRestaurant.args_name args /\
     row_subdomain row = AddRestaurant.args_subdomain args /\
     row_slug row = AddRestaurant.args_slug args /\
     row_ai_name row = Some (AddRestaurant.or_else (AddRestaurant.args_ai_name args) "Sophie") /\
     row_active row = AddRestaurant.default_active schema).
Proof.
  unfold AddRestaurant.add_restaurant.
  pose proof (find_first
    (fun row => String.eqb (row_subdomain row) (AddRestaurant.args_subdomain args) ||
                String.eqb (row_slug row) (AddRestaurant.args_slug args))
    (AddRestaurant.db_restaurants db)) as Hf.
  destruct (find _ (AddRestaurant.db_restaurants db)) as [row|].
  - left. destruct Hf as (before & after & Hrows & Hrow & _).
    split; [reflexivity|]. split; [reflexivity|].
    exists row. split; [rewrite Hrows; apply in_elt|].
    apply orb_true_iff in Hrow as [Hrow|Hrow]; apply String.eqb_eq in Hrow; [now left | now right].
  - right. split; [reflexivity|]. split.
    + intros row Hin [Hs|Hs]; specialize (Hf row Hin); apply orb_false_iff in Hf as [H1 H2].
      * apply String.eqb_neq in H1. contradiction.
      * apply String.eqb_neq in H2. contradiction.
    + eexists. split.
      * destruct (AddRestaurant.args_add_samples args); [|reflexivity].
        unfold AddRestaurant.add_sample_menu. rewrite insert_items_restaurants. reflexivity.
      * cbn. repeat split.
Qed.

Lemma NoDup_snoc {A : Type} (l : list A) (x : A) :
  List.NoDup l -> ~ In x l -> List.NoDup (l ++ [x]).
Proof.
  induction l as [|a l IH]; intros Hl Hx; simpl.
  - constructor; [intros [] | constructor].
  - inversion Hl as [|? ? Ha Hl']; subst. constructor.
    + intros Hin. apply in_app_or in Hin as [Hin|[<-|[]]]; [contradiction|].
      apply Hx. now left.
    + apply IH; [exact Hl'|]. intros Hin. apply Hx. now right.
Qed.

(** X26. [add_restaurant] keeps subdomains and slugs unique: it refuses, and
    changes nothing, exactly when some row, active or not, already has the
    subdomain or the slug asked for; otherwise it appends one row with the
    name, the subdomain and the slug of the command line. So when no two rows
    shared a subdomain or a slug before, none do afterwards. *)
Theorem add_restaurant_keeps_names_unique schema dumps args db :
  names_unique (AddRestaurant.db_restaurants db) ->
  let '(ok, db') := AddRestaurant.add_restaurant schema dumps args db in
  names_unique (AddRestaurant.db_restaurants db') /\
  (ok = false <->
   exists row, In row (AddRestaurant.db_restaurants db) /\ name_taken args row) /\
  (ok = false -> db' = db) /\
  (ok = true ->
   exists row,
     AddRestaurant.db_restaurants db' = AddRestaurant.db_restaurants db ++ [row] /\
     row_name row = AddRestaurant.args_name args /\
     row_subdomain row = AddRestaurant.args_subdomain args /\
     row_slug row = AddRestaurant.args_slug args).
Proof.
  intros [Hsub Hslug].
  pose proof (add_restaurant_rows schema dumps args db) as Hrows.
  destruct (AddRestaurant.add_restaurant schema dumps args db) as [ok db'].
  destruct Hrows as [(-> & -> & Hex)|(-> & Hfree & row & Hdb & _ & Hname & Hs & Hl & _)].
  - split; [now split|]. split; [now split|]. split; [reflexivity | discriminate].
  - split; [|split; [|split]].
    + unfold names_unique. rewrite Hdb, !map_app. cbn [map]. split.
      * apply NoDup_snoc; [exact Hsub|]. intros Hin. apply in_map_iff in Hin as (x & Hx & Hin).
        apply (Hfree x Hin). left. congruence.
      * apply NoDup_snoc; [exact Hslug|]. intros Hin. apply in_map_iff in Hin as (x & Hx & Hin).
        apply (Hfree x Hin). right. congruence.
    + split; [discriminate|]. intros (x & Hin & Hx). now destruct (Hfree x Hin).
    + discriminate.
    + intros _. exists row. auto.
Qed.

Lemma find_snoc {A : Type} (f : A -> bool) (l : list A) (x : A) :
  (forall y, In y l -> f y = false) -> f x = true -> find f (l ++ [x]) = Some x.
Proof.
  intros Hl Hx. induction l as [|a l IH]; simpl; [now rewrite Hx|].
  rewrite (Hl a) by now left. apply IH. intros y Hy. apply Hl. now right.
Qed.

(** X27. A restaurant that was added is reachable at once, when the schema
    activates new rows: in a server that reads the tables the script left,
    the lookup by the new subdomain and the lookup by the new slug both
    return the new row, with the name of the command line and the
    assistant's name, [Sophie] when none was given. *)
Theorem added_restaurant_is_found schema dumps args db w :
  AddRestaurant.default_active schema = true ->
  fst (AddRestaurant.add_restaurant schema dumps args db) = true ->
  restaurants w
    = AddRestaurant.db_restaurants (snd (AddRestaurant.add_restaurant schema dumps args db)) ->
  pg_fault w (pg_ops w) = false ->
  exists by_subdomain by_slug,
    fst (get_restaurant_by_subdomain (JStr (AddRestaurant.args_subdomain args)) w)
      = Ok (Some by_subdomain) /\
    fst (get_restaurant_by_slug (JStr (AddRestaurant.args_slug args)) w) = Ok (Some by_slug) /\
    r_slug by_slug = Some (AddRestaurant.args_slug args) /\
    r_subdomain by_subdomain = AddRestaurant.args_subdomain args /\
    r_id by_slug = r_id by_subdomain /\
    r_id by_slug = AddRestaurant.new_restaurant_id schema (AddRestaurant.db_restaurants db) /\
    r_name by_slug = AddRestaurant.args_name args /\
    r_ai_name by_slug
      = Some (AddRestaurant.or_else (AddRestaurant.args_ai_name args) "Sophie").
Proof.
  intros Hactive Hok Hw Hpg.
  pose proof (add_restaurant_rows schema dumps args db) as Hrows.
  destruct (AddRestaurant.add_restaurant schema dumps args db) as [ok db'].
  cbn [fst snd] in Hok, Hw. subst ok.
  destruct Hrows as [(? & _)|(_ & Hfree & row & Hdb & Hid & Hname & Hs & Hl & Hai & Hact)];
    [discriminate|].
  rewrite Hactive in Hact.
  pose proof (lookup_route_run subdomain (JStr (AddRestaurant.args_subdomain args)) w) as H1.
  pose proof (lookup_route_run slug (JStr (AddRestaurant.args_slug args)) w) as H2.
  cbn [lookup_route] in H1, H2. rewrite Hpg in H1, H2. cbn [text_param select_route] in H1, H2.
  rewrite H1, H2. cbn [fst]. unfold select_by_subdomain, select_by_slug.
  rewrite Hw, Hdb.
  rewrite (find_snoc _ (AddRestaurant.db_restaurants db) row),
          (find_snoc _ (AddRestaurant.db_restaurants db) row).
  - eexists _, _. split; [reflexivity|]. split; [reflexivity|]. cbn.
    rewrite Hl, Hs, Hid, Hname, Hai. repeat split.
  - intros y Hy. apply andb_false_iff. left. cbn. apply String.eqb_neq.
    intros Heq. apply (Hfree y Hy). now right.
  - cbn. rewrite Hl, String.eqb_refl. now rewrite Hact.
  - intros y Hy. apply andb_false_iff. left. cbn. apply String.eqb_neq.
    intros Heq. apply (Hfree y Hy). now left.
  - cbn. rewrite Hs, String.eqb_refl. now rewrite Hact.
Qed.

Lemma filter_none {A : Type} (f : A -> bool) (l : list A) :
  (forall x, In x l -> f x = false) -> List.filter f l = [].
Proof.
  induction l as [|a l IH]; intros Hl; [reflexivity|]. simpl.
  rewrite (Hl a) by now left. apply IH. intros x Hx. apply Hl. now right.
Qed.

(** X28. The sample menu is listed as it was written: when the schema activates
    new items and no item carried the new restaurant's id before,
    [get_menu_items] returns for the restaurant added with [--add-samples]
    the four samples, in the order of the script (their [display_order] is
    their index). *)
Theorem sample_menu_listed_in_order schema dumps args db :
  AddRestaurant.args_add_samples args = true ->
  AddRestaurant.default_item_active schema = true ->
  fst (AddRestaurant.add_restaurant schema dumps args db) = true ->
  (forall row, In row (AddRestaurant.db_menu_items db) ->
     mrow_restaurant_id row
       <> AddRestaurant.new_restaurant_id schema (AddRestaurant.db_restaurants db)) ->
  map item_name
    (select_menu_items
       (AddRestaurant.new_restaurant_id schema (AddRestaurant.db_restaurants db))
       (AddRestaurant.db_menu_items (snd (AddRestaurant.add_restaurant schema dumps args db))))
  = ["Signature Appetizer"; "Chef's Special"; "House Salad"; "Decadent Dessert"].
Proof.
  intros Hsamples Hactive Hok Hfresh. revert Hok.
  unfold AddRestaurant.add_restaurant.
  destruct (find _ (AddRestaurant.db_restaurants db)); [discriminate|]. intros _.
  rewrite Hsamples. cbn [snd]. unfold AddRestaurant.add_sample_menu.
  set (rid := AddRestaurant.new_restaurant_id schema (AddRestaurant.db_restaurants db)) in *.
  cbn [AddRestaurant.sample_items AddRestaurant.insert_items AddRestaurant.insert_item
       AddRestaurant.db_menu_items AddRestaurant.db_restaurants
       AddRestaurant.db_descriptions].
  rewrite <- !app_assoc. cbn [app].
  unfold select_menu_items. rewrite List.filter_app.
  rewrite (filter_none _ (AddRestaurant.db_menu_items db)).
  2:{ intros row Hin. apply andb_false_iff. left. apply String.eqb_neq. now apply Hfresh. }
  cbn [app List.filter mrow_restaurant_id mrow_active]. rewrite String.eqb_refl, Hactive.
  reflexivity.
Qed.

Lemma add_restaurant_keeps_names_unique_witness :
  let '(ok, db') :=
    AddRestaurant.add_restaurant sample_schema plain_dumps (nonna_args false)
      (tables_of [luigi; pepe]) in
  names_unique (AddRestaurant.db_restaurants db') /\
  (ok = false <->
   exists row, In row [luigi; pepe] /\ name_taken (nonna_args false) row) /\
  (ok = false -> db' = tables_of [luigi; pepe]) /\
  (ok = true ->
   exists row,
     AddRestaurant.db_restaurants db' = [luigi; pepe] ++ [row] /\
     row_name row = "Nonna's" /\ row_subdomain row = "nonna" /\ row_slug row = "nonna-pasta").
Proof.
  apply (add_restaurant_keeps_names_unique sample_schema plain_dumps (nonna_args false)
           (tables_of [luigi; pepe])).
  split; repeat constructor; cbn; intuition discriminate.
Defined.

Lemma added_restaurant_is_found_witness :
  let db := snd (AddRestaurant.add_restaurant sample_schema plain_dumps (nonna_args false)
                   (tables_of [luigi; pepe])) in
  let w := with_tables db (world_with [] [] false ConnectionFailed) in
  exists by_subdomain by_slug,
    fst (get_restaurant_by_subdomain (JStr "nonna") w) = Ok (Some by_subdomain) /\
    fst (get_restaurant_by_slug (JStr "nonna-pasta") w) = Ok (Some by_slug) /\
    r_slug by_slug = Some "nonna-pasta" /\
    r_subdomain by_subdomain = "nonna" /\
    r_id by_slug = r_id by_subdomain /\
    r_id by_slug = "r2" /\
    r_name by_slug = "Nonna's" /\
    r_ai_name by_slug = Some "Sophie".
Proof.
  intros db w.
  exact (added_restaurant_is_found sample_schema plain_dumps (nonna_args false)
           (tables_of [luigi; pepe]) w eq_refl eq_refl eq_refl eq_refl).
Defined.

Lemma sample_menu_listed_in_order_witness :
  map item_name
    (select_menu_items "r2"
       (AddRestaurant.db_menu_items
          (snd (AddRestaurant.add_restaurant sample_schema plain_dumps (nonna_args true)
                  (tables_of [luigi; pepe])))))
  = ["Signature Appetizer"; "Chef's Special"; "House Salad"; "Decadent Dessert"].
Proof.
  apply (sample_menu_listed_in_order sample_schema plain_dumps (nonna_args true)
           (tables_of [luigi; pepe])).
  - reflexivity.
  - reflexivity.
  - reflexivity.
  - intros row [].
Defined.

(** ** What serving a request never changes *)

Lemma served_intro w w' new :
  restaurants w' = restaurants w -> menu_items w' = menu_items w ->
  conversations w' = conversations w ++ new ->
  (cache_ttl_ok w -> cache_ttl_ok w') ->
  (redis_ops w <= redis_ops w')%nat -> (pg_ops w <= pg_ops w')%nat ->
  served w w'.
Proof. unfold served. intros. split; [|split; [|split; [|split; [|split]]]]; eauto. Qed.

Lemma served_refl w : served w w.
Proof. apply (served_intro w w []); auto. now rewrite app_nil_r. Qed.

Lemma served_trans w1 w2 w3 : served w1 w2 -> served w2 w3 -> served w1 w3.
Proof.
  unfold served.
  intros (Hr & Hm & (n1 & Hc) & Ht & Ho & Hp) (Hr' & Hm' & (n2 & Hc') & Ht' & Ho' & Hp').
  apply (served_intro w1 w3 (n1 ++ n2)); try congruence; try lia; auto.
  now rewrite Hc', Hc, app_assoc.
Qed.

(** A step that touches neither the tables nor the cache. *)
Lemma served_step w w' :
  restaurants w' = restaurants w -> menu_items w' = menu_items w ->
  conversations w' = conversations w ->
  redis_restaurant w' = redis_restaurant w -> redis_menu w' = redis_menu w ->
  (redis_ops w <= redis_ops w')%nat -> (pg_ops w <= pg_ops w')%nat ->
  served w w'.
Proof.
  intros Hr Hm Hc Hcr Hcm Ho Hp.
  apply (served_intro w w' []); auto; [now rewrite app_nil_r|].
  unfold cache_ttl_ok. now rewrite Hcr, Hcm.
Qed.

Lemma safe_here {A : Type} (c : M World A) : (forall w, snd (c w) = w) -> safe c.
Proof. intros Hc w. rewrite Hc. apply served_refl. Qed.

Lemma safe_ret {A : Type} (a : A) : safe (ret a).
Proof. now apply safe_here. Qed.

Lemma safe_raise {A : Type} (e : Exn) : safe (@raise World A e).
Proof. now apply safe_here. Qed.

Lemma safe_lift {A : Type} (r : Result A) : safe (lift r).
Proof. now apply safe_here. Qed.

Lemma safe_gets {A : Type} (f : World -> A) : safe (gets f).
Proof. now apply safe_here. Qed.

Lemma safe_log_error (msg : string) : safe (log_error msg).
Proof. intros w. now apply served_step. Qed.

Lemma safe_http_post url model prompt message : safe (http_post url model prompt message).
Proof. intros w. now apply served_step. Qed.

Lemma safe_bind {A B : Type} (c : M World A) (k : A -> M World B) :
  safe c -> (forall a, safe (k a)) -> safe (bind c k).
Proof.
  intros Hc Hk w. unfold bind. specialize (Hc w).
  destruct (c w) as [[a|e] w1]; [|exact Hc].
  eapply served_trans; [exact Hc | apply Hk].
Qed.

Lemma safe_try_except {A : Type} (c : M World A) (handler : Exn -> M World A) :
  safe c -> (forall e, safe (handler e)) -> safe (try_except c handler).
Proof.
  intros Hc Hk w. unfold try_except. specialize (Hc w).
  destruct (c w) as [[a|e] w1]; [exact Hc|].
  eapply served_trans; [exact Hc | apply Hk].
Qed.

Lemma safe_redis_command {A : Type} (e : Event) (run : World -> A * World) :
  (forall w, served w (snd (run w))) -> safe (redis_command e run).
Proof.
  intros Hrun w. unfold redis_command.
  assert (Hstep : served w (tick_redis (emit e w))) by (apply served_step; cbn; auto).
  destruct (redis_fault w (redis_ops w)); [exact Hstep|].
  specialize (Hrun (tick_redis (emit e w))).
  destruct (run (tick_redis (emit e w))) as [a w2]. eapply served_trans; eauto.
Qed.

Lemma safe_pg_command {A : Type} (e : Event) (run : World -> A * World) :
  (forall w, served w (snd (run w))) -> safe (pg_command e run).
Proof.
  intros Hrun w. unfold pg_command.
  assert (Hstep : served w (tick_pg (emit e w))) by (apply served_step; cbn; auto).
  destruct (pg_fault w (pg_ops w)); [exact Hstep|].
  specialize (Hrun (tick_pg (emit e w))).
  destruct (run (tick_pg (emit e w))) as [a w2]. eapply served_trans; eauto.
Qed.

Lemma served_set_restaurant rid r w :
  served w (set_redis_restaurant (fun m => <[rid := (ttl, r)]> m) w).
Proof.
  apply (served_intro _ _ []); cbn; auto; [now rewrite app_nil_r|].
  intros [Hr Hm]. split; cbn; [|exact Hm].
  intros k t r0. destruct (decide (k = rid)) as [->|Hne].
  - rewrite lookup_insert_eq. now intros [= <- _].
  - rewrite lookup_insert_ne by congruence. apply Hr.
Qed.

Lemma served_set_menu rid menu w :
  served w (set_redis_menu (fun m => <[rid := (ttl, menu)]> m) w).
Proof.
  apply (served_intro _ _ []); cbn; auto; [now rewrite app_nil_r|].
  intros [Hr Hm]. split; cbn; [exact Hr|].
  intros k t r0. destruct (decide (k = rid)) as [->|Hne].
  - rewrite lookup_insert_eq. now intros [= <- _].
  - rewrite lookup_insert_ne by congruence. apply Hm.
Qed.

Lemma safe_add_conversation (f : World -> Conversation) :
  safe (modify (fun w => add_conversation (f w) w)).
Proof. intros w. now apply (served_intro _ _ [f w]). Qed.

(** Goals [safe c] for a computation built from the pieces above. *)
Ltac safe_tac :=
  repeat first
    [ apply safe_ret | apply safe_raise | apply safe_lift | apply safe_gets
    | apply safe_log_error | apply safe_add_conversation | apply safe_http_post
    | apply safe_redis_command; intros ?;
        first [ apply served_refl | apply served_set_restaurant | apply served_set_menu ]
    | apply safe_pg_command; intros ?; apply served_refl
    | apply safe_bind; [|intros ?]
    | apply safe_try_except; [|intros ?]
    | match goal with
      | |- safe (if ?b then _ else _) => destruct b
      | |- safe (match ?x with _ => _ end) => destruct x
      | |- safe (let '(_, _) := ?x in _) => destruct x
      end ].

Section Served.

Context `{PyText}.

Lemma safe_lookup_route rt ident : safe (lookup_route rt ident).
Proof.
  destruct rt; unfold lookup_route, get_restaurant_by_subdomain, get_restaurant_by_slug;
    safe_tac.
Qed.

Lemma safe_generate_response ai rid m sid : safe (generate_response ai rid m sid).
Proof.
  unfold generate_response, fetch_restaurant, fetch_menu, get_restaurant, set_restaurant,
    get_menu, set_menu, get_restaurant_by_subdomain, get_menu_items, log_conversation,
    _call_ai_api.
  safe_tac.
Qed.

(** X29. Serving a request writes neither the table of restaurants nor the table
    of menu items, whatever the request, the cache, the database and the
    backend do; conversations are only appended; every cache entry written
    expires in an hour, so a cache whose entries all do stays that way. This
    holds for the menu listing, the home page and the chat turn. *)
Theorem requests_leave_tables_alone ai read_template request w :
  served w (snd (handle_menu request w)) /\
  served w (snd (handle_index read_template request w)) /\
  served w (snd (handle_chat ai request w)).
Proof.
  split; [|split].
  - revert w. change (safe (handle_menu request)). unfold handle_menu.
    destruct (get_restaurant_from_request request) as [r0 i0].
    destruct (route_from_query request r0 i0) as [[rt|] ident]; [|apply safe_ret].
    apply safe_bind; [apply safe_lookup_route | intros [r|]; [|apply safe_ret]].
    unfold get_menu, set_menu, get_menu_items. safe_tac.
  - revert w. change (safe (handle_index read_template request)). unfold handle_index.
    destruct (get_restaurant_from_request request) as [[rt|] ident]; [|apply safe_ret].
    apply safe_bind; [apply safe_lookup_route | intros [r|]; [|apply safe_ret]].
    safe_tac.
  - revert w. change (safe (handle_chat ai request)). unfold handle_chat.
    destruct (get_restaurant_from_request request) as [r0 i0].
    destruct (route_from_body request r0 i0) as [[[rt|] ident] jd]; [|apply safe_ret].
    apply safe_try_except; [|intros e; safe_tac].
    apply safe_bind; [apply safe_lift | intros data].
    apply safe_bind; [apply safe_lift | intros msg].
    apply safe_bind; [apply safe_lift | intros m].
    apply safe_bind; [apply safe_lift | intros sid].
    destruct (String.eqb m ""); [apply safe_ret|].
    apply safe_bind; [apply safe_lookup_route | intros [r|]; [|apply safe_ret]].
    apply safe_generate_response.
Qed.

Lemma call_ai_api_posts ai prompt m w :
  let '(res, w') := _call_ai_api ai prompt m w in
  emitted (BackendPost (fst (endpoint ai)) (snd (endpoint ai)) prompt m) (trace w) (trace w').
Proof.
  unfold _call_ai_api, endpoint.
  destruct (match ai_service ai with
            | Some groq => _
            | _ => _
            end) as [url model].
  unfold bind, http_post. cbn.
  destruct (backend w url model prompt m) as [|status body]; cbn; [trace_tac|].
  destruct (status =? 200); [|cbn; trace_tac].
  destruct body as [result|]; cbn; [|trace_tac].
  unfold lift.
  destruct (getitem_key result "choices") as [c|]; cbn; [|trace_tac].
  destruct (getitem_0 c) as [f|]; cbn; [|trace_tac].
  destruct (getitem_key f "message") as [msg|]; cbn; [|trace_tac].
  destruct (getitem_key msg "content"); trace_tac.
Qed.

(** X30. A session id that is not a text loses the answer: the INSERT refuses it
    after the backend was called, so for a restaurant that is found the chat
    turn ends in [Failed to generate response], although the backend, when
    one is configured, was asked. *)
Theorem non_text_session_id_loses_answer ai rid m sid e w r w1 menu w2 :
  text_param sid = Raise e ->
  fetch_restaurant rid w = (Ok (Some r), w1) ->
  fetch_menu rid r w1 = (Ok menu, w2) ->
  let '(res, w') := generate_response ai rid m sid w in
  res = Ok (Failed "Failed to generate response") /\
  (ai_service ai <> None ->
   emitted (BackendPost (fst (endpoint ai)) (snd (endpoint ai)) (build_system_prompt r menu) m)
     (trace w2) (trace w')).
Proof.
  intros Hsid Hf Hm. unfold generate_response, try_except, bind. rewrite Hf. cbv beta iota.
  rewrite Hm. cbv beta iota.
  assert (Hlog : forall text w3,
            exists e' w4, log_conversation (r_id r) sid m text w3 = (Raise e', w4) /\
                          extends (trace w3) (trace w4)).
  { intros text w3. unfold log_conversation, bind, pg_command, lift.
    destruct (pg_fault w3 (pg_ops w3)).
    - eexists _, _. split; [reflexivity | trace_tac].
    - cbv beta iota. rewrite Hsid. eexists _, _. split; [reflexivity | trace_tac]. }
  assert (Hcall : exists res3 w3,
            (match ai_service ai with
             | Some _ => _call_ai_api ai (build_system_prompt r menu) m
             | None => ret (JStr (_generate_fallback_response m r))
             end) w2 = (res3, w3) /\
            (ai_service ai <> None ->
             emitted (BackendPost (fst (endpoint ai)) (snd (endpoint ai))
                        (build_system_prompt r menu) m) (trace w2) (trace w3))).
  { destruct (ai_service ai).
    - pose proof (call_ai_api_posts ai (build_system_prompt r menu) m w2) as Hc.
      destruct (_call_ai_api ai (build_system_prompt r menu) m w2) as [res3 w3].
      exists res3, w3. split; [reflexivity | intros _; exact Hc].
    - eexists _, _. split; [reflexivity | congruence]. }
  destruct Hcall as (res3 & w3 & -> & Hpost).
  destruct res3 as [text|e3];
    [|cbn; split; [reflexivity | intros Hs; apply emitted_cons; auto]].
  unfold lift. destruct (as_str text) as [s|e3];
    [|cbn; split; [reflexivity | intros Hs; apply emitted_cons; auto]].
  cbv beta iota. destruct (Hlog s w3) as (e' & w4 & -> & Hext).
  cbn. split; [reflexivity|]. intros Hs. apply emitted_cons.
  eapply emitted_extends_r; eauto.
Qed.

End Served.

Lemma non_text_session_id_loses_answer_witness :
  let reply := Reply 200 (Some (JObj [("choices",
                 JArr [JObj [("message", JObj [("content", JStr "Try the Taco!")])]])])) in
  let w := world_with [pepe] [pepe_taco] false reply in
  let ai := new_ai None (Some "sk-test") in
  let '(res, w') := @generate_response ascii_text ai "pepe" "hungry" (JNum 5) w in
  res = Ok (Failed "Failed to generate response") /\
  (ai_service ai <> None ->
   emitted (BackendPost (fst (endpoint ai)) (snd (endpoint ai))
              (build_system_prompt (dict_of_row false pepe) [sample_item 1 "Taco"]) "hungry")
     (trace (snd (fetch_menu "pepe" (dict_of_row false pepe) (snd (fetch_restaurant "pepe" w)))))
     (trace w')).
Proof.
  intros reply w ai.
  apply (@non_text_session_id_loses_answer ascii_text ai "pepe" "hungry" (JNum 5) DataError w
           (dict_of_row false pepe) (snd (fetch_restaurant "pepe" w)) [sample_item 1 "Taco"]
           (snd (fetch_menu "pepe" (dict_of_row false pepe) (snd (fetch_restaurant "pepe" w))))).
  - reflexivity.
  - vm_compute. reflexivity.
  - vm_compute. reflexivity.
Defined.
